(** * cdQA reader: a shallow embedding of [cdqa/reader/reader_sklearn.py]

    The estimator wrapper ([Reader.fit], [Reader.evaluate], [Reader.predict])
    and the module-level helpers it drives ([load_and_cache_examples],
    [evaluate], [predict]) are embedded as functions of a small
    state-and-exception monad over a file system, together with a log of the
    calls made into the imported libraries.  The span decoders live in
    [cdqa.reader.utils_squad], which the reader only imports; they are kept
    in a module of their own, [SquadDecoder]. *)

From Stdlib Require Import ZArith Ascii String Floats.PrimFloat.
From Stdlib Require Import Floats.FloatOps Floats.SpecFloat.
From Stdlib Require Import Numbers.Cyclic.Int63.Uint63.
From stdpp Require Import base gmap strings list pretty.

Set Warnings "-register-all".

Local Open Scope string_scope.
Local Open Scope Z_scope.

(** ** Python values that cross the module boundary *)

(** What a call into [utils_squad] hands back: the reader never inspects
    these objects beyond tuple unpacking. *)
Inductive pyval :=
| PNone
| PInt (z : Z)
| PFloat (x : float)
| PStr (s : string)
| PTuple (items : list pyval)
| PList (items : list pyval)
| PDict (entries : list (pyval * pyval)).

(** ** Exceptions and outcomes *)

Inductive exn :=
| ValueError (msg : string)
| TypeError (msg : string)
| IndexError (msg : string)
| KeyError (key : string)
| FileNotFoundError (path : string)
| FileExistsError (path : string)
| NotADirectoryError (path : string)
| IsADirectoryError (path : string)
| UnpicklingError (path : string)
| UnboundLocalError (name : string)
| LibraryError (msg : string).   (* raised inside a call into an imported library *)

Inductive result (A : Type) :=
| Ok (a : A)
| Raise (e : exn).
Arguments Ok {A} a.
Arguments Raise {A} e.

(** ** Strings: the pieces of [str] and [os.path] the reader uses *)

Module PyStr.

Fixpoint to_chars (s : string) : list ascii :=
  match s with
  | EmptyString => []
  | String c s' => c :: to_chars s'
  end.

Fixpoint of_chars (l : list ascii) : string :=
  match l with
  | [] => EmptyString
  | c :: l' => String c (of_chars l')
  end.

(** [s.split(sep)] for a one-character separator: the (possibly empty)
    pieces between separators, never an empty list. *)
Fixpoint split_chars (sep : ascii) (cur : list ascii) (l : list ascii) : list string :=
  match l with
  | [] => [of_chars (rev cur)]
  | c :: l' =>
      if Ascii.eqb c sep then of_chars (rev cur) :: split_chars sep [] l'
      else split_chars sep (c :: cur) l'
  end.

Definition split (sep : ascii) (s : string) : list string :=
  split_chars sep [] (to_chars s).

Definition nonempty (s : string) : bool :=
  match s with EmptyString => false | _ => true end.

(** [list(filter(None, parts)).pop()]: the last non-empty piece, and
    [IndexError] on an empty list. *)
Definition pop_last (parts : list string) : result string :=
  match last (filter (fun p => nonempty p = true) parts) with
  | Some p => Ok p
  | None => Raise (IndexError "pop from empty list")
  end.

(** [parts[-1]] on the result of a [split]. *)
Definition last_piece (parts : list string) : string := default "" (last parts).

Definition is_slash (c : ascii) : bool := Ascii.eqb c "/"%char.

Definition startswith_slash (s : string) : bool :=
  match s with String c _ => is_slash c | EmptyString => false end.

Definition endswith_slash (s : string) : bool :=
  match rev (to_chars s) with c :: _ => is_slash c | [] => false end.

Fixpoint drop_slashes (l : list ascii) : list ascii :=
  match l with
  | c :: l' => if is_slash c then drop_slashes l' else l
  | [] => []
  end.

Fixpoint drop_to_slash (l : list ascii) : list ascii :=
  match l with
  | c :: l' => if is_slash c then l else drop_to_slash l'
  | [] => []
  end.

(** [posixpath.dirname]: [head = p[:p.rfind('/')+1]], stripped of trailing
    separators unless it consists of separators only. *)
Definition dirname (p : string) : string :=
  let rhead := drop_to_slash (rev (to_chars p)) in
  match drop_slashes rhead with
  | [] => of_chars (rev rhead)
  | stripped => of_chars (rev stripped)
  end.

(** [p.rstrip('/')]: the path without its trailing separators. *)
Definition rstrip_slashes (p : string) : string :=
  of_chars (rev (drop_slashes (rev (to_chars p)))).

(** [posixpath.join(a, b)] for two components. *)
Definition join (a b : string) : string :=
  if startswith_slash b then b
  else if negb (nonempty a) || endswith_slash a then a +:+ b
  else a +:+ "/" +:+ b.

(** [str(n)] for an integer. *)
Definition of_int (n : Z) : string := pretty n.

Fixpoint starts_with (pre l : list ascii) : bool :=
  match pre, l with
  | [], _ => true
  | p :: pre', c :: l' => Ascii.eqb p c && starts_with pre' l'
  | _ :: _, [] => false
  end.

Definition has_prefix (pre s : string) : bool :=
  starts_with (to_chars pre) (to_chars s).

(** [l] without the prefix [pre], when it starts with it. *)
Fixpoint drop_prefix (pre l : list ascii) : option (list ascii) :=
  match pre, l with
  | [], _ => Some l
  | p :: pre', c :: l' => if Ascii.eqb p c then drop_prefix pre' l' else None
  | _ :: _, [] => None
  end.

Definition has_suffix (suf s : string) : bool :=
  starts_with (rev (to_chars suf)) (rev (to_chars s)).

(** [sorted] on strings: insertion sort by code points. *)
Fixpoint insert_sorted (s : string) (l : list string) : list string :=
  match l with
  | [] => [s]
  | t :: l' => if String.leb s t then s :: l else t :: insert_sorted s l'
  end.

Definition sorted (l : list string) : list string :=
  foldr insert_sorted [] l.

End PyStr.

(** ** Tensors and what [to_list] makes of their rows *)

Inductive tensor :=
| LongVector (v : list Z)
| LongMatrix (rows : list (list Z))
| FloatVector (v : list float)
| FloatMatrix (rows : list (list float)).

Inductive pyrow :=
| IntItem (z : Z)
| FloatItem (x : float)
| IntList (l : list Z)
| FloatList (l : list float).

(** [len(t)], [t.size(0)]. *)
Definition tensor_size (t : tensor) : nat :=
  match t with
  | LongVector v => length v
  | LongMatrix r => length r
  | FloatVector v => length v
  | FloatMatrix r => length r
  end.

(** [to_list(t[i])] for the position [i] of an [enumerate]. *)
Definition tensor_row (t : tensor) (i : nat) : result pyrow :=
  let oob := Raise (IndexError "index out of range") in
  match t with
  | LongVector v => from_option (fun z => Ok (IntItem z)) oob (v !! i)
  | LongMatrix r => from_option (fun l => Ok (IntList l)) oob (r !! i)
  | FloatVector v => from_option (fun x => Ok (FloatItem x)) oob (v !! i)
  | FloatMatrix r => from_option (fun l => Ok (FloatList l)) oob (r !! i)
  end.

Definition gather {A} (idx : list nat) (l : list A) : list A :=
  omap (fun i => l !! i) idx.

(** The rows of a tensor a sampler picked for one batch. *)
Definition tensor_gather (idx : list nat) (t : tensor) : tensor :=
  match t with
  | LongVector v => LongVector (gather idx v)
  | LongMatrix r => LongMatrix (gather idx r)
  | FloatVector v => FloatVector (gather idx v)
  | FloatMatrix r => FloatMatrix (gather idx r)
  end.

(** [dtype=torch.float] on the integer marks of a [p_mask]. *)
Definition float_of_Z (z : Z) : float :=
  if z <? 0 then PrimFloat.opp (PrimFloat.of_uint63 (Uint63.of_Z (- z)))
  else PrimFloat.of_uint63 (Uint63.of_Z z).

(** ** Data model of [utils_squad] as the reader uses it *)

Record Example := {
  qas_id : string;
  question_text : string;
  context_text : string;
  word_offsets : list (nat * nat);     (* per original word: first character, length *)
  orig_answer_text : option string;
  answer_start : option nat;
  is_impossible : bool
}.

Record Feature := {
  unique_id : Z;
  example_index : nat;
  input_ids : list Z;
  input_mask : list Z;
  segment_ids : list Z;
  token_to_orig_map : gmap nat nat;
  token_is_max_context : gmap nat bool;
  cls_index : Z;
  p_mask : list Z;
  start_position : option Z;           (* [None] outside training *)
  end_position : option Z
}.

(** [RawResult] and [RawResultExtended] hold whatever [to_list] returned. *)
Inductive raw_result :=
| RawResult (uid : Z) (start_logits end_logits : pyrow)
| RawResultExtended (uid : Z)
    (start_top_log_probs start_top_index end_top_log_probs end_top_index cls_logits : pyrow).

Record Tokenizer := { vocab : string; lower_case : bool }.

(** The model callable, applied to a keyword dictionary in which a key
    bound to Python's [None] is [Some None]; and the two fields of
    [model.config] the reader reads. *)
Record Model := {
  forward : gmap string (option tensor) -> string + list tensor;
  start_n_top : Z;
  end_n_top : Z
}.

(** The argument [X] of the estimator: a path, or an in-memory object. *)
Inductive input_file :=
| InputPath (p : string)
| InputObject (obj : pyval).

(** ** The file system

    A finite map from paths, as the program writes them, to directories and
    files.  A path is looked up under the spelling the program uses for it;
    the paths below a directory are those [os.path.join] forms from it, so
    that a directory written [out/] and one written [out] have the same
    entries, and a directory's listing is read off the paths below it. *)

Inductive content :=
| Pickle (features : list Feature)
| Json (v : pyval)
| Blob (bytes : string).

Inductive node :=
| Dir
| File (c : content).

(** ** The estimator: hyper-parameters and runtime state on one object *)

Record Reader := {
  model_type : string;
  model_name_or_path : string;
  output_dir : string;
  version_2_with_negative : bool;
  null_score_diff_threshold : float;
  max_seq_length : Z;
  doc_stride : Z;
  max_query_length : Z;
  do_lower_case : bool;
  per_gpu_eval_batch_size : Z;
  n_best_size : Z;
  max_answer_length : Z;
  verbose_logging : bool;
  eval_all_checkpoints : bool;
  overwrite_output_dir : bool;
  overwrite_cache : bool;
  local_rank : Z;
  n_gpu : Z;
  model : Model;
  tokenizer : Tokenizer
}.

Definition set_model (self : Reader) (m : Model) : Reader :=
  {| model_type := model_type self;
     model_name_or_path := model_name_or_path self;
     output_dir := output_dir self;
     version_2_with_negative := version_2_with_negative self;
     null_score_diff_threshold := null_score_diff_threshold self;
     max_seq_length := max_seq_length self;
     doc_stride := doc_stride self;
     max_query_length := max_query_length self;
     do_lower_case := do_lower_case self;
     per_gpu_eval_batch_size := per_gpu_eval_batch_size self;
     n_best_size := n_best_size self;
     max_answer_length := max_answer_length self;
     verbose_logging := verbose_logging self;
     eval_all_checkpoints := eval_all_checkpoints self;
     overwrite_output_dir := overwrite_output_dir self;
     overwrite_cache := overwrite_cache self;
     local_rank := local_rank self;
     n_gpu := n_gpu self;
     model := m;
     tokenizer := tokenizer self |}.

(** ** Arguments of the calls into [utils_squad] and the SQuAD scorer *)

Record writer_args := {
  wa_examples : list Example;
  wa_features : list Feature;
  wa_results : list raw_result;
  wa_n_best_size : Z;
  wa_max_answer_length : Z;
  wa_do_lower_case : bool;
  wa_output_prediction_file : string;
  wa_output_nbest_file : string;
  wa_output_null_log_odds_file : option string;
  wa_verbose_logging : bool;
  wa_version_2_with_negative : bool;
  wa_null_score_diff_threshold : float
}.

Record writer_ext_args := {
  we_examples : list Example;
  we_features : list Feature;
  we_results : list raw_result;
  we_n_best_size : Z;
  we_max_answer_length : Z;
  we_output_prediction_file : string;
  we_output_nbest_file : string;
  we_output_null_log_odds_file : option string;
  we_orig_data_file : input_file;
  we_start_n_top : Z;
  we_end_n_top : Z;
  we_version_2_with_negative : bool;
  we_tokenizer : Tokenizer;
  we_verbose_logging : bool
}.

Record eval_opts := {
  data_file : input_file;
  pred_file : string;
  na_prob_file : option string
}.

(** ** The log of calls that leave the module *)

Inductive event :=
| LogInfo (msg : string)
| Makedirs (path : string)
| TorchLoad (path : string)
| TorchSave (path : string)
| ReadSquadExamples (input : input_file) (is_training v2 : bool)
| ConvertExamplesToFeatures (examples : list Example) (is_training : bool)
| ModelCall (inputs : gmap string (option tensor))
| WritePredictions (a : writer_args)
| WritePredictionsExtended (a : writer_ext_args)
| EvaluateOnSquad (o : eval_opts)
| FromPretrained (checkpoint : string)
| Train
| SavePretrained (dir : string).

(** ** The monad: a file system threaded through, exceptions, and the log *)

Record outcome (A : Type) := Outcome {
  value : result A;
  files : gmap string node;
  calls : list event
}.
Arguments Outcome {A} value files calls.
Arguments value {A} o.
Arguments files {A} o.
Arguments calls {A} o.

Definition M (A : Type) : Type := gmap string node -> outcome A.

Definition M_ret_def {A} (a : A) : M A := fun w => Outcome (Ok a) w [].

Definition M_bind_def {A B} (k : A -> M B) (m : M A) : M B :=
  fun w =>
    let o := m w in
    match value o with
    | Ok a => let o' := k a (files o) in
              Outcome (value o') (files o') (calls o ++ calls o')%list
    | Raise e => Outcome (Raise e) (files o) (calls o)
    end.

#[global] Instance M_ret : MRet M := @M_ret_def.
#[global] Instance M_bind : MBind M := @M_bind_def.

Definition raise {A} (e : exn) : M A := fun w => Outcome (Raise e) w [].

Definition lift_result {A} (r : result A) : M A := fun w => Outcome r w [].

Definition emit (e : event) : M unit := fun w => Outcome (Ok tt) w [e].

(** A call into a library that reads the file system: it returns a value or
    raises inside the library. *)
Definition library_call {A} (e : event) (f : gmap string node -> string + A) : M A :=
  fun w =>
    match f w with
    | inr a => Outcome (Ok a) w [e]
    | inl msg => Outcome (Raise (LibraryError msg)) w [e]
    end.

(** A call into a library that may also write files. *)
Definition library_write {A} (e : event)
    (f : gmap string node -> (string + A) * gmap string node) : M A :=
  fun w =>
    match f w with
    | (inr a, w') => Outcome (Ok a) w' [e]
    | (inl msg, w') => Outcome (Raise (LibraryError msg)) w' [e]
    end.

(** [for x in l: body], with an accumulator. *)
Fixpoint for_each {A S} (l : list A) (body : S -> A -> M S) (s : S) : M S :=
  match l with
  | [] => mret s
  | x :: l' => s' ← body s x; for_each l' body s'
  end.

(** ** [os] and [torch] on the file system *)

Definition os_path_exists (p : string) : M bool :=
  fun w => Outcome (Ok (bool_decide (is_Some (w !! p)))) w [].

(** What follows [dir/] in the path [k], when [k] lies below the directory
    [dir].  The directory may be written with trailing separators, which
    the system ignores: [out/] and [out] have the same entries. *)
Definition under (dir k : string) : option string :=
  PyStr.of_chars
    <$> PyStr.drop_prefix (PyStr.to_chars (PyStr.rstrip_slashes dir +:+ "/"))
          (PyStr.to_chars k).

(** The names directly under [p], read off the paths of the file system:
    the first component of every path below [p], each name once. *)
Definition children (w : gmap string node) (p : string) : list string :=
  remove_dups
    (omap (fun k => rest ← under p k;
                    head (filter (fun n => PyStr.nonempty n = true)
                            (PyStr.split "/" rest)))
          (map_to_list w).*1).

Definition os_listdir (p : string) : M (list string) :=
  fun w =>
    match w !! p with
    | Some Dir => Outcome (Ok (children w p)) w []
    | Some (File _) => Outcome (Raise (NotADirectoryError p)) w []
    | None => Outcome (Raise (FileNotFoundError p)) w []
    end.

Definition os_makedirs (p : string) : M unit :=
  fun w =>
    match w !! p with
    | Some _ => Outcome (Raise (FileExistsError p)) w [Makedirs p]
    | None => Outcome (Ok tt) (<[p := Dir]> w) [Makedirs p]
    end.

Definition torch_load (p : string) : M (list Feature) :=
  fun w =>
    match w !! p with
    | Some (File (Pickle fs)) => Outcome (Ok fs) w [TorchLoad p]
    | Some (File _) => Outcome (Raise (UnpicklingError p)) w [TorchLoad p]
    | Some Dir => Outcome (Raise (IsADirectoryError p)) w [TorchLoad p]
    | None => Outcome (Raise (FileNotFoundError p)) w [TorchLoad p]
    end.

Definition torch_save (c : content) (p : string) : M unit :=
  fun w =>
    match w !! p with
    | Some Dir => Outcome (Raise (IsADirectoryError p)) w [TorchSave p]
    | _ => Outcome (Ok tt) (<[p := File c]> w) [TorchSave p]
    end.

(** ** The imported functions the reader calls

    [read_squad_examples], [convert_examples_to_features] and the two
    prediction writers come from [cdqa.reader.utils_squad], the scorer from
    [cdqa.reader.utils_squad_evaluate], the rest from [torch] and
    [pytorch_transformers].  A call returns a value ([inr]) or raises inside
    the library ([inl], with the message).  [train] stands for the training
    loop of the module, which is a sequence of optimiser calls and yields
    [(global_step, tr_loss / global_step)]. *)
Class Library := {
  read_squad_examples :
    input_file -> bool -> bool -> gmap string node -> string + list Example;
  convert_examples_to_features :
    list Example -> Tokenizer -> Z -> Z -> Z -> bool -> string + list Feature;
  write_predictions :
    writer_args -> gmap string node -> (string + pyval) * gmap string node;
  write_predictions_extended :
    writer_ext_args -> gmap string node -> (string + pyval) * gmap string node;
  evaluate_on_squad : eval_opts -> gmap string node -> string + gmap string float;
  from_pretrained : string -> gmap string node -> string + Model;
  save_pretrained : string -> gmap string node -> (string + unit) * gmap string node;
  distributed_sampler : nat -> list nat;
  train : Reader -> list tensor -> gmap string node ->
          (string + Z * float) * gmap string node;
  get_rank : Z;
  WEIGHTS_NAME : string
}.

(** ** Small pieces of Python *)

(** [rank in [-1, 0]]. *)
Definition in_main_process (rank : Z) : bool := (rank =? -1) || (rank =? 0).

(** [model_type in ['xlnet', 'xlm']]. *)
Definition is_extended (mt : string) : bool :=
  String.eqb mt "xlnet" || String.eqb mt "xlm".

(** [l[i]] on a list or tuple: negative indices count from the end. *)
Definition py_index {A} (l : list A) (i : Z) : result A :=
  let n := Z.of_nat (length l) in
  let j := if i <? 0 then i + n else i in
  if (0 <=? j) && (j <? n)
  then from_option Ok (Raise (IndexError "index out of range")) (l !! Z.to_nat j)
  else Raise (IndexError "index out of range").

(** [a, b = v]: any iterable of exactly two items unpacks. *)
Definition unpack2 (v : pyval) : result (pyval * pyval) :=
  match v with
  | PTuple [a; b] | PList [a; b] => Ok (a, b)
  | PDict [(k1, _); (k2, _)] => Ok (k1, k2)
  | PStr (String c1 (String c2 EmptyString)) =>
      Ok (PStr (String c1 EmptyString), PStr (String c2 EmptyString))
  | PTuple [] | PTuple [_] | PList [] | PList [_]
  | PDict [] | PDict [_] | PStr EmptyString | PStr (String _ EmptyString) =>
      Raise (ValueError "not enough values to unpack (expected 2)")
  | PTuple _ | PList _ | PDict _ | PStr _ =>
      Raise (ValueError "too many values to unpack (expected 2)")
  | PNone | PInt _ | PFloat _ =>
      Raise (TypeError "cannot unpack non-iterable object")
  end.

Fixpoint chunks_fuel {A} (fuel n : nat) (l : list A) : list (list A) :=
  match fuel, l with
  | O, _ | _, [] => []
  | S fuel', _ => take n l :: chunks_fuel fuel' n (drop n l)
  end.

(** Consecutive batches of [n >= 1] items, the last one possibly shorter. *)
Definition chunks {A} (n : nat) (l : list A) : list (list A) :=
  chunks_fuel (length l) n l.

(** [DataLoader(dataset, sampler, batch_size)], iterated: every batch is the
    tuple of the dataset's tensors restricted to the sampled rows. *)
Definition data_loader (dataset : list tensor) (order : list nat) (batch_size : Z)
  : M (list (list tensor)) :=
  if batch_size <=? 0
  then raise (LibraryError "batch_size should be a positive integer value")
  else mret ((fun idx => tensor_gather idx <$> dataset)
               <$> chunks (Z.to_nat batch_size) order).

Definition dataset_len (dataset : list tensor) : nat :=
  from_option tensor_size O (head dataset).

(** [SequentialSampler(dataset) if local_rank == -1 else DistributedSampler(dataset)]. *)
Definition eval_sampler `{Library} (args : Reader) (dataset : list tensor) : list nat :=
  if local_rank args =? -1 then seq 0 (dataset_len dataset)
  else distributed_sampler (dataset_len dataset).

Definition batch_item (batch : list tensor) (i : nat) : result tensor :=
  from_option Ok (Raise (IndexError "tuple index out of range")) (batch !! i).

Definition output_row (outputs : list tensor) (k i : nat) : result pyrow :=
  match outputs !! k with
  | Some t => tensor_row t i
  | None => Raise (IndexError "tuple index out of range")
  end.

(** Iterating a one-dimensional integer tensor and calling [.item()]. *)
Definition tensor_items (t : tensor) : result (list Z) :=
  match t with
  | LongVector v => Ok v
  | _ => Raise (LibraryError "only one element tensors can be converted to Python scalars")
  end.

Definition result_bind {A B} (r : result A) (k : A -> result B) : result B :=
  match r with Ok a => k a | Raise e => Raise e end.

Notation "x <-? r ; k" := (result_bind r (fun x => k))
  (at level 100, r at next level, right associativity, only parsing).

Definition show_input (input : input_file) : string :=
  match input with InputPath p => p | InputObject _ => "<object>" end.

(** ** [load_and_cache_examples] *)

Definition cached_features_file (input : input_file) (args : Reader) (evaluate : bool)
  : result string :=
  name <-? PyStr.pop_last (PyStr.split "/" (model_name_or_path args));
  Ok (PyStr.join
        (match input with InputPath p => PyStr.dirname p | InputObject _ => "" end)
        ("cached_" +:+ (if evaluate then "dev" else "train") +:+ "_" +:+ name
           +:+ "_" +:+ PyStr.of_int (max_seq_length args))).

(** [torch.tensor([f.start_position for f in features])] needs integers. *)
Fixpoint positions (proj : Feature -> option Z) (fs : list Feature) : result (list Z) :=
  match fs with
  | [] => Ok []
  | f :: fs' =>
      match proj f with
      | Some z => zs <-? positions proj fs'; Ok (z :: zs)
      | None => Raise (TypeError "an integer is required (got type NoneType)")
      end
  end.

(** What the function returns: the dataset alone, or the triple. *)
Inductive loaded :=
| Dataset (dataset : list tensor)
| DatasetExamplesFeatures (dataset : list tensor) (examples : list Example)
    (features : list Feature).

Definition load_and_cache_examples `{Library} (input : input_file) (args : Reader)
    (tok : Tokenizer) (evaluate output_examples : bool) : M loaded :=
  cached ← lift_result (cached_features_file input args evaluate);
  present ← os_path_exists cached;
  '(examples, features) ←
    (if present && negb (overwrite_cache args) && negb output_examples then
       _ ← emit (LogInfo ("Loading features from cached file " +:+ cached));
       features ← torch_load cached;
       mret (None, features)
     else
       _ ← emit (LogInfo ("Creating features from dataset file at " +:+ show_input input));
       examples ← library_call
         (ReadSquadExamples input (negb evaluate) (version_2_with_negative args))
         (read_squad_examples input (negb evaluate) (version_2_with_negative args));
       features ← library_call
         (ConvertExamplesToFeatures examples (negb evaluate))
         (fun _ => convert_examples_to_features examples tok (max_seq_length args)
                     (doc_stride args) (max_query_length args) (negb evaluate));
       _ ← (if in_main_process (local_rank args) then
              _ ← emit (LogInfo ("Saving features into cached file " +:+ cached));
              torch_save (Pickle features) cached
            else mret tt);
       mret (Some examples, features));
  let all_input_ids := LongMatrix (input_ids <$> features) in
  let all_input_mask := LongMatrix (input_mask <$> features) in
  let all_segment_ids := LongMatrix (segment_ids <$> features) in
  let all_cls_index := LongVector (cls_index <$> features) in
  let all_p_mask := FloatMatrix ((fun f => float_of_Z <$> p_mask f) <$> features) in
  dataset ←
    (if evaluate then
       let all_example_index :=
         LongVector (Z.of_nat <$> seq 0 (tensor_size all_input_ids)) in
       mret [all_input_ids; all_input_mask; all_segment_ids;
             all_example_index; all_cls_index; all_p_mask]
     else
       all_start_positions ← lift_result (positions start_position features);
       all_end_positions ← lift_result (positions end_position features);
       mret [all_input_ids; all_input_mask; all_segment_ids;
             LongVector all_start_positions; LongVector all_end_positions;
             all_cls_index; all_p_mask]);
  if output_examples then
    match examples with
    | Some exs => mret (DatasetExamplesFeatures dataset exs features)
    | None => raise (UnboundLocalError "examples")
    end
  else mret (Dataset dataset).

(** ** The inference loop shared in shape by [evaluate] and [predict] *)

(** The keyword dictionary [evaluate] builds from a batch. *)
Definition evaluate_inputs (args : Reader) (batch : list tensor)
  : result (gmap string (option tensor)) :=
  ids <-? batch_item batch 0;
  mask <-? batch_item batch 1;
  types <-? (if String.eqb (model_type args) "xlm" then Ok None
             else t <-? batch_item batch 2; Ok (Some t));
  let inputs : gmap string (option tensor) :=
    <["token_type_ids" := types]>
      (<["attention_mask" := Some mask]> (<["input_ids" := Some ids]> ∅)) in
  _ <-? batch_item batch 3;
  if is_extended (model_type args) then
    cls <-? batch_item batch 4;
    pm <-? batch_item batch 5;
    Ok (<["p_mask" := Some pm]> (<["cls_index" := Some cls]> inputs))
  else Ok inputs.

(** The keyword dictionary [predict] builds from a batch. *)
Definition predict_inputs (args : Reader) (batch : list tensor)
  : result (gmap string (option tensor)) :=
  ids <-? batch_item batch 0;
  types <-? (if String.eqb (model_type args) "xlm" then Ok None
             else t <-? batch_item batch 1; Ok (Some t));
  mask <-? batch_item batch 2;
  let inputs : gmap string (option tensor) :=
    <["attention_mask" := Some mask]>
      (<["token_type_ids" := types]> (<["input_ids" := Some ids]> ∅)) in
  _ <-? batch_item batch 3;
  if is_extended (model_type args) then
    cls <-? batch_item batch 4;
    pm <-? batch_item batch 5;
    Ok (<["p_mask" := Some pm]> (<["cls_index" := Some cls]> inputs))
  else Ok inputs.

(** One [RawResult] or [RawResultExtended] for position [i] of a batch. *)
Definition make_result (args : Reader) (features : list Feature)
    (outputs : list tensor) (i : nat) (example_index : Z) : result raw_result :=
  eval_feature <-? py_index features example_index;
  let uid := unique_id eval_feature in
  if is_extended (model_type args) then
    o0 <-? output_row outputs 0 i;
    o1 <-? output_row outputs 1 i;
    o2 <-? output_row outputs 2 i;
    o3 <-? output_row outputs 3 i;
    o4 <-? output_row outputs 4 i;
    Ok (RawResultExtended uid o0 o1 o2 o3 o4)
  else
    o0 <-? output_row outputs 0 i;
    o1 <-? output_row outputs 1 i;
    Ok (RawResult uid o0 o1).

(** The body of [for batch in eval_dataloader], given how the keyword
    dictionary is built. *)
Definition run_batch (build : Reader -> list tensor -> result (gmap string (option tensor)))
    (args : Reader) (m : Model) (features : list Feature)
    (all_results : list raw_result) (batch : list tensor) : M (list raw_result) :=
  inputs ← lift_result (build args batch);
  example_indices ← lift_result (batch_item batch 3);
  outputs ← library_call (ModelCall inputs) (fun _ => forward m inputs);
  indices ← lift_result (tensor_items example_indices);
  for_each (imap (fun i z => (i, z)) indices)
    (fun acc '(i, z) =>
       r ← lift_result (make_result args features outputs i z);
       mret (acc ++ [r])%list)
    all_results.

(** The first lines of both functions: features, output directory, batches. *)
Definition prepare_batches `{Library} (input : input_file) (args : Reader)
    (tok : Tokenizer) (pfx : string)
  : M (list Example * list Feature * list (list tensor)) :=
  l ← load_and_cache_examples input args tok true true;
  match l with
  | Dataset _ => raise (TypeError "cannot unpack non-iterable TensorDataset object")
  | DatasetExamplesFeatures dataset examples features =>
      present ← os_path_exists (output_dir args);
      _ ← (if negb present && in_main_process (local_rank args)
           then os_makedirs (output_dir args) else mret tt);
      let eval_batch_size := per_gpu_eval_batch_size args * Z.max 1 (n_gpu args) in
      batches ← data_loader dataset (eval_sampler args dataset) eval_batch_size;
      _ ← emit (LogInfo ("***** Running evaluation " +:+ pfx +:+ " *****"));
      _ ← emit (LogInfo ("  Num examples = " +:+ pretty (dataset_len dataset)));
      _ ← emit (LogInfo ("  Batch size = " +:+ PyStr.of_int eval_batch_size));
      mret (examples, features, batches)
  end.

Definition output_prediction_file (args : Reader) (pfx : string) : string :=
  PyStr.join (output_dir args) ("predictions_" +:+ pfx +:+ ".json").

Definition output_nbest_file (args : Reader) (pfx : string) : string :=
  PyStr.join (output_dir args) ("nbest_predictions_" +:+ pfx +:+ ".json").

Definition null_odds_file (args : Reader) (pfx : string) : string :=
  PyStr.join (output_dir args) ("null_odds_" +:+ pfx +:+ ".json").

Definition standard_call (args : Reader) (examples : list Example)
    (features : list Feature) (all_results : list raw_result) (pfx : string)
    (null_odds : option string) : writer_args :=
  {| wa_examples := examples;
     wa_features := features;
     wa_results := all_results;
     wa_n_best_size := n_best_size args;
     wa_max_answer_length := max_answer_length args;
     wa_do_lower_case := do_lower_case args;
     wa_output_prediction_file := output_prediction_file args pfx;
     wa_output_nbest_file := output_nbest_file args pfx;
     wa_output_null_log_odds_file := null_odds;
     wa_verbose_logging := verbose_logging args;
     wa_version_2_with_negative := version_2_with_negative args;
     wa_null_score_diff_threshold := null_score_diff_threshold args |}.

Definition extended_call (input : input_file) (args : Reader) (m : Model)
    (tok : Tokenizer) (examples : list Example) (features : list Feature)
    (all_results : list raw_result) (pfx : string) (null_odds : option string)
  : writer_ext_args :=
  {| we_examples := examples;
     we_features := features;
     we_results := all_results;
     we_n_best_size := n_best_size args;
     we_max_answer_length := max_answer_length args;
     we_output_prediction_file := output_prediction_file args pfx;
     we_output_nbest_file := output_nbest_file args pfx;
     we_output_null_log_odds_file := null_odds;
     we_orig_data_file := input;
     we_start_n_top := start_n_top m;
     we_end_n_top := end_n_top m;
     we_version_2_with_negative := version_2_with_negative args;
     we_tokenizer := tok;
     we_verbose_logging := verbose_logging args |}.

(** ** [evaluate] *)

Definition evaluate `{Library} (input : input_file) (args : Reader) (m : Model)
    (tok : Tokenizer) (pfx : string) : M (gmap string float) :=
  '(examples, features, batches) ← prepare_batches input args tok pfx;
  all_results ← for_each batches (run_batch evaluate_inputs args m features) [];
  let output_null_log_odds_file :=
    if version_2_with_negative args then Some (null_odds_file args pfx) else None in
  _ ← (if is_extended (model_type args) then
         let a := extended_call input args m tok examples features all_results pfx
                    output_null_log_odds_file in
         library_write (WritePredictionsExtended a) (write_predictions_extended a)
       else
         let a := standard_call args examples features all_results pfx
                    output_null_log_odds_file in
         library_write (WritePredictions a) (write_predictions a));
  let evaluate_options :=
    {| data_file := input;
       pred_file := output_prediction_file args pfx;
       na_prob_file := output_null_log_odds_file |} in
  library_call (EvaluateOnSquad evaluate_options) (evaluate_on_squad evaluate_options).

(** ** [predict] *)

Definition predict `{Library} (input : input_file) (args : Reader) (m : Model)
    (tok : Tokenizer) (pfx : string) : M pyval :=
  '(examples, features, batches) ← prepare_batches input args tok pfx;
  all_results ← for_each batches (run_batch predict_inputs args m features) [];
  let output_null_log_odds_file := Some (null_odds_file args pfx) in
  if is_extended (model_type args) then
    let a := extended_call input args m tok examples features all_results pfx
               output_null_log_odds_file in
    r ← library_write (WritePredictionsExtended a) (write_predictions_extended a);
    '(out_eval, final_prediction) ← lift_result (unpack2 r);
    mret final_prediction
  else
    let a := standard_call args examples features all_results pfx
               output_null_log_odds_file in
    final_prediction ← library_write (WritePredictions a) (write_predictions a);
    mret final_prediction.

(** ** The estimator's methods *)

Definition output_dir_message (dir : string) : string :=
  "Output directory (" +:+ dir
    +:+ ") already exists and is not empty. Use --overwrite_output_dir to overcome.".


(** A name the recursive pattern [**] descends into: [glob] skips the
    names that start with a dot. *)
Definition visible (name : string) : bool :=
  PyStr.nonempty name && negb (PyStr.has_prefix "." name).

(** The path [k] matches [dir + '/**/' + WEIGHTS_NAME]: it lies below
    [dir], its last component is [WEIGHTS_NAME], and the components between
    the two, if any, are visible.  [glob] splits the pattern with
    [os.path.split], which drops the trailing separators of [dir]. *)
Definition weights_path `{Library} (dir k : string) : bool :=
  match under dir k with
  | Some rest =>
      let pieces := PyStr.split "/" rest in
      String.eqb (PyStr.last_piece pieces) WEIGHTS_NAME
      && forallb visible (removelast pieces)
  | None => false
  end.

(** [glob.glob(output_dir + '/**/' + WEIGHTS_NAME, recursive=True)]: the
    weight files at any depth under the directory.  A match is spelled with
    the directory as [os.path.split] leaves it: without its trailing
    separators, unless it consists of separators only, which are kept. *)
Definition glob_weights `{Library} (dir : string) : M (list string) :=
  fun w =>
    let spelled k :=
      if PyStr.nonempty (PyStr.rstrip_slashes dir) then k else dir +:+ k in
    Outcome
      (Ok (spelled <$> filter (fun k => weights_path dir k = true) (map_to_list w).*1))
      w [].

(** [dict((k + suffix, v) for k, v in result.items())]. *)
Definition rename_keys (sfx : string) (r : gmap string float) : gmap string float :=
  list_to_map ((fun kv => (kv.1 +:+ sfx, kv.2)) <$> map_to_list r).

(** [Reader.evaluate]; the estimator is returned with the model the last
    checkpoint left in [self.model]. *)
Definition Reader_evaluate `{Library} (self : Reader) (X : input_file)
  : M (gmap string float * Reader) :=
  '(results, self') ←
    (if in_main_process (local_rank self) then
       checkpoints ←
         (if eval_all_checkpoints self then
            found ← glob_weights (output_dir self);
            mret (PyStr.dirname <$> PyStr.sorted found)
          else mret [output_dir self]);
       _ ← emit (LogInfo "Evaluate the following checkpoints");
       for_each checkpoints
         (fun '(results, self) checkpoint =>
            let global_step :=
              if (1 <? Z.of_nat (length checkpoints))
              then PyStr.last_piece (PyStr.split "-" checkpoint) else "" in
            m ← library_call (FromPretrained checkpoint) (from_pretrained checkpoint);
            let self := set_model self m in
            r ← evaluate X self (model self) (tokenizer self) global_step;
            let r := rename_keys
                       (if PyStr.nonempty global_step then "_" +:+ global_step else "") r in
            mret (r ∪ results, self))
         (∅, self)
     else mret (∅, self));
  _ ← emit (LogInfo "Results");
  mret (results, self').

(** [Reader.predict]. *)
Definition Reader_predict `{Library} (self : Reader) (X : input_file)
  : M (pyval * pyval) :=
  r ← predict X self (model self) (tokenizer self) "";
  '(out_eval, final_prediction) ← lift_result (unpack2 r);
  mret (out_eval, final_prediction).

(** ** The span decoders and the answer aggregator of [utils_squad]

    The reader imports [write_predictions] and [write_predictions_extended]
    from [cdqa.reader.utils_squad]; the definitions below follow the design
    document's description of them (its sections 3, 4.2, 4.3, 4.4 and 6). *)

Module SquadDecoder.

Section Decoder.

(** [math.exp] on floats, which the softmax needs. *)
Variable exp : float -> float.

(** Modelled from the spec: a Candidate span, (feature index, start token
    index, end token index, combined score); the two summands of the score
    are kept because the n-best file lists them. *)
Record candidate := {
  feature_index : nat;
  start_index : nat;
  end_index : nat;
  start_logit : float;
  end_logit : float
}.

(** Modelled from the spec: score = start_logit + end_logit (4.2), or
    start_log_prob + end_log_prob (4.3). *)
Definition score (c : candidate) : float :=
  (start_logit c + end_logit c)%float.

Definition floats (r : pyrow) : list float :=
  match r with FloatList l => l | _ => [] end.

Definition ints (r : pyrow) : list Z :=
  match r with IntList l => l | _ => [] end.

Definition uid_of (r : raw_result) : Z :=
  match r with RawResult u _ _ => u | RawResultExtended u _ _ _ _ _ => u end.

Fixpoint insert_desc {A} (key : A -> float) (x : A) (l : list A) : list A :=
  match l with
  | [] => [x]
  | y :: l' =>
      if PrimFloat.ltb (key x) (key y) then y :: insert_desc key x l' else x :: l
  end.

(** Modelled from the spec: "sort descending by score"; equal scores keep
    their order, so that the first seen stays first. *)
Definition sort_desc {A} (key : A -> float) (l : list A) : list A :=
  foldr (insert_desc key) [] l.

(** Modelled from the spec: "select the top n_best_size start-token indices
    and top n_best_size end-token indices by raw logit value". *)
Definition best_indexes (logits : list float) (n : nat) : list nat :=
  take n (sort_desc snd (imap (fun i x => (i, x)) logits)).*1.

(** Modelled from the spec: [p_mask] "marks non-context positions"; a
    position is selectable when its mark is 0. *)
Definition is_context (f : Feature) (i : nat) : bool :=
  match p_mask f !! i with
  | Some 0 => true
  | _ => false
  end.

(** Modelled from the spec: "discard any pair where p_mask marks either
    position as non-context, where end < start, or where
    end - start + 1 > max_answer_length". *)
Definition valid_span (f : Feature) (max_len : Z) (s e : nat) : bool :=
  is_context f s && is_context f e && (s <=? e)%nat
  && (Z.of_nat e - Z.of_nat s + 1 <=? max_len).

(** Modelled from the spec: the standard decoder on one (Feature, RawResult)
    pair (4.2): the cross product of the top start and end indices, filtered. *)
Definition standard_candidates (n_best : nat) (max_len : Z)
    (fi : nat) (f : Feature) (r : raw_result) : list candidate :=
  match r with
  | RawResult _ sl el =>
      s ← best_indexes (floats sl) n_best;
      e ← best_indexes (floats el) n_best;
      if valid_span f max_len s e then
        match floats sl !! s, floats el !! e with
        | Some a, Some b =>
            [{| feature_index := fi; start_index := s; end_index := e;
                start_logit := a; end_logit := b |}]
        | _, _ => []
        end
      else []
  | RawResultExtended _ _ _ _ _ _ => []
  end.

(** The first [k] (position, log-probability) pairs of one side of a beam. *)
Definition beams (idx lp : pyrow) (k : nat) : list (nat * float) :=
  omap (fun ip => if 0 <=? ip.1 then Some (Z.to_nat ip.1, ip.2) else None)
       (take k (zip (ints idx) (floats lp))).

Definition is_cls (f : Feature) (i : nat) : bool := Z.of_nat i =? cls_index f.

(** Modelled from the spec: the extended decoder on one (Feature, RawResult)
    pair (4.3): the cross product of the K start and K end positions under
    "the same p_mask and max_answer_length validity filters"; it "never
    considers the CLS position as a valid answer span". *)
Definition extended_candidates (k_start k_end : nat) (max_len : Z)
    (fi : nat) (f : Feature) (r : raw_result) : list candidate :=
  match r with
  | RawResultExtended _ slp si elp ei _ =>
      sa ← beams si slp k_start;
      eb ← beams ei elp k_end;
      if valid_span f max_len sa.1 eb.1 && negb (is_cls f sa.1) && negb (is_cls f eb.1)
      then [{| feature_index := fi; start_index := sa.1; end_index := eb.1;
               start_logit := sa.2; end_logit := eb.2 |}]
      else []
  | RawResult _ _ _ => []
  end.

Definition float_min (x y : float) : float := if PrimFloat.ltb y x then y else x.

Definition float_max (x y : float) : float := if PrimFloat.ltb x y then y else x.

Definition minimum (l : list float) : option float :=
  match l with
  | [] => None
  | x :: l' => Some (foldl float_min x l')
  end.

(** Modelled from the spec: the null-answer score of one window,
    [start_logits[cls_index] + end_logits[cls_index]] (4.2) or [cls_logits]
    (4.3). *)
Definition window_null_score (f : Feature) (r : raw_result) : option float :=
  match r with
  | RawResult _ sl el =>
      if cls_index f <? 0 then None
      else
        a ← floats sl !! Z.to_nat (cls_index f);
        b ← floats el !! Z.to_nat (cls_index f);
        Some (a + b)%float
  | RawResultExtended _ _ _ _ _ (FloatItem c) => Some c
  | RawResultExtended _ _ _ _ _ _ => None
  end.

(** Modelled from the spec: the (Feature, RawResult) pairs of one Example,
    in feature order, joined on [unique_id]. *)
Definition windows (features : list Feature) (results : list raw_result)
    (ei : nat) : list (nat * Feature * raw_result) :=
  omap (fun ifx : nat * Feature =>
          if (example_index ifx.2 =? ei)%nat then
            r ← list_find (fun r => uid_of r = unique_id ifx.2) results;
            Some (ifx.1, ifx.2, r.2)
          else None)
       (imap (fun i f => (i, f)) features).

(** Modelled from the spec: "token span -> original word span -> character
    substring" (4.4), from the first character of the first word to the last
    character of the last word. *)
Definition span_text (e : Example) (f : Feature) (c : candidate) : option string :=
  ws ← token_to_orig_map f !! start_index c;
  we ← token_to_orig_map f !! end_index c;
  so ← word_offsets e !! ws;
  eo ← word_offsets e !! we;
  Some (String.substring so.1 (eo.1 + eo.2 - so.1) (context_text e)).

Definition lower (c : ascii) : ascii :=
  let n := nat_of_ascii c in
  if (65 <=? n)%nat && (n <=? 90)%nat then ascii_of_nat (n + 32) else c.

Definition is_blank (c : ascii) : bool :=
  let n := nat_of_ascii c in
  (n =? 32)%nat || ((9 <=? n)%nat && (n <=? 13)%nat).

Fixpoint squeeze (pending : bool) (l : list ascii) : list ascii :=
  match l with
  | [] => []
  | c :: l' =>
      if is_blank c then squeeze true l'
      else (if pending then [" "%char] else []) ++ lower c :: squeeze false l'
  end.

(** Modelled from the spec: the "case/whitespace-normalized" text that
    de-duplication compares. *)
Definition normalize (s : string) : string :=
  match squeeze false (PyStr.to_chars s) with
  | c :: l => if Ascii.eqb c " "%char then PyStr.of_chars l else PyStr.of_chars (c :: l)
  | [] => EmptyString
  end.

(** Modelled from the spec: "deduplicating by identical resulting text
    (case/whitespace-normalized) - first-seen (highest score) wins". *)
Fixpoint dedupe (seen : gset string) (l : list (candidate * string))
  : list (candidate * string) :=
  match l with
  | [] => []
  | ct :: l' =>
      let k := normalize ct.2 in
      if bool_decide (k ∈ seen) then dedupe seen l'
      else ct :: dedupe ({[k]} ∪ seen) l'
  end.

(** Modelled from the spec: "a softmax over the top candidates' scores"
    (4.4), shifted by the largest score. *)
Definition softmax (scores : list float) : list float :=
  match scores with
  | [] => []
  | s0 :: rest =>
      let top := foldl float_max s0 rest in
      let es := (fun s => exp (s - top)%float) <$> scores in
      let total := foldl PrimFloat.add 0%float es in
      (fun x => (x / total)%float) <$> es
  end.

(** Modelled from the spec: one entry of the n-best list,
    {text, probability, start_logit, end_logit} (6). *)
Record nbest_entry := {
  text : string;
  probability : float;
  entry_start_logit : float;
  entry_end_logit : float
}.

(** Modelled from the spec: the Final Prediction of one Example (3): best
    answer text (empty for "no answer"), the n-best list, and in 2.0 mode
    [null_score - best_non_null_score]. *)
Record prediction := {
  example_id : string;
  answer : string;
  nbest : list nbest_entry;
  odds : option float
}.

(** The two decoders differ in how one window yields candidates. *)
Inductive decoder :=
| Standard
| Extended (k_start k_end : nat).

Definition candidates_of (d : decoder) (n_best : nat) (max_len : Z)
    (fi : nat) (f : Feature) (r : raw_result) : list candidate :=
  match d with
  | Standard => standard_candidates n_best max_len fi f r
  | Extended ks ke => extended_candidates ks ke max_len fi f r
  end.

(** Modelled from the spec: "collect all valid candidates across all
    Features of the Example" (4.2), each with its reconstructed text. *)
Definition example_candidates (d : decoder) (n_best : nat) (max_len : Z)
    (e : Example) (ws : list (nat * Feature * raw_result))
  : list (candidate * string) :=
  w ← ws;
  c ← candidates_of d n_best max_len w.1.1 w.1.2 w.2;
  match span_text e w.1.2 c with
  | Some t => [(c, t)]
  | None => []
  end.

(** Modelled from the spec: "sort descending by score, keep top n_best_size
    after deduplicating by identical resulting text". *)
Definition rank (n_best : nat) (l : list (candidate * string))
  : list (candidate * string) :=
  take n_best (dedupe ∅ (sort_desc (fun ct => score ct.1) l)).

Definition entries (ranked : list (candidate * string)) : list nbest_entry :=
  zip_with (fun ct p => {| text := ct.2; probability := p;
                           entry_start_logit := start_logit ct.1;
                           entry_end_logit := end_logit ct.1 |})
           ranked (softmax ((fun ct => score ct.1) <$> ranked)).

(** Modelled from the spec: the null-answer score of an Example, the
    minimum over its windows (4.2, 4.3). *)
Definition null_score (ws : list (nat * Feature * raw_result)) : option float :=
  minimum (omap (fun w => window_null_score w.1.2 w.2) ws).

(** Modelled from the spec: the answer aggregator on one Example (4.4, 7):
    no candidate gives the no-answer result; in 2.0 mode
    [null_score - best_non_null_score] above the threshold gives the empty
    answer, otherwise the best candidate's text is the answer. *)
Definition decode_example (d : decoder) (n_best : nat) (max_len : Z)
    (v2 : bool) (threshold : float) (features : list Feature)
    (results : list raw_result) (ei : nat) (e : Example) : prediction :=
  let ws := windows features results ei in
  let ranked := rank n_best (example_candidates d n_best max_len e ws) in
  let diff :=
    if v2 then
      match null_score ws, ranked with
      | Some ns, best :: _ => Some (ns - score best.1)%float
      | _, _ => None
      end
    else None in
  let best_text := from_option snd "" (head ranked) in
  {| example_id := qas_id e;
     answer := match diff with
               | Some x => if PrimFloat.ltb threshold x then "" else best_text
               | None => best_text
               end;
     nbest := entries ranked;
     odds := diff |}.

Definition decode (d : decoder) (n_best : nat) (max_len : Z) (v2 : bool)
    (threshold : float) (examples : list Example) (features : list Feature)
    (results : list raw_result) : list prediction :=
  imap (decode_example d n_best max_len v2 threshold features results) examples.

(** Modelled from the spec: the persisted files (6): Example id to best
    answer text, Example id to the ordered n-best list, and in 2.0 mode
    Example id to the null odds. *)
Definition predictions_json (ps : list prediction) : pyval :=
  PDict ((fun p => (PStr (example_id p), PStr (answer p))) <$> ps).

Definition entry_json (n : nbest_entry) : pyval :=
  PDict [(PStr "text", PStr (text n));
         (PStr "probability", PFloat (probability n));
         (PStr "start_logit", PFloat (entry_start_logit n));
         (PStr "end_logit", PFloat (entry_end_logit n))].

Definition nbest_json (ps : list prediction) : pyval :=
  PDict ((fun p => (PStr (example_id p), PList (entry_json <$> nbest p))) <$> ps).

Definition odds_json (ps : list prediction) : pyval :=
  PDict (omap (fun p => x ← odds p; Some (PStr (example_id p), PFloat x)) ps).

Definition save_json (path : string) (v : pyval) (w : gmap string node)
  : gmap string node :=
  <[path := File (Json v)]> w.

(** Modelled from the spec: the prediction-writing step: decode the whole
    batch, then write the prediction file, the n-best file and, in 2.0 mode,
    the null-odds file; the value handed back is the pair (n-best details,
    final predictions). *)
Definition write_files (ps : list prediction) (pred_path nbest_path : string)
    (odds_path : option string) (v2 : bool) (w : gmap string node)
  : (string + pyval) * gmap string node :=
  let w1 := save_json pred_path (predictions_json ps) w in
  let w2 := save_json nbest_path (nbest_json ps) w1 in
  let w3 := match odds_path with
            | Some p => if v2 then save_json p (odds_json ps) w2 else w2
            | None => w2
            end in
  (inr (PTuple [nbest_json ps; predictions_json ps]), w3).

(** Modelled from the spec: [write_predictions], the standard decoder
    followed by the aggregator and the files. *)
Definition write_predictions (a : writer_args) (w : gmap string node)
  : (string + pyval) * gmap string node :=
  write_files
    (decode Standard (Z.to_nat (wa_n_best_size a)) (wa_max_answer_length a)
       (wa_version_2_with_negative a) (wa_null_score_diff_threshold a)
       (wa_examples a) (wa_features a) (wa_results a))
    (wa_output_prediction_file a) (wa_output_nbest_file a)
    (wa_output_null_log_odds_file a) (wa_version_2_with_negative a) w.

(** Modelled from the spec: [write_predictions_extended], the beam decoder
    followed by the aggregator and the files; the threshold of the extended
    writer is not an argument of the call and is taken as 0. *)
Definition write_predictions_extended (a : writer_ext_args) (w : gmap string node)
  : (string + pyval) * gmap string node :=
  write_files
    (decode (Extended (Z.to_nat (we_start_n_top a)) (Z.to_nat (we_end_n_top a)))
       (Z.to_nat (we_n_best_size a)) (we_max_answer_length a)
       (we_version_2_with_negative a) 0%float
       (we_examples a) (we_features a) (we_results a))
    (we_output_prediction_file a) (we_output_nbest_file a)
    (we_output_null_log_odds_file a) (we_version_2_with_negative a) w.

End Decoder.

End SquadDecoder.

(** ** Vocabulary of the statements *)

(** A computation raises only exceptions in [E] and logs only calls in [C],
    from every file system. *)
Definition confined {A} (E : exn -> Prop) (C : event -> Prop) (m : M A) : Prop :=
  forall w, (forall e, value (m w) = Raise e -> E e) /\ Forall C (calls (m w)).

Definition not_value_error (e : exn) : Prop := forall msg, e <> ValueError msg.

Definition not_torch_load (ev : event) : Prop := forall p, ev <> TorchLoad p.

(** A class of events that holds of every call except, possibly, a read of
    the feature cache and the calls of the two prediction writers. *)
Definition quiet (C : event -> Prop) : Prop :=
  forall ev,
    match ev with
    | TorchLoad _ | WritePredictions _ | WritePredictionsExtended _ => True
    | _ => C ev
    end.

Definition any_exn (e : exn) : Prop := True.

Definition any_event (ev : event) : Prop := True.

(** The directory exists and lists at least one name. *)
Definition nonempty_dir (w : gmap string node) (p : string) : Prop :=
  w !! p = Some Dir /\ children w p <> [].


(** The keyword arguments of the model calls in a log, in order. *)
Definition model_calls (l : list event) : list (gmap string (option tensor)) :=
  omap (fun ev => match ev with ModelCall i => Some i | _ => None end) l.

(** The null-odds argument of every writer call in a log, in order. *)
Definition null_odds_arguments (l : list event) : list (option string) :=
  omap (fun ev => match ev with
                  | WritePredictions a => Some (wa_output_null_log_odds_file a)
                  | WritePredictionsExtended a => Some (we_output_null_log_odds_file a)
                  | _ => None
                  end) l.

(** ** A small concrete run: one question over one sentence *)

Definition demo_example : Example :=
  {| qas_id := "q1";
     question_text := "Since when?";
     context_text := "since January 2016";
     word_offsets := [(0, 5); (6, 7); (14, 4)]%nat;
     orig_answer_text := None;
     answer_start := None;
     is_impossible := false |}.

(** [[CLS] since when [SEP] since january 2016 [SEP]]. *)
Definition demo_feature : Feature :=
  {| unique_id := 1000000000;
     example_index := 0;
     input_ids := [101; 2144; 2043; 102; 2144; 2254; 2355; 102];
     input_mask := [1; 1; 1; 1; 1; 1; 1; 1];
     segment_ids := [0; 0; 0; 0; 1; 1; 1; 1];
     token_to_orig_map := {[ 4%nat := 0%nat; 5%nat := 1%nat; 6%nat := 2%nat ]};
     token_is_max_context := {[ 4%nat := true; 5%nat := true; 6%nat := true ]};
     cls_index := 0;
     p_mask := [1; 1; 1; 1; 0; 0; 0; 1];
     start_position := Some 5;
     end_position := Some 6 |}.

Definition demo_start_logits : list float :=
  [0.5; -3; -4; -5; -1; 6; 1; -5]%float.

Definition demo_end_logits : list float :=
  [0.25; -4; -3; -5; -2; 1; 7; -5]%float.

(** A model that answers every batch row with the same logits: the pair of
    the standard models, or the five outputs of the extended ones when the
    call carries [cls_index]. *)
Definition demo_forward (inputs : gmap string (option tensor)) : string + list tensor :=
  match inputs !! "input_ids" with
  | Some (Some ids) =>
      let n := tensor_size ids in
      match inputs !! "cls_index" with
      | Some _ =>
          inr [FloatMatrix (replicate n [6; 1]%float);
               LongMatrix (replicate n [5; 6]);
               FloatMatrix (replicate n [7; 1; 7; 1]%float);
               LongMatrix (replicate n [6; 5; 6; 5]);
               FloatVector (replicate n (-2)%float)]
      | None =>
          inr [FloatMatrix (replicate n demo_start_logits);
               FloatMatrix (replicate n demo_end_logits)]
      end
  | _ => inl "forward() missing input_ids"
  end.

Definition demo_model : Model :=
  {| forward := demo_forward; start_n_top := 2; end_n_top := 2 |}.

(** What a writer of the demonstration library hands back: a pair of
    evaluation details and the final answer. *)
Definition demo_prediction : pyval :=
  PTuple [PDict [(PStr "q1", PStr "January 2016")]; PStr "January 2016"].

#[local] Instance demo_library : Library :=
  {| read_squad_examples := fun _ _ _ _ => inr [demo_example];
     convert_examples_to_features := fun _ _ _ _ _ _ => inr [demo_feature];
     write_predictions := fun a w =>
       (inr demo_prediction,
        <[wa_output_prediction_file a := File (Json (PDict [(PStr "q1", PStr "January 2016")]))]> w);
     write_predictions_extended := fun a w =>
       (inr demo_prediction,
        <[we_output_prediction_file a := File (Json (PDict [(PStr "q1", PStr "January 2016")]))]> w);
     evaluate_on_squad := fun _ _ => inr {[ "exact" := 100%float; "f1" := 100%float ]};
     from_pretrained := fun _ _ => inr demo_model;
     save_pretrained := fun dir w =>
       (inr tt, <[PyStr.join dir "pytorch_model.bin" := File (Blob "weights")]> w);
     distributed_sampler := fun n => seq 0 n;
     train := fun _ _ w => (inr (1, 0.5%float), w);
     get_rank := 0;
     WEIGHTS_NAME := "pytorch_model.bin" |}.

Definition demo_reader (mt : string) (v2 overwrite_out overwrite_c : bool) (rank : Z)
  : Reader :=
  {| model_type := mt;
     model_name_or_path := "models/bert-base-uncased";
     output_dir := "out";
     version_2_with_negative := v2;
     null_score_diff_threshold := 0%float;
     max_seq_length := 384;
     doc_stride := 128;
     max_query_length := 64;
     do_lower_case := true;
     per_gpu_eval_batch_size := 8;
     n_best_size := 20;
     max_answer_length := 30;
     verbose_logging := true;
     eval_all_checkpoints := true;
     overwrite_output_dir := overwrite_out;
     overwrite_cache := overwrite_c;
     local_rank := rank;
     n_gpu := 0;
     model := demo_model;
     tokenizer := {| vocab := "bert-base-uncased"; lower_case := true |} |}.

Definition demo_input : input_file := InputPath "data/dev.json".

(** A data directory with the SQuAD file, and nothing else. *)
Definition demo_files : gmap string node :=
  {[ "data" := Dir; "data/dev.json" := File (Blob "squad") ]}.

(** The same, with a truncated feature cache left by an interrupted run. *)
Definition files_with_broken_cache : gmap string node :=
  <["data/cached_train_bert-base-uncased_384" := File (Blob "truncated")]> demo_files.

(** The same, with an output directory that holds a checkpoint. *)
Definition files_with_checkpoint : gmap string node :=
  <["out" := Dir]> (<["out/pytorch_model.bin" := File (Blob "weights")]> demo_files).

Definition demo_result : raw_result :=
  RawResult 1000000000 (FloatList demo_start_logits) (FloatList demo_end_logits).

Definition demo_result_extended : raw_result :=
  RawResultExtended 1000000000 (FloatList [6; 1]%float) (IntList [5; 6])
    (FloatList [7; 1]%float) (IntList [6; 5]) (FloatItem (-2)%float).

(** The same, with the feature cache a finished training run left. *)
Definition files_with_cache : gmap string node :=
  <["data/cached_train_bert-base-uncased_384" := File (Pickle [demo_feature])]> demo_files.

(** ** More vocabulary: what loading returns and writes *)

(** The tensors [load_and_cache_examples] builds once it holds the features
    (its lines 300-315), as a function of the features alone. *)
Definition dataset_tensors (evaluate : bool) (features : list Feature)
  : result (list tensor) :=
  let all_input_ids := LongMatrix (input_ids <$> features) in
  let all_input_mask := LongMatrix (input_mask <$> features) in
  let all_segment_ids := LongMatrix (segment_ids <$> features) in
  let all_cls_index := LongVector (cls_index <$> features) in
  let all_p_mask := FloatMatrix ((fun f => float_of_Z <$> p_mask f) <$> features) in
  if evaluate then
    Ok [all_input_ids; all_input_mask; all_segment_ids;
        LongVector (Z.of_nat <$> seq 0 (tensor_size all_input_ids));
        all_cls_index; all_p_mask]
  else
    all_start_positions <-? positions start_position features;
    all_end_positions <-? positions end_position features;
    Ok [all_input_ids; all_input_mask; all_segment_ids;
        LongVector all_start_positions; LongVector all_end_positions;
        all_cls_index; all_p_mask].

(** The value returned for a dataset, with or without [output_examples]. *)
Definition loaded_of (output_examples : bool) (examples : list Example)
    (features : list Feature) (d : list tensor) : loaded :=
  if output_examples then DatasetExamplesFeatures d examples features else Dataset d.

Definition loaded_dataset (l : loaded) : list tensor :=
  match l with Dataset d | DatasetExamplesFeatures d _ _ => d end.

(** A computation changes the file system at most on the paths in [K]. *)
Definition frames {A} (K : string -> Prop) (m : M A) : Prop :=
  forall w k, ~ K k -> files (m w) !! k = w !! k.

(** The [unique_id] a raw result carries. *)
Definition result_id (r : raw_result) : Z :=
  match r with RawResult u _ _ => u | RawResultExtended u _ _ _ _ _ => u end.

(** The results a writer call was handed, with the features beside them. *)
Definition written_results (ev : event) : option (list raw_result * list Feature) :=
  match ev with
  | WritePredictions a => Some (wa_results a, wa_features a)
  | WritePredictionsExtended a => Some (we_results a, we_features a)
  | _ => None
  end.

Definition is_extended_result (r : raw_result) : bool :=
  match r with RawResult _ _ _ => false | RawResultExtended _ _ _ _ _ _ => true end.

(** The estimator with [eval_all_checkpoints] set as given. *)
Definition set_eval_all_checkpoints (self : Reader) (b : bool) : Reader :=
  {| model_type := model_type self;
     model_name_or_path := model_name_or_path self;
     output_dir := output_dir self;
     version_2_with_negative := version_2_with_negative self;
     null_score_diff_threshold := null_score_diff_threshold self;
     max_seq_length := max_seq_length self;
     doc_stride := doc_stride self;
     max_query_length := max_query_length self;
     do_lower_case := do_lower_case self;
     per_gpu_eval_batch_size := per_gpu_eval_batch_size self;
     n_best_size := n_best_size self;
     max_answer_length := max_answer_length self;
     verbose_logging := verbose_logging self;
     eval_all_checkpoints := b;
     overwrite_output_dir := overwrite_output_dir self;
     overwrite_cache := overwrite_cache self;
     local_rank := local_rank self;
     n_gpu := n_gpu self;
     model := model self;
     tokenizer := tokenizer self |}.

(** * Training and construction: [set_seed], [train] and [Reader.__init__]

    The training loop and the constructor raise exceptions and calls libraries the inference
    code does not, and their libraries carry state of their own (parameters,
    optimiser, random generators, devices).  They run in a second monad, over the
    file system paired with that state, into which the computations of the
    reader are lifted. *)

Module Training.

Inductive raised :=
| Reader_exn (e : exn)                 (* an exception of the reader's code above *)
| ZeroDivisionError (msg : string)
| OverflowError (msg : string)
| ImportError (msg : string)
| AttributeError (msg : string).

Inductive completion (A : Type) :=
| Returns (a : A)
| Raises (e : raised).
Arguments Returns {A} a.
Arguments Raises {A} e.

(** A Python number: [num_train_epochs] is a float by default and an int
    once [train] has recomputed it. *)
Inductive number :=
| Int (z : Z)
| Float (f : float).

(** [int(x)]: truncation towards zero. *)
Definition py_int (x : number) : completion Z :=
  match x with
  | Int z => Returns z
  | Float f =>
      match Prim2SF f with
      | S754_zero _ => Returns 0
      | S754_finite s m e =>
          let a := if 0 <=? e then Z.pos m * 2 ^ e else Z.pos m / 2 ^ (- e) in
          Returns (if s then - a else a)
      | S754_infinity _ =>
          Raises (OverflowError "cannot convert float infinity to integer")
      | S754_nan =>
          Raises (Reader_exn (ValueError "cannot convert float NaN to integer"))
      end
  end.

(** [a * x] for an int [a]. *)
Definition times (a : Z) (x : number) : number :=
  match x with
  | Int z => Int (a * z)
  | Float f => Float (PrimFloat.mul (float_of_Z a) f)
  end.

(** ** The calls into [torch], [apex], [tensorboardX] and the random
    generators, as they are logged *)

Inductive action :=
| Reader_call (ev : event)
| SummaryWriter_open
| SummaryWriter_close
| AddScalar (tag : string) (value : option float) (step : Z)
| AdamW (lr eps weight_decay : float)
| WarmupLinearSchedule (warmup_steps : Z) (t_total : number)
| AmpInitialize (opt_level : string)
| DataParallel
| DistributedDataParallel (device : Z)
| ZeroGrad
| Seed (generator : string) (seed : Z)
| ModelTrain
| Forward (inputs : gmap string (option tensor))
| Backward (scaled : bool)
| ClipGradNorm (max_norm : float)
| SchedulerStep
| OptimizerStep
| ImportPtvsd
| Print (msg : string)
| PtvsdEnableAttach (ip port : string)
| PtvsdWaitForAttach
| CudaSetDevice (rank : Z)
| InitProcessGroup (backend : string)
| BasicConfig (info : bool)
| LogWarning (msg : string)
| Barrier
| ConfigFromPretrained (class : string) (name : option string)
| TokenizerFromPretrained (class : string) (name : option string) (do_lower_case : bool)
| ModelFromPretrained (class name : string) (from_tf : bool)
| ModelTo (device : string).

(** What the training libraries do, over their own state and the file
    system.  [perform] is a call made for its effect; the other members
    return a value.  [random_sampler] is one pass of [RandomSampler] over a
    dataset of the given length, [training_loss] the scalar in
    [outputs[0]] of a forward pass (its mean over the devices when there
    are several), [apex_installed] whether [from apex import amp]
    succeeds. *)
Class Trainer := {
  lib_state : Type;
  perform : action -> lib_state * gmap string node ->
            (string + unit) * (lib_state * gmap string node);
  random_sampler : nat -> lib_state -> list nat * lib_state;
  random_sampler_permutes : forall n s, (random_sampler n s).1 ≡ₚ seq 0 n;
  training_loss : gmap string (option tensor) -> lib_state * gmap string node ->
                  (string + float) * (lib_state * gmap string node);
  apex_installed : bool;
  get_world_size : lib_state -> string + Z
}.

Definition world `{Trainer} : Type := (lib_state * gmap string node)%type.

(** ** The monad *)

Record run `{Trainer} (A : Type) := Run {
  returned : completion A;
  after : world;
  log : list action
}.
Arguments Run {_ A} returned after log.
Arguments returned {_ A} r.
Arguments after {_ A} r.
Arguments log {_ A} r.

Definition T `{Trainer} (A : Type) : Type := world -> run A.

Definition T_ret_def `{Trainer} {A} (a : A) : T A := fun s => Run (Returns a) s [].

Definition T_bind_def `{Trainer} {A B} (k : A -> T B) (m : T A) : T B :=
  fun s =>
    let r := m s in
    match returned r with
    | Returns a => let r' := k a (after r) in
                   Run (returned r') (after r') (log r ++ log r')%list
    | Raises e => Run (Raises e) (after r) (log r)
    end.

#[global] Instance T_ret `{Trainer} : MRet T := @T_ret_def _.
#[global] Instance T_bind `{Trainer} : MBind T := @T_bind_def _.

Definition throw `{Trainer} {A} (e : raised) : T A := fun s => Run (Raises e) s [].

Definition complete `{Trainer} {A} (c : completion A) : T A := fun s => Run c s [].

(** A computation of the reader, run on the file system. *)
Definition lift `{Trainer} {A} (m : M A) : T A :=
  fun s =>
    let o := m s.2 in
    Run (match value o with Ok a => Returns a | Raise e => Raises (Reader_exn e) end)
        (s.1, files o) (Reader_call <$> calls o).

(** A library call made for its effect. *)
Definition act `{Trainer} (a : action) : T unit :=
  fun s =>
    match perform a s with
    | (inr _, s') => Run (Returns tt) s' [a]
    | (inl msg, s') => Run (Raises (Reader_exn (LibraryError msg))) s' [a]
    end.

(** A line printed or logged. *)
Definition note `{Trainer} (a : action) : T unit := fun s => Run (Returns tt) s [a].

(** A library call made for its value. *)
Definition ask `{Trainer} {A} (a : action) (f : world -> (string + A) * world) : T A :=
  fun s =>
    match f s with
    | (inr x, s') => Run (Returns x) s' [a]
    | (inl msg, s') => Run (Raises (Reader_exn (LibraryError msg))) s' [a]
    end.

(** [a // b] and [a % b] on ints. *)
Definition floordiv `{Trainer} (a b : Z) : T Z :=
  if b =? 0 then throw (ZeroDivisionError "integer division or modulo by zero")
  else mret (a / b).

Definition modulo `{Trainer} (a b : Z) : T Z :=
  if b =? 0 then throw (ZeroDivisionError "integer division or modulo by zero")
  else mret (a mod b).

(** [for x in l: body], where the body says whether it ran into [break]. *)
Fixpoint for_until `{Trainer} {A S} (l : list A) (body : S -> A -> T (bool * S)) (s : S)
  : T (bool * S) :=
  match l with
  | [] => mret (false, s)
  | x :: l' =>
      body s x ≫= fun r : bool * S =>
      if r.1 then mret (true, r.2) else for_until l' body r.2
  end.

(** ** The arguments object: the estimator with its training parameters *)

Record Args := {
  base : Reader;
  evaluate_during_training : bool;
  per_gpu_train_batch_size : Z;
  learning_rate : float;
  gradient_accumulation_steps : Z;
  weight_decay : float;
  adam_epsilon : float;
  max_grad_norm : float;
  num_train_epochs : number;
  max_steps : Z;
  warmup_steps : Z;
  logging_steps : Z;
  save_steps : Z;
  seed : Z;
  fp16 : bool;
  fp16_opt_level : string;
  train_batch_size : option Z           (* unset until [train] assigns it *)
}.

(** [args.train_batch_size = b] and [args.num_train_epochs = e]. *)
Definition set_train_batch_size (args : Args) (b : Z) : Args :=
  {| base := base args;
     evaluate_during_training := evaluate_during_training args;
     per_gpu_train_batch_size := per_gpu_train_batch_size args;
     learning_rate := learning_rate args;
     gradient_accumulation_steps := gradient_accumulation_steps args;
     weight_decay := weight_decay args;
     adam_epsilon := adam_epsilon args;
     max_grad_norm := max_grad_norm args;
     num_train_epochs := num_train_epochs args;
     max_steps := max_steps args;
     warmup_steps := warmup_steps args;
     logging_steps := logging_steps args;
     save_steps := save_steps args;
     seed := seed args;
     fp16 := fp16 args;
     fp16_opt_level := fp16_opt_level args;
     train_batch_size := Some b |}.

Definition set_num_train_epochs (args : Args) (e : number) : Args :=
  {| base := base args;
     evaluate_during_training := evaluate_during_training args;
     per_gpu_train_batch_size := per_gpu_train_batch_size args;
     learning_rate := learning_rate args;
     gradient_accumulation_steps := gradient_accumulation_steps args;
     weight_decay := weight_decay args;
     adam_epsilon := adam_epsilon args;
     max_grad_norm := max_grad_norm args;
     num_train_epochs := e;
     max_steps := max_steps args;
     warmup_steps := warmup_steps args;
     logging_steps := logging_steps args;
     save_steps := save_steps args;
     seed := seed args;
     fp16 := fp16 args;
     fp16_opt_level := fp16_opt_level args;
     train_batch_size := train_batch_size args |}.

(** ** [set_seed] *)

(** [set_seed(args)] reads [args.seed] and [args.n_gpu]. *)
Definition set_seed `{Trainer} (seed n_gpu : Z) : T unit :=
  _ ← act (Seed "random" seed);
  _ ← act (Seed "numpy" seed);
  _ ← act (Seed "torch" seed);
  if 0 <? n_gpu then act (Seed "cuda" seed) else mret tt.

(** ** [train] *)

(** The keyword dictionary [train] builds from a batch. *)
Definition train_inputs (args : Reader) (batch : list tensor)
  : result (gmap string (option tensor)) :=
  ids <-? batch_item batch 0;
  mask <-? batch_item batch 1;
  types <-? (if String.eqb (model_type args) "xlm" then Ok None
             else t <-? batch_item batch 2; Ok (Some t));
  starts <-? batch_item batch 3;
  ends <-? batch_item batch 4;
  let inputs : gmap string (option tensor) :=
    <["end_positions" := Some ends]>
      (<["start_positions" := Some starts]>
         (<["token_type_ids" := types]>
            (<["attention_mask" := Some mask]> (<["input_ids" := Some ids]> ∅)))) in
  if is_extended (model_type args) then
    cls <-? batch_item batch 5;
    pm <-? batch_item batch 6;
    Ok (<["p_mask" := Some pm]> (<["cls_index" := Some cls]> inputs))
  else Ok inputs.

(** [len(train_sampler)]: the rows of the dataset, or the share of them a
    [DistributedSampler] deals to this process. *)
Definition sampler_len `{Library} (args : Args) (dataset : list tensor) : nat :=
  if local_rank (base args) =? -1 then dataset_len dataset
  else length (distributed_sampler (dataset_len dataset)).

(** One pass of the sampler. *)
Definition sample `{Library} `{Trainer} (args : Args) (dataset : list tensor)
  : T (list nat) :=
  if local_rank (base args) =? -1 then
    fun s : world => let r := random_sampler (dataset_len dataset) s.1 in
                     Run (Returns r.1) (r.2, s.2) []
  else mret (distributed_sampler (dataset_len dataset)).

(** [len(train_dataloader)]: [(len(sampler) + batch_size - 1) // batch_size]. *)
Definition dataloader_len `{Library} (args : Args) (dataset : list tensor)
    (batch_size : Z) : Z :=
  (Z.of_nat (sampler_len args dataset) + batch_size - 1) / batch_size.

(** [os.makedirs(p)]: the directory and the ancestors it lacks. *)
Fixpoint ancestors (fuel : nat) (p : string) : list string :=
  match fuel with
  | O => []
  | S fuel' =>
      let d := PyStr.dirname p in
      if PyStr.nonempty d && negb (String.eqb d p) then d :: ancestors fuel' d else []
  end.

Definition is_file (w : gmap string node) (p : string) : bool :=
  match w !! p with Some (File _) => true | _ => false end.

Definition os_makedirs_parents (p : string) : M unit :=
  fun w =>
    let up := ancestors (String.length p) p in
    match w !! p with
    | Some _ => Outcome (Raise (FileExistsError p)) w [Makedirs p]
    | None =>
        match filter (fun d => is_file w d = true) up with
        | d :: _ => Outcome (Raise (NotADirectoryError d)) w [Makedirs p]
        | [] => Outcome (Ok tt) (foldr (fun d w' => <[d := Dir]> w') w (p :: up))
                  [Makedirs p]
        end
    end.

(** [os.path.join(args.output_dir, 'checkpoint-{}'.format(global_step))]. *)
Definition checkpoint_dir (args : Args) (global_step : Z) : string :=
  PyStr.join (output_dir (base args)) ("checkpoint-" +:+ PyStr.of_int global_step).

(** The body of [# Save model checkpoint]. *)
Definition save_checkpoint `{Library} `{Trainer} (args : Args) (global_step : Z)
  : T unit :=
  let dir := checkpoint_dir args global_step in
  present ← lift (os_path_exists dir);
  _ ← (if negb present then lift (os_makedirs_parents dir) else mret tt);
  _ ← lift (library_write (SavePretrained dir) (save_pretrained dir));
  _ ← lift (torch_save (Blob "training_args") (PyStr.join dir "training_args.bin"));
  lift (emit (LogInfo ("Saving model checkpoint to " +:+ dir))).

(** The counters of the loop. *)
Record progress := {
  global_step : Z;
  tr_loss : float;
  logging_loss : float
}.

(** [args.max_steps > 0 and global_step > args.max_steps]. *)
Definition past_max_steps (args : Args) (st : progress) : bool :=
  (0 <? max_steps args) && (max_steps args <? global_step st).

(** [local_rank in [-1, 0] and logging_steps > 0 and
    global_step % logging_steps == 0], and the same for [save_steps]. *)
Definition logging_due (args : Args) (gs : Z) : bool :=
  in_main_process (local_rank (base args)) && (0 <? logging_steps args)
  && (gs mod logging_steps args =? 0).

Definition saving_due (args : Args) (gs : Z) : bool :=
  in_main_process (local_rank (base args)) && (0 <? save_steps args)
  && (gs mod save_steps args =? 0).

(** The body of [# Log metrics].  [evaluate] takes [input_file], [args],
    [model] and [tokenizer], and is called here with three arguments: the
    call raises before the body of [evaluate] runs. *)
Definition log_metrics `{Trainer} (args : Args) (gs : Z) (tr logged : float) : T float :=
  _ ← (if (local_rank (base args) =? -1) && evaluate_during_training args then
         throw (Reader_exn (TypeError
           "evaluate() missing 1 required positional argument: 'tokenizer'"))
       else mret tt);
  _ ← act (AddScalar "lr" None gs);
  _ ← act (AddScalar "loss"
             (Some (PrimFloat.div (PrimFloat.sub tr logged)
                      (float_of_Z (logging_steps args)))) gs);
  mret tr.

(** The update made every [gradient_accumulation_steps] batches. *)
Definition optimizer_update `{Library} `{Trainer} (args : Args) (st : progress)
    (tr : float) : T progress :=
  _ ← act SchedulerStep;
  _ ← act OptimizerStep;
  _ ← act ZeroGrad;
  let gs := global_step st + 1 in
  logged ← (if logging_due args gs then log_metrics args gs tr (logging_loss st)
            else mret (logging_loss st));
  _ ← (if saving_due args gs then save_checkpoint args gs else mret tt);
  mret {| global_step := gs; tr_loss := tr; logging_loss := logged |}.

(** The body of the loop over the batches of one epoch. *)
Definition train_step `{Library} `{Trainer} (args : Args) (st : progress)
    (item : nat * list tensor) : T (bool * progress) :=
  let gas := gradient_accumulation_steps args in
  _ ← act ModelTrain;
  inputs ← lift (lift_result (train_inputs (base args) item.2));
  loss ← ask (Forward inputs) (training_loss inputs);
  let loss := if 1 <? gas then PrimFloat.div loss (float_of_Z gas) else loss in
  _ ← act (Backward (fp16 args));
  _ ← act (ClipGradNorm (max_grad_norm args));
  let tr := PrimFloat.add (tr_loss st) loss in
  rest ← modulo (Z.of_nat item.1 + 1) gas;
  st' ← (if rest =? 0 then optimizer_update args st tr
         else mret {| global_step := global_step st; tr_loss := tr;
                      logging_loss := logging_loss st |});
  mret (past_max_steps args st', st').

(** The batches of one pass over the data loader, numbered from 0. *)
Definition epoch_batches `{Library} `{Trainer} (args : Args) (dataset : list tensor)
    (batch_size : Z) : T (list (nat * list tensor)) :=
  order ← sample args dataset;
  mret (imap pair ((fun idx => tensor_gather idx <$> dataset)
                     <$> chunks (Z.to_nat batch_size) order)).

(** The body of the loop over the epochs. *)
Definition train_epoch `{Library} `{Trainer} (args : Args) (dataset : list tensor)
    (batch_size : Z) (st : progress) (epoch : nat) : T (bool * progress) :=
  batches ← epoch_batches args dataset batch_size;
  for_until batches (train_step args) st ≫= fun r : bool * progress =>
  mret (past_max_steps args r.2, r.2).

(** [t_total], and the arguments with [num_train_epochs] recomputed when
    [max_steps] is set; [batches] is [len(train_dataloader)]. *)
Definition schedule `{Trainer} (args : Args) (batches : Z) : T (number * Args) :=
  let gas := gradient_accumulation_steps args in
  if 0 <? max_steps args then
    per_epoch ← floordiv batches gas;
    epochs ← floordiv (max_steps args) per_epoch;
    mret (Int (max_steps args), set_num_train_epochs args (Int (epochs + 1)))
  else
    per_epoch ← floordiv batches gas;
    mret (times per_epoch (num_train_epochs args), args).

(** [torch.distributed.get_world_size() if args.local_rank != -1 else 1]. *)
Definition world_size `{Trainer} (args : Args) : T Z :=
  if negb (local_rank (base args) =? -1) then
    fun s : world =>
      match get_world_size s.1 with
      | inr n => Run (Returns n) s []
      | inl msg => Run (Raises (Reader_exn (LibraryError msg))) s []
      end
  else mret 1.

(** From [# Prepare optimizer and schedule] to the last log line of
    [# Train!]. *)
Definition prepare `{Trainer} (args : Args) (t_total : number) : T unit :=
  let rank := local_rank (base args) in
  _ ← act (AdamW (learning_rate args) (adam_epsilon args) (weight_decay args));
  _ ← act (WarmupLinearSchedule (warmup_steps args) t_total);
  _ ← (if fp16 args then
         if apex_installed then act (AmpInitialize (fp16_opt_level args))
         else throw (ImportError
           "Please install apex from https://www.github.com/nvidia/apex to use fp16 training.")
       else mret tt);
  _ ← (if 1 <? n_gpu (base args) then act DataParallel else mret tt);
  _ ← (if negb (rank =? -1) then act (DistributedDataParallel rank) else mret tt);
  _ ← lift (emit (LogInfo "***** Running training *****"));
  _ ← lift (emit (LogInfo "  Num examples"));
  _ ← lift (emit (LogInfo "  Num Epochs"));
  _ ← lift (emit (LogInfo "  Instantaneous batch size per GPU"));
  _ ← world_size args;
  _ ← lift (emit (LogInfo "  Total train batch size (w. parallel, distributed & accumulation)"));
  _ ← lift (emit (LogInfo "  Gradient Accumulation steps"));
  lift (emit (LogInfo "  Total optimization steps")).

Definition train `{Library} `{Trainer} (args : Args) (train_dataset : list tensor)
    (model : Model) (tokenizer : Tokenizer) : T ((Z * float) * Args) :=
  let main := in_main_process (local_rank (base args)) in
  _ ← (if main then act SummaryWriter_open else mret tt);
  let batch_size := per_gpu_train_batch_size args * Z.max 1 (n_gpu (base args)) in
  let args := set_train_batch_size args batch_size in
  _ ← (if batch_size <=? 0
       then throw (Reader_exn
                     (LibraryError "batch_size should be a positive integer value"))
       else mret tt);
  planned ← schedule args (dataloader_len args train_dataset batch_size);
  let t_total := planned.1 in
  let args := planned.2 in
  _ ← prepare args t_total;
  _ ← act ZeroGrad;
  epochs ← complete (py_int (num_train_epochs args));
  _ ← set_seed (seed args) (n_gpu (base args));
  for_until (seq 0 (Z.to_nat epochs)) (train_epoch args train_dataset batch_size)
    {| global_step := 0; tr_loss := 0%float; logging_loss := 0%float |}
  ≫= fun r : bool * progress =>
  _ ← (if main then act SummaryWriter_close else mret tt);
  let st := r.2 in
  if global_step st =? 0 then throw (ZeroDivisionError "float division by zero")
  else mret ((global_step st, PrimFloat.div (tr_loss st) (float_of_Z (global_step st))),
             args).

(** ** [Reader.fit], with the training loop above

    [Reader_fit] takes [train] as a member of the library; here the method
    runs the loop of this module, so that what [train] itself raises is told
    apart from what the libraries raise.  [train] is handed the estimator as
    [args] and assigns two attributes of it: the estimator returned is the
    one [train] leaves. *)
Definition fit `{Library} `{Trainer} (self : Args) (X : input_file) : T Args :=
  let dir := output_dir (base self) in
  present ← lift (os_path_exists dir);
  listing ← (if present then lift (os_listdir dir) else mret []);
  if present && bool_decide (listing <> []) && negb (overwrite_output_dir (base self))
  then throw (Reader_exn (ValueError (output_dir_message dir)))
  else
    l ← lift (load_and_cache_examples X (base self) (tokenizer (base self)) false false);
    let train_dataset :=
      match l with Dataset d => d | DatasetExamplesFeatures d _ _ => d end in
    train self train_dataset (model (base self)) (tokenizer (base self))
    ≫= fun trained : (Z * float) * Args =>
    let self := trained.2 in
    _ ← lift (emit (LogInfo (" global_step = " +:+ PyStr.of_int trained.1.1)));
    _ ← (if (local_rank (base self) =? -1) || (get_rank =? 0) then
           present' ← lift (os_path_exists dir);
           _ ← (if negb present' && in_main_process (local_rank (base self))
                then lift (os_makedirs_parents dir) else mret tt);
           _ ← lift (emit (LogInfo ("Saving model checkpoint to " +:+ dir)));
           _ ← lift (library_write (SavePretrained dir) (save_pretrained dir));
           _ ← lift (library_write (SavePretrained dir) (save_pretrained dir));
           lift (torch_save (Blob "training_args") (PyStr.join dir "training_args.bin"))
         else mret tt);
    mret self.

(** ** [Reader.__init__] *)

(** [s.lower()], on ASCII. *)
Definition lower_char (c : ascii) : ascii :=
  let n := nat_of_ascii c in
  if (65 <=? n)%nat && (n <=? 90)%nat then ascii_of_nat (n + 32) else c.

Fixpoint lower (s : string) : string :=
  match s with
  | EmptyString => EmptyString
  | String c s' => String (lower_char c) (lower s')
  end.

(** [sub in s]. *)
Fixpoint contains (sub s : string) : bool :=
  String.prefix sub s
  || match s with String _ s' => contains sub s' | EmptyString => false end.

(** The keys of [MODEL_CLASSES]; a key stands for its three classes. *)
Definition MODEL_CLASSES : list string := ["bert"; "xlnet"; "xlm"].

(** The arguments of the constructor.  [output_dir] is a path here: the
    default [None] is stored as it is and fails at its first use. *)
Record Parameters := {
  p_model_type : option string;
  p_model_name_or_path : option string;
  p_output_dir : string;
  p_config_name : string;
  p_tokenizer_name : string;
  p_cache_dir : string;
  p_version_2_with_negative : bool;
  p_null_score_diff_threshold : float;
  p_max_seq_length : Z;
  p_doc_stride : Z;
  p_max_query_length : Z;
  p_evaluate_during_training : bool;
  p_do_lower_case : bool;
  p_per_gpu_train_batch_size : Z;
  p_per_gpu_eval_batch_size : Z;
  p_learning_rate : float;
  p_gradient_accumulation_steps : Z;
  p_weight_decay : float;
  p_adam_epsilon : float;
  p_max_grad_norm : float;
  p_num_train_epochs : number;
  p_max_steps : Z;
  p_warmup_steps : Z;
  p_n_best_size : Z;
  p_max_answer_length : Z;
  p_verbose_logging : bool;
  p_logging_steps : Z;
  p_save_steps : Z;
  p_eval_all_checkpoints : bool;
  p_no_cuda : bool;
  p_overwrite_output_dir : bool;
  p_overwrite_cache : bool;
  p_seed : Z;
  p_local_rank : Z;
  p_fp16 : bool;
  p_fp16_opt_level : string;
  p_server_ip : string;
  p_server_port : string;
  p_pretrained_model_path : option string
}.

(** What [torch.cuda] reports and what the [from_pretrained] class methods
    of [pytorch_transformers] return, by key of [MODEL_CLASSES]. *)
Class Hub `{Trainer} := {
  config : Type;
  cuda_is_available : lib_state -> bool;
  cuda_device_count : lib_state -> Z;
  config_from_pretrained :
    string -> option string -> world -> (string + config) * world;
  tokenizer_from_pretrained :
    string -> option string -> bool -> world -> (string + Tokenizer) * world;
  model_from_pretrained :
    string -> string -> bool -> config -> world -> (string + Model) * world
}.

(** The object the constructor leaves: the estimator with its training
    parameters, and the device and model class it settled on. *)
Record Estimator := {
  args : Args;
  device : string;
  model_class : string
}.

(** [# Setup distant debugging if needed]. *)
Definition attach_debugger `{Trainer} (p : Parameters) : T unit :=
  if PyStr.nonempty (p_server_ip p) && PyStr.nonempty (p_server_port p) then
    _ ← act ImportPtvsd;
    _ ← note (Print "Waiting for debugger attach");
    _ ← act (PtvsdEnableAttach (p_server_ip p) (p_server_port p));
    act PtvsdWaitForAttach
  else mret tt.

(** [# Setup CUDA, GPU & distributed training]: the device and [n_gpu]. *)
Definition setup_device `{Trainer} `{!Hub} (p : Parameters) : T (string * Z) :=
  if (p_local_rank p =? -1) || p_no_cuda p then
    fun s : world =>
      Run (Returns (if cuda_is_available s.1 && negb (p_no_cuda p) then "cuda" else "cpu",
                    cuda_device_count s.1)) s []
  else
    _ ← act (CudaSetDevice (p_local_rank p));
    _ ← act (InitProcessGroup "nccl");
    mret ("cuda:" +:+ PyStr.of_int (p_local_rank p), 1).

(** The constructor up to the first barrier. *)
Definition setup `{Trainer} `{!Hub} (p : Parameters) : T (string * Z) :=
  _ ← attach_debugger p;
  placed ← setup_device p;
  _ ← act (BasicConfig (in_main_process (p_local_rank p)));
  _ ← note (LogWarning "Process rank");
  _ ← set_seed (p_seed p) placed.2;
  _ ← (if negb (in_main_process (p_local_rank p)) then act Barrier else mret tt);
  mret placed.

(** [self.model_type.lower()] and the lookup in [MODEL_CLASSES]. *)
Definition model_class_of `{Trainer} (p : Parameters) : T string :=
  match p_model_type p with
  | None => throw (AttributeError "'NoneType' object has no attribute 'lower'")
  | Some t =>
      if bool_decide (lower t ∈ MODEL_CLASSES) then mret (lower t)
      else throw (Reader_exn (KeyError (lower t)))
  end.

(** [x if x else self.model_name_or_path]. *)
Definition name_or (x : string) (p : Parameters) : option string :=
  if PyStr.nonempty x then Some x else p_model_name_or_path p.

(** The three [from_pretrained] calls; the name of the model, the
    tokenizer and the model. *)
Definition load_pretrained `{Trainer} `{!Hub} (p : Parameters) (class : string)
  : T (string * Tokenizer * Model) :=
  cfg ← ask (ConfigFromPretrained class (name_or (p_config_name p) p))
          (config_from_pretrained class (name_or (p_config_name p) p));
  tok ← ask (TokenizerFromPretrained class (name_or (p_tokenizer_name p) p)
               (p_do_lower_case p))
          (tokenizer_from_pretrained class (name_or (p_tokenizer_name p) p)
             (p_do_lower_case p));
  name ← match p_model_name_or_path p with
         | Some name => mret name
         | None => throw (Reader_exn
                            (TypeError "argument of type 'NoneType' is not iterable"))
         end;
  m ← ask (ModelFromPretrained class name (contains ".ckpt" name))
        (model_from_pretrained class name (contains ".ckpt" name) cfg);
  mret (name, tok, m).

(** [# Load a trained model and vocabulary that you have fine-tuned]. *)
Definition load_fine_tuned `{Library} `{Trainer} (p : Parameters) (device : string)
    (m : Model) : T Model :=
  match p_pretrained_model_path p with
  | Some path =>
      if PyStr.nonempty path then
        m' ← lift (library_call (FromPretrained path) (from_pretrained path));
        _ ← act (ModelTo device);
        mret m'
      else mret m
  | None => mret m
  end.

Definition Reader_init `{Library} `{Trainer} `{!Hub} (p : Parameters) : T Estimator :=
  placed ← setup p;
  class ← model_class_of p;
  loaded ← load_pretrained p class;
  _ ← (if p_local_rank p =? 0 then act Barrier else mret tt);
  _ ← act (ModelTo placed.1);
  _ ← lift (emit (LogInfo "Training/evaluation parameters"));
  m ← load_fine_tuned p placed.1 loaded.2;
  mret {| args :=
            {| base :=
                 {| model_type := class;
                    model_name_or_path := loaded.1.1;
                    output_dir := p_output_dir p;
                    version_2_with_negative := p_version_2_with_negative p;
                    null_score_diff_threshold := p_null_score_diff_threshold p;
                    max_seq_length := p_max_seq_length p;
                    doc_stride := p_doc_stride p;
                    max_query_length := p_max_query_length p;
                    do_lower_case := p_do_lower_case p;
                    per_gpu_eval_batch_size := p_per_gpu_eval_batch_size p;
                    n_best_size := p_n_best_size p;
                    max_answer_length := p_max_answer_length p;
                    verbose_logging := p_verbose_logging p;
                    eval_all_checkpoints := p_eval_all_checkpoints p;
                    overwrite_output_dir := p_overwrite_output_dir p;
                    overwrite_cache := p_overwrite_cache p;
                    local_rank := p_local_rank p;
                    n_gpu := placed.2;
                    model := m;
                    tokenizer := loaded.1.2 |};
               evaluate_during_training := p_evaluate_during_training p;
               per_gpu_train_batch_size := p_per_gpu_train_batch_size p;
               learning_rate := p_learning_rate p;
               gradient_accumulation_steps := p_gradient_accumulation_steps p;
               weight_decay := p_weight_decay p;
               adam_epsilon := p_adam_epsilon p;
               max_grad_norm := p_max_grad_norm p;
               num_train_epochs := p_num_train_epochs p;
               max_steps := p_max_steps p;
               warmup_steps := p_warmup_steps p;
               logging_steps := p_logging_steps p;
               save_steps := p_save_steps p;
               seed := p_seed p;
               fp16 := p_fp16 p;
               fp16_opt_level := p_fp16_opt_level p;
               train_batch_size := None |};
          device := placed.1;
          model_class := class |}.

(** ** Reading a training log *)

(** The directories [save_pretrained] was called on, in order. *)
Definition checkpoints_saved (l : list action) : list string :=
  omap (fun a => match a with Reader_call (SavePretrained d) => Some d | _ => None end) l.

(** The number of calls of [optimizer.step()]. *)
Definition updates (l : list action) : nat :=
  length (omap (fun a => match a with OptimizerStep => Some tt | _ => None end) l).

(** A log with neither. *)
Definition uneventful (l : list action) : Prop :=
  checkpoints_saved l = [] /\ updates l = 0%nat.

(** The checkpoints and names a log shows a [from_pretrained] was called
    on, whatever the class. *)
Definition downloads (l : list action) : list string :=
  omap (fun a => match a with
                 | ConfigFromPretrained _ name | TokenizerFromPretrained _ name _ =>
                     Some (default "None" name)
                 | ModelFromPretrained _ name _ | Reader_call (FromPretrained name) =>
                     Some name
                 | _ => None
                 end) l.

(** The steps at which the loop reaches the call of [evaluate]. *)
Definition evaluation_due (args : Args) (gs : Z) : bool :=
  logging_due args gs && (local_rank (base args) =? -1) && evaluate_during_training args.

(** What a stretch of the loop did that took the counters from [st] to
    [st'] and logged [l]: one update per step, a checkpoint at every step
    where one is due, and no step at which [evaluate] is due. *)
Definition stretch (args : Args) (st st' : progress) (l : list action) : Prop :=
  global_step st <= global_step st'
  /\ updates l = Z.to_nat (global_step st' - global_step st)
  /\ checkpoints_saved l
     = checkpoint_dir args
         <$> filter (fun g => saving_due args g = true)
               (seqZ (global_step st + 1) (global_step st' - global_step st))
  /\ forall g, global_step st < g <= global_step st' -> evaluation_due args g = false.

(** A computation raises no exception outside the class [E]. *)
Definition raises_only `{Trainer} {A} (E : raised -> Prop) (m : T A) : Prop :=
  forall s e, returned (m s) = Raises e -> E e.

(** The exceptions that are no [ValueError], or the [ValueError] of [int]
    on a NaN. *)
Definition value_error_of_int (e : raised) : Prop :=
  forall msg, e = Reader_exn (ValueError msg) ->
              msg = "cannot convert float NaN to integer".

End Training.

(** ** A training run small enough to evaluate

    The library state counts the calls; every call succeeds, every loss is
    one half, and the random sampler draws the rows backwards. *)

#[local] Instance demo_trainer : Training.Trainer :=
  {| Training.lib_state := nat;
     Training.perform := fun _ s => (inr tt, (S s.1, s.2));
     Training.random_sampler := fun n s => (rev (seq 0 n), S s);
     Training.random_sampler_permutes := fun n _ => Permutation_sym (Permutation_rev (seq 0 n));
     Training.training_loss := fun _ s => (inr 0.5%float, (S s.1, s.2));
     Training.apex_installed := false;
     Training.get_world_size := fun _ => inr 1 |}.

(** Four features' worth of training tensors. *)
Definition demo_train_dataset : list tensor :=
  [LongMatrix [[101; 7; 102]; [101; 8; 102]; [101; 9; 102]; [101; 10; 102]];
   LongMatrix [[1; 1; 1]; [1; 1; 1]; [1; 1; 1]; [1; 1; 1]];
   LongMatrix [[0; 0; 0]; [0; 0; 0]; [0; 0; 0]; [0; 0; 0]];
   LongVector [1; 1; 1; 1];
   LongVector [1; 1; 1; 1];
   LongVector [0; 0; 0; 0];
   FloatMatrix [[1; 0; 1]; [1; 0; 1]; [1; 0; 1]; [1; 0; 1]]%float].

Definition demo_args (during : bool) (accumulation epochs_max logging saving rank : Z)
  : Training.Args :=
  {| Training.base := demo_reader "bert" false true true rank;
     Training.evaluate_during_training := during;
     Training.per_gpu_train_batch_size := 1;
     Training.learning_rate := 0.00006103515625%float;
     Training.gradient_accumulation_steps := accumulation;
     Training.weight_decay := 0%float;
     Training.adam_epsilon := 7.450580596923828125e-09%float;
     Training.max_grad_norm := 1%float;
     Training.num_train_epochs := Training.Float 3%float;
     Training.max_steps := epochs_max;
     Training.warmup_steps := 0;
     Training.logging_steps := logging;
     Training.save_steps := saving;
     Training.seed := 42;
     Training.fp16 := false;
     Training.fp16_opt_level := "O1";
     Training.train_batch_size := None |}.

(** Where the demonstration run starts: the demonstration files, before
    any library call. *)
Definition demo_world : @Training.world demo_trainer := (0%nat, demo_files).

(** A machine without GPUs, and a hub where every name resolves. *)
#[local] Instance demo_hub : Training.Hub :=
  {| Training.config := string;
     Training.cuda_is_available := fun _ => false;
     Training.cuda_device_count := fun _ => 0;
     Training.config_from_pretrained := fun class _ s => (inr class, s);
     Training.tokenizer_from_pretrained := fun _ _ lc s =>
       (inr {| vocab := "bert-base-uncased"; lower_case := lc |}, s);
     Training.model_from_pretrained := fun _ _ _ _ s => (inr demo_model, s) |}.

(** The constructor's arguments behind [demo_args], for a model type and a
    fine-tuned checkpoint. *)
Definition demo_parameters (mt pretrained : option string) : Training.Parameters :=
  let a := demo_args false 1 (-1) 50 5 (-1) in
  let r := Training.base a in
  {| Training.p_model_type := mt;
     Training.p_model_name_or_path := Some (model_name_or_path r);
     Training.p_output_dir := output_dir r;
     Training.p_config_name := "";
     Training.p_tokenizer_name := "";
     Training.p_cache_dir := "";
     Training.p_version_2_with_negative := version_2_with_negative r;
     Training.p_null_score_diff_threshold := null_score_diff_threshold r;
     Training.p_max_seq_length := max_seq_length r;
     Training.p_doc_stride := doc_stride r;
     Training.p_max_query_length := max_query_length r;
     Training.p_evaluate_during_training := Training.evaluate_during_training a;
     Training.p_do_lower_case := do_lower_case r;
     Training.p_per_gpu_train_batch_size := Training.per_gpu_train_batch_size a;
     Training.p_per_gpu_eval_batch_size := per_gpu_eval_batch_size r;
     Training.p_learning_rate := Training.learning_rate a;
     Training.p_gradient_accumulation_steps := Training.gradient_accumulation_steps a;
     Training.p_weight_decay := Training.weight_decay a;
     Training.p_adam_epsilon := Training.adam_epsilon a;
     Training.p_max_grad_norm := Training.max_grad_norm a;
     Training.p_num_train_epochs := Training.num_train_epochs a;
     Training.p_max_steps := Training.max_steps a;
     Training.p_warmup_steps := Training.warmup_steps a;
     Training.p_n_best_size := n_best_size r;
     Training.p_max_answer_length := max_answer_length r;
     Training.p_verbose_logging := verbose_logging r;
     Training.p_logging_steps := Training.logging_steps a;
     Training.p_save_steps := Training.save_steps a;
     Training.p_eval_all_checkpoints := eval_all_checkpoints r;
     Training.p_no_cuda := true;
     Training.p_overwrite_output_dir := overwrite_output_dir r;
     Training.p_overwrite_cache := overwrite_cache r;
     Training.p_seed := Training.seed a;
     Training.p_local_rank := local_rank r;
     Training.p_fp16 := Training.fp16 a;
     Training.p_fp16_opt_level := Training.fp16_opt_level a;
     Training.p_server_ip := "";
     Training.p_server_port := "";
     Training.p_pretrained_model_path := pretrained |}.

(** What the constructor makes of them. *)
Definition demo_estimator : Training.Estimator :=
  {| Training.args := demo_args false 1 (-1) 50 5 (-1);
     Training.device := "cpu";
     Training.model_class := "bert" |}.

(** The demonstration estimator with its output directory written [dir],
    and the arguments of a training run of [epochs] epochs on it. *)
Definition demo_reader_at (dir : string) (overwrite_out : bool) : Reader :=
  let r := demo_reader "bert" false overwrite_out true (-1) in
  {| model_type := model_type r;
     model_name_or_path := model_name_or_path r;
     output_dir := dir;
     version_2_with_negative := version_2_with_negative r;
     null_score_diff_threshold := null_score_diff_threshold r;
     max_seq_length := max_seq_length r;
     doc_stride := doc_stride r;
     max_query_length := max_query_length r;
     do_lower_case := do_lower_case r;
     per_gpu_eval_batch_size := per_gpu_eval_batch_size r;
     n_best_size := n_best_size r;
     max_answer_length := max_answer_length r;
     verbose_logging := verbose_logging r;
     eval_all_checkpoints := eval_all_checkpoints r;
     overwrite_output_dir := overwrite_output_dir r;
     overwrite_cache := overwrite_cache r;
     local_rank := local_rank r;
     n_gpu := n_gpu r;
     model := model r;
     tokenizer := tokenizer r |}.

Definition demo_fit_args (dir : string) (overwrite_out : bool)
    (epochs : Training.number) : Training.Args :=
  let a := demo_args false 1 (-1) 50 5 (-1) in
  {| Training.base := demo_reader_at dir overwrite_out;
     Training.evaluate_during_training := Training.evaluate_during_training a;
     Training.per_gpu_train_batch_size := Training.per_gpu_train_batch_size a;
     Training.learning_rate := Training.learning_rate a;
     Training.gradient_accumulation_steps := Training.gradient_accumulation_steps a;
     Training.weight_decay := Training.weight_decay a;
     Training.adam_epsilon := Training.adam_epsilon a;
     Training.max_grad_norm := Training.max_grad_norm a;
     Training.num_train_epochs := epochs;
     Training.max_steps := Training.max_steps a;
     Training.warmup_steps := Training.warmup_steps a;
     Training.logging_steps := Training.logging_steps a;
     Training.save_steps := Training.save_steps a;
     Training.seed := Training.seed a;
     Training.fp16 := Training.fp16 a;
     Training.fp16_opt_level := Training.fp16_opt_level a;
     Training.train_batch_size := Training.train_batch_size a |}.

(** The demonstration files with a checkpoint in the output directory,
    before any library call; the second writes the directory [out/]. *)
Definition world_with_checkpoint : @Training.world demo_trainer :=
  (0%nat, files_with_checkpoint).

Definition world_with_slash : @Training.world demo_trainer :=
  (0%nat, <["out/" := Dir]> (<["out/pytorch_model.bin" := File (Blob "weights")]> demo_files)).

(** * Properties of the reader *)

(** ** The Python pieces on small inputs *)

Example dirname_of_file : PyStr.dirname "data/squad/dev-v1.1.json" = "data/squad".
Proof. reflexivity. Qed.

Example dirname_of_root_file : PyStr.dirname "/dev.json" = "/".
Proof. reflexivity. Qed.

Example dirname_of_bare_name : PyStr.dirname "dev.json" = "".
Proof. reflexivity. Qed.

Example join_directory : PyStr.join "out" "predictions_.json" = "out/predictions_.json".
Proof. reflexivity. Qed.

Example join_empty_directory : PyStr.join "" "cached_dev_bert_384" = "cached_dev_bert_384".
Proof. reflexivity. Qed.

Example pop_model_name :
  PyStr.pop_last (PyStr.split "/" "models/bert-base-uncased/") = Ok "bert-base-uncased".
Proof. reflexivity. Qed.

Example pop_of_slashes :
  PyStr.pop_last (PyStr.split "/" "//") = Raise (IndexError "pop from empty list").
Proof. reflexivity. Qed.

Example checkpoint_step :
  PyStr.last_piece (PyStr.split "-" "out/checkpoint-150") = "150".
Proof. reflexivity. Qed.

Example sorted_checkpoints :
  PyStr.sorted ["out/checkpoint-50/w"; "out/checkpoint-100/w"; "out/w"]
  = ["out/checkpoint-100/w"; "out/checkpoint-50/w"; "out/w"].
Proof. reflexivity. Qed.

Example negative_index : py_index [10; 20; 30] (-1) = Ok 30.
Proof. reflexivity. Qed.

Example index_out_of_range :
  py_index [10; 20; 30] 3 = Raise (IndexError "index out of range").
Proof. reflexivity. Qed.

Example unpack_pair : unpack2 (PTuple [PInt 1; PStr "a"]) = Ok (PInt 1, PStr "a").
Proof. reflexivity. Qed.

Example unpack_text :
  unpack2 (PStr "January 2016")
  = Raise (ValueError "too many values to unpack (expected 2)").
Proof. reflexivity. Qed.

Example batches_of_two : chunks 2 [1; 2; 3; 4; 5] = [[1; 2]; [3; 4]; [5]].
Proof. reflexivity. Qed.

Example cache_name :
  cached_features_file demo_input (demo_reader "bert" false true true (-1)) true
  = Ok "data/cached_dev_bert-base-uncased_384".
Proof. vm_compute. reflexivity. Qed.

Example listing_of_output_dir :
  children files_with_checkpoint "out" = ["pytorch_model.bin"].
Proof. vm_compute. reflexivity. Qed.

Example listing_with_trailing_slash :
  children files_with_checkpoint "out/" = ["pytorch_model.bin"]
  /\ children (<["out/" := Dir]> files_with_checkpoint) "out/" = ["pytorch_model.bin"].
Proof. vm_compute. by split. Qed.

Example listing_names_each_entry_once :
  children (<["out/checkpoint-50/config.json" := File (Blob "config")]>
              (<["out/checkpoint-50/pytorch_model.bin" := File (Blob "weights")]>
                 (<["out" := Dir]> demo_files))) "out"
  = ["checkpoint-50"].
Proof. vm_compute. reflexivity. Qed.

Example listing_of_empty_directory : children (<["out" := Dir]> demo_files) "out" = [].
Proof. vm_compute. reflexivity. Qed.

Example glob_with_trailing_slash :
  value (glob_weights "out/" files_with_checkpoint) = Ok ["out/pytorch_model.bin"]
  /\ value (glob_weights "out" files_with_checkpoint) = Ok ["out/pytorch_model.bin"].
Proof. vm_compute. by split. Qed.

Example glob_skips_hidden_directories :
  value (glob_weights "out"
           (<["out/.cache/pytorch_model.bin" := File (Blob "weights")]>
              (<["out/checkpoint-50/pytorch_model.bin" := File (Blob "weights")]>
                 demo_files)))
  = Ok ["out/checkpoint-50/pytorch_model.bin"].
Proof. vm_compute. reflexivity. Qed.

(** ** How computations compose *)

Lemma confined_ret {A} E C (a : A) : confined E C (mret a).
Proof. intros w. split; [intros e He; discriminate | constructor]. Qed.

Lemma confined_raise {A} (E : exn -> Prop) C e : E e -> confined E C (@raise A e).
Proof.
  intros HE w. split; [| constructor].
  intros e' He'. cbn in He'. by injection He' as <-.
Qed.

Lemma confined_lift_result {A} (E : exn -> Prop) C (r : result A) :
  (forall e, r = Raise e -> E e) -> confined E C (lift_result r).
Proof. intros Hr w. split; [exact Hr | constructor]. Qed.

Lemma confined_emit E (C : event -> Prop) ev : C ev -> confined E C (emit ev).
Proof.
  intros HC w. split; [intros e He; discriminate |].
  by repeat constructor.
Qed.

Lemma confined_library_call {A} (E : exn -> Prop) (C : event -> Prop) ev
    (f : gmap string node -> string + A) :
  (forall msg, E (LibraryError msg)) -> C ev -> confined E C (library_call ev f).
Proof.
  intros HE HC w. unfold library_call. destruct (f w) as [msg | a]; cbn.
  - split; [| by repeat constructor]. intros e He. injection He as <-. apply HE.
  - split; [intros e He; discriminate | by repeat constructor].
Qed.

Lemma confined_library_write {A} (E : exn -> Prop) (C : event -> Prop) ev
    (f : gmap string node -> (string + A) * gmap string node) :
  (forall msg, E (LibraryError msg)) -> C ev -> confined E C (library_write ev f).
Proof.
  intros HE HC w. unfold library_write. destruct (f w) as [[msg | a] w']; cbn.
  - split; [| by repeat constructor]. intros e He. injection He as <-. apply HE.
  - split; [intros e He; discriminate | by repeat constructor].
Qed.

Lemma confined_bind {A B} E C (m : M A) (k : A -> M B) :
  confined E C m -> (forall a, confined E C (k a)) -> confined E C (m ≫= k).
Proof.
  intros Hm Hk w. destruct (Hm w) as [HmE HmC].
  unfold mbind, M_bind, M_bind_def.
  destruct (value (m w)) as [a | e] eqn:Hv; cbn.
  - destruct (Hk a (files (m w))) as [HkE HkC]. split; [exact HkE |].
    apply Forall_app. by split.
  - split; [| exact HmC]. intros e' He'. injection He' as <-. by apply HmE.
Qed.

Lemma confined_for_each {A S} E C (l : list A) (body : S -> A -> M S) :
  (forall s x, confined E C (body s x)) -> forall s, confined E C (for_each l body s).
Proof.
  intros Hbody. induction l as [| x l IH]; intros s; cbn [for_each].
  - apply confined_ret.
  - apply confined_bind; [apply Hbody | exact IH].
Qed.

Lemma confined_os_path_exists E C p : confined E C (os_path_exists p).
Proof. intros w. split; [intros e He; discriminate | constructor]. Qed.

Lemma confined_os_listdir (E : exn -> Prop) C p :
  E (NotADirectoryError p) -> E (FileNotFoundError p) -> confined E C (os_listdir p).
Proof.
  intros H1 H2 w. unfold os_listdir.
  destruct (w !! p) as [[| c] |]; cbn; (split; [| constructor]);
    intros e He; try discriminate; by injection He as <-.
Qed.

Lemma confined_os_makedirs (E : exn -> Prop) (C : event -> Prop) p :
  E (FileExistsError p) -> C (Makedirs p) -> confined E C (os_makedirs p).
Proof.
  intros HE HC w. unfold os_makedirs.
  destruct (w !! p); cbn; (split; [| by repeat constructor]);
    intros e He; try discriminate; by injection He as <-.
Qed.

Lemma confined_torch_save (E : exn -> Prop) (C : event -> Prop) c p :
  E (IsADirectoryError p) -> C (TorchSave p) -> confined E C (torch_save c p).
Proof.
  intros HE HC w. unfold torch_save.
  destruct (w !! p) as [[| c'] |]; cbn; (split; [| by repeat constructor]);
    intros e He; try discriminate; by injection He as <-.
Qed.

Lemma confined_torch_load (E : exn -> Prop) (C : event -> Prop) p :
  E (IsADirectoryError p) -> E (UnpicklingError p) -> E (FileNotFoundError p) ->
  C (TorchLoad p) -> confined E C (torch_load p).
Proof.
  intros H1 H2 H3 HC w. unfold torch_load.
  destruct (w !! p) as [[| [fs | v | b]] |]; cbn; (split; [| by repeat constructor]);
    intros e He; try discriminate; by injection He as <-.
Qed.

Lemma confined_data_loader (E : exn -> Prop) C dataset order n :
  (forall msg, E (LibraryError msg)) -> confined E C (data_loader dataset order n).
Proof.
  intros HE. unfold data_loader. destruct (n <=? 0).
  - by apply confined_raise.
  - apply confined_ret.
Qed.

(** Side conditions of the rules above: the exception or the event at hand
    is of an allowed kind. *)
Ltac allowed :=
  first [ exact I
        | reflexivity
        | match goal with Hq : quiet ?C |- ?C ?ev => exact (Hq ev) end
        | by intros ?
        | intros ? ?; exact I
        | intros ?; exact I
        | (intros ? ?; discriminate)
        | (intros ?; discriminate)
        | solve [repeat constructor] ].

(** One pass over the shape of a computation. *)
Ltac confine_step :=
  first
    [ apply confined_ret
    | apply confined_bind; [| intros ?]
    | apply confined_emit; allowed
    | apply confined_raise; allowed
    | apply confined_library_call; allowed
    | apply confined_library_write; allowed
    | apply confined_os_path_exists
    | apply confined_os_listdir; allowed
    | apply confined_os_makedirs; allowed
    | apply confined_torch_save; allowed
    | apply confined_torch_load; allowed
    | apply confined_data_loader; allowed
    | apply confined_lift_result; allowed
    | match goal with
      | |- confined _ _ (if ?b then _ else _) => destruct b
      | |- confined _ _ (match ?x with _ => _ end) => destruct x
      | |- confined _ _ (let '(_, _) := ?x in _) => destruct x
      end ].

Ltac confine := repeat confine_step.

Section ReaderFacts.

Context `{Library}.

(** ** Reading the feature cache *)

Lemma quiet_not_torch_load : quiet not_torch_load.
Proof. intros ev. destruct ev; try exact I; by intros p. Qed.

Lemma loading_with_examples_confined C input args tok ev :
  quiet C ->
  confined any_exn C (load_and_cache_examples input args tok ev true).
Proof.
  intros Hq. unfold load_and_cache_examples.
  apply confined_bind; [confine |]. intros cached.
  apply confined_bind; [confine |]. intros present.
  cbn [negb]. rewrite andb_false_r.
  confine.
Qed.

Lemma prepare_batches_confined C input args tok pfx :
  quiet C ->
  confined any_exn C (prepare_batches input args tok pfx).
Proof.
  intros Hq. unfold prepare_batches.
  apply confined_bind; [by apply loading_with_examples_confined |].
  intros l. confine.
Qed.

Lemma run_batch_confined C build args m features acc batch :
  quiet C ->
  confined any_exn C (run_batch build args m features acc batch).
Proof.
  intros Hq. unfold run_batch. confine.
  apply confined_for_each. intros s [i z]. confine.
Qed.

Lemma evaluate_confined input args m tok pfx :
  confined any_exn not_torch_load (evaluate input args m tok pfx).
Proof.
  unfold evaluate.
  apply confined_bind; [apply prepare_batches_confined, quiet_not_torch_load |].
  intros [[examples features] batches].
  apply confined_bind.
  { apply confined_for_each. intros s x.
    apply run_batch_confined, quiet_not_torch_load. }
  intros all_results. confine.
Qed.

Lemma predict_confined input args m tok pfx :
  confined any_exn not_torch_load (predict input args m tok pfx).
Proof.
  unfold predict.
  apply confined_bind; [apply prepare_batches_confined, quiet_not_torch_load |].
  intros [[examples features] batches].
  apply confined_bind.
  { apply confined_for_each. intros s x.
    apply run_batch_confined, quiet_not_torch_load. }
  intros all_results. confine.
Qed.

(** ** What a bind logs and raises *)

Lemma bind_calls_l {A B} (m : M A) (k : A -> M B) w ev :
  ev ∈ calls (m w) -> ev ∈ calls ((m ≫= k) w).
Proof.
  intros Hev. unfold mbind, M_bind, M_bind_def.
  destruct (value (m w)); cbn; [apply elem_of_app; by left | done].
Qed.

Lemma bind_calls_r {A B} (m : M A) (k : A -> M B) w a ev :
  value (m w) = Ok a -> ev ∈ calls (k a (files (m w))) -> ev ∈ calls ((m ≫= k) w).
Proof.
  intros Hv Hev. unfold mbind, M_bind, M_bind_def. rewrite Hv. cbn.
  apply elem_of_app. by right.
Qed.

Lemma bind_ok {A B} (m : M A) (k : A -> M B) w a :
  value (m w) = Ok a ->
  (m ≫= k) w = Outcome (value (k a (files (m w)))) (files (k a (files (m w))))
                 (calls (m w) ++ calls (k a (files (m w)))).
Proof. intros Hv. unfold mbind, M_bind, M_bind_def. by rewrite Hv. Qed.

Lemma bind_pure {A B} (m : M A) (k : A -> M B) w a :
  m w = Outcome (Ok a) w [] -> (m ≫= k) w = k a w.
Proof.
  intros Hm. unfold mbind, M_bind, M_bind_def. rewrite Hm. cbn.
  by destruct (k a w).
Qed.

Lemma bind_raise {A B} (m : M A) (k : A -> M B) w e :
  value (m w) = Raise e -> (m ≫= k) w = Outcome (Raise e) (files (m w)) (calls (m w)).
Proof. intros Hv. unfold mbind, M_bind, M_bind_def. by rewrite Hv. Qed.

Lemma bind_value_raise {A B} (m : M A) (k : A -> M B) w e :
  value ((m ≫= k) w) = Raise e ->
  value (m w) = Raise e
  \/ exists a, value (m w) = Ok a /\ value (k a (files (m w))) = Raise e.
Proof.
  unfold mbind, M_bind, M_bind_def.
  destruct (value (m w)) as [a | e'] eqn:Hv; cbn; intros He.
  - right. by exists a.
  - left. by injection He as ->.
Qed.

Lemma confined_no_load {A} (E : exn -> Prop) (m : M A) w p :
  confined E not_torch_load m -> TorchLoad p ∉ calls (m w).
Proof.
  intros Hm Hin. destruct (Hm w) as [_ HC].
  rewrite Forall_forall in HC. by apply (HC _ Hin p).
Qed.

(** ** The estimator outside the main process *)

(** C9: when [local_rank] is neither -1 nor 0, [Reader.evaluate] returns the
    empty mapping; it loads no checkpoint and runs no evaluation: the file
    system is untouched and the only call it logs is the final log line. *)
Theorem evaluate_off_main_process_is_empty self X (w : gmap string node) :
  local_rank self <> -1 -> local_rank self <> 0 ->
  Reader_evaluate self X w = Outcome (Ok (∅, self)) w [LogInfo "Results"].
Proof.
  intros Hm1 H0. unfold Reader_evaluate.
  assert (in_main_process (local_rank self) = false) as ->.
  { unfold in_main_process. apply orb_false_intro; by apply Z.eqb_neq. }
  erewrite bind_pure; [| reflexivity]. cbv beta iota.
  erewrite bind_ok; [| reflexivity].
  reflexivity.
Qed.

(** ** The output directory guard of [fit] *)




(** ** What the writers are handed *)

Lemma null_odds_arguments_forall (P : option string -> Prop) (l : list event) :
  Forall (fun ev => Forall P (null_odds_arguments [ev])) l ->
  Forall P (null_odds_arguments l).
Proof.
  induction 1 as [| ev l Hev _ IH]; [constructor |].
  unfold null_odds_arguments in *. cbn [omap list_omap] in *.
  destruct ev; try exact IH; constructor; by try apply (Forall_inv Hev).
Qed.

Lemma quiet_null_odds (P : option string -> Prop) :
  quiet (fun ev => Forall P (null_odds_arguments [ev])).
Proof. intros ev. destruct ev; try exact I; constructor. Qed.

(** X1: every call of a prediction writer that [evaluate] makes carries the
    null-odds path in 2.0 mode and [None] otherwise. *)
Lemma evaluate_null_odds_argument input args m tok pfx (w : gmap string node) :
  Forall (fun o => o = if version_2_with_negative args
                       then Some (null_odds_file args pfx) else None)
         (null_odds_arguments (calls (evaluate input args m tok pfx w))).
Proof.
  apply null_odds_arguments_forall.
  set (P := fun o => o = if version_2_with_negative args
                         then Some (null_odds_file args pfx) else None).
  assert (confined any_exn (fun ev => Forall P (null_odds_arguments [ev]))
            (evaluate input args m tok pfx)) as Hc; [| apply Hc].
  pose proof (quiet_null_odds P) as Hq.
  unfold evaluate.
  apply confined_bind; [by apply prepare_batches_confined |].
  intros [[examples features] batches].
  apply confined_bind.
  { apply confined_for_each. intros s x. by apply run_batch_confined. }
  intros all_results.
  apply confined_bind; [| intros ?; confine].
  destruct (is_extended (model_type args));
    (apply confined_library_write; [allowed |]); by repeat constructor.
Qed.

(** [predict] passes the null-odds path whatever the mode. *)
Lemma predict_null_odds_argument input args m tok pfx (w : gmap string node) :
  Forall (fun o => o = Some (null_odds_file args pfx))
         (null_odds_arguments (calls (predict input args m tok pfx w))).
Proof.
  apply null_odds_arguments_forall.
  set (P := fun o => o = Some (null_odds_file args pfx)).
  assert (confined any_exn (fun ev => Forall P (null_odds_arguments [ev]))
            (predict input args m tok pfx)) as Hc; [| apply Hc].
  pose proof (quiet_null_odds P) as Hq.
  unfold predict.
  apply confined_bind; [by apply prepare_batches_confined |].
  intros [[examples features] batches].
  apply confined_bind.
  { apply confined_for_each. intros s x. by apply run_batch_confined. }
  intros all_results.
  destruct (is_extended (model_type args)).
  - apply confined_bind; [| intros ?; confine].
    apply confined_library_write; [allowed |]. by repeat constructor.
  - apply confined_bind; [| intros ?; confine].
    apply confined_library_write; [allowed |]. by repeat constructor.
Qed.

(** ** What [predict] hands back *)

Lemma bind_value_ok {A B} (m : M A) (k : A -> M B) w b :
  value ((m ≫= k) w) = Ok b ->
  exists a, value (m w) = Ok a /\ value (k a (files (m w))) = Ok b.
Proof.
  unfold mbind, M_bind, M_bind_def.
  destruct (value (m w)) as [a | e] eqn:Hv; cbn; intros Hb; [| discriminate].
  by exists a.
Qed.

(** For the extended model types, [predict] returns the second component
    of what the writer returned, and drops the first. *)
Lemma predict_extended_returns_second input args m tok pfx (w : gmap string node) v :
  is_extended (model_type args) = true ->
  value (predict input args m tok pfx w) = Ok v ->
  exists a w0 w1 r d,
    write_predictions_extended a w0 = (inr r, w1) /\ unpack2 r = Ok (d, v).
Proof.
  intros Hext Hv. unfold predict in Hv.
  apply bind_value_ok in Hv as ([[examples features] batches] & _ & Hv).
  apply bind_value_ok in Hv as (all_results & _ & Hv).
  rewrite Hext in Hv.
  apply bind_value_ok in Hv as (r & Hr & Hv).
  apply bind_value_ok in Hv as ([d v'] & Hu & Hv).
  cbn in Hu, Hv. injection Hv as <-.
  unfold library_write in Hr.
  match type of Hr with
  | context [write_predictions_extended ?a ?w0] =>
      destruct (write_predictions_extended a w0) as [[msg | r'] w1] eqn:Hw;
      [discriminate Hr |]; exists a, w0, w1, r', d
  end.
  cbn in Hr. injection Hr as ->. by split.
Qed.

(** X3: for the standard model type, what [predict] returns is what
    [write_predictions] returned, as it is, for the one call [predict] made
    of it: the call on the examples and features [load_and_cache_examples]
    handed over, the results of the batch loop over these features and the
    estimator's settings, started on the file system the loop left.  That
    call is the last in the log, and the files it leaves are the files
    [predict] leaves. *)
Lemma predict_standard_returns_all input args m tok pfx (w : gmap string node) v :
  is_extended (model_type args) = false ->
  value (predict input args m tok pfx w) = Ok v ->
  exists exs fs batches rs,
    let prepared := prepare_batches input args tok pfx w in
    let inferred :=
      for_each batches (run_batch predict_inputs args m fs) [] (files prepared) in
    let a := standard_call args exs fs rs pfx (Some (null_odds_file args pfx)) in
    value prepared = Ok (exs, fs, batches)
    /\ value inferred = Ok rs
    /\ write_predictions a (files inferred)
       = (inr v, files (predict input args m tok pfx w))
    /\ calls (predict input args m tok pfx w)
       = (calls prepared ++ calls inferred ++ [WritePredictions a])%list.
Proof.
  intros Hext Hv. unfold predict in Hv |- *.
  destruct (value (prepare_batches input args tok pfx w))
    as [[[exs fs] batches] | e] eqn:Hp;
    [| rewrite (bind_raise _ _ _ e Hp) in Hv; discriminate Hv].
  rewrite (bind_ok _ _ _ _ Hp) in Hv |- *. cbn [value files calls] in Hv |- *.
  destruct (value (for_each batches (run_batch predict_inputs args m fs) []
                     (files (prepare_batches input args tok pfx w))))
    as [rs | e] eqn:Hi;
    [| rewrite (bind_raise _ _ _ e Hi) in Hv; discriminate Hv].
  rewrite (bind_ok _ _ _ _ Hi) in Hv |- *. cbn [value files calls] in Hv |- *.
  rewrite Hext in Hv |- *.
  exists exs, fs, batches, rs. cbn zeta.
  split; [reflexivity |]. split; [exact Hi |].
  revert Hv. unfold mbind, M_bind, M_bind_def, library_write, mret, M_ret, M_ret_def.
  destruct (write_predictions _ _) as [[msg | r] w1]; cbn [value files calls];
    [discriminate |].
  intros Hv. injection Hv as ->. split; [reflexivity |]. by rewrite app_nil_r.
Qed.

End ReaderFacts.

(** ** The keyword arguments of the model call *)

(** X2: on a batch in the layout of the evaluation dataset, and for a
    model type other than [xlm], [evaluate] binds [attention_mask] to the
    input mask and [token_type_ids] to the segment ids. *)
Lemma evaluate_inputs_bindings args ids mask seg idx cls pm :
  model_type args <> "xlm" ->
  exists i, evaluate_inputs args [ids; mask; seg; idx; cls; pm] = Ok i
            /\ i !! "attention_mask" = Some (Some mask)
            /\ i !! "token_type_ids" = Some (Some seg).
Proof.
  intros Hxlm. apply String.eqb_neq in Hxlm.
  unfold evaluate_inputs. rewrite Hxlm. cbn.
  destruct (is_extended (model_type args)); eexists; (split; [reflexivity |]);
    by simplify_map_eq.
Qed.

(** On the same batch, [predict] binds [attention_mask] to the segment ids
    and [token_type_ids] to the input mask. *)
Lemma predict_inputs_bindings args ids mask seg idx cls pm :
  model_type args <> "xlm" ->
  exists i, predict_inputs args [ids; mask; seg; idx; cls; pm] = Ok i
            /\ i !! "attention_mask" = Some (Some seg)
            /\ i !! "token_type_ids" = Some (Some mask).
Proof.
  intros Hxlm. apply String.eqb_neq in Hxlm.
  unfold predict_inputs. rewrite Hxlm. cbn.
  destruct (is_extended (model_type args)); eexists; (split; [reflexivity |]);
    by simplify_map_eq.
Qed.

(** ** The reader on a concrete run *)

(** C1: with the extended model type [xlnet] and a writer that returns the
    pair (details, "January 2016"), the module-level [predict] returns the
    text alone, not a pair, and [Reader.predict] fails to unpack it; with
    [bert] the same writer's pair reaches the caller. *)
Theorem predict_extended_is_not_a_pair :
  let bert := demo_reader "bert" false true true (-1) in
  let xlnet := demo_reader "xlnet" false true true (-1) in
  value (predict demo_input xlnet (model xlnet) (tokenizer xlnet) "" demo_files)
    = Ok (PStr "January 2016")
  /\ value (Reader_predict xlnet demo_input demo_files)
     = Raise (ValueError "too many values to unpack (expected 2)")
  /\ value (Reader_predict bert demo_input demo_files)
     = Ok (PDict [(PStr "q1", PStr "January 2016")], PStr "January 2016").
Proof. vm_compute. by repeat split. Qed.

(** C2: on the one batch of the demonstration dataset, [evaluate] calls the
    model with [attention_mask] bound to the input mask and [token_type_ids]
    to the segment ids, and [predict] calls it with the two exchanged. *)
Theorem predict_swaps_mask_and_segment_ids :
  let args := demo_reader "bert" false true true (-1) in
  let bound := fun i : gmap string (option tensor) =>
                 (i !! "attention_mask", i !! "token_type_ids") in
  let mask := Some (Some (LongMatrix [input_mask demo_feature])) in
  let segments := Some (Some (LongMatrix [segment_ids demo_feature])) in
  bound <$> model_calls
              (calls (evaluate demo_input args (model args) (tokenizer args) "" demo_files))
    = [(mask, segments)]
  /\ bound <$> model_calls
                 (calls (predict demo_input args (model args) (tokenizer args) "" demo_files))
     = [(segments, mask)]
  /\ mask <> segments.
Proof. vm_compute. by repeat split. Qed.

(** C6: with 2.0 mode off, [evaluate] hands the writer no null-odds path,
    and [predict] hands it the path [out/null_odds_.json]. *)
Theorem predict_passes_null_odds_path_outside_v2 :
  let args := demo_reader "bert" false true true (-1) in
  version_2_with_negative args = false
  /\ null_odds_arguments
       (calls (evaluate demo_input args (model args) (tokenizer args) "" demo_files))
     = [None]
  /\ null_odds_arguments
       (calls (predict demo_input args (model args) (tokenizer args) "" demo_files))
     = [Some "out/null_odds_.json"].
Proof. vm_compute. by repeat split. Qed.

(** C4, as the claim states it, fails: the cache file exists, reading it
    fails, and the call raises that error without reading the source data. *)
Lemma broken_cache_is_fatal :
  let args := demo_reader "bert" false true false (-1) in
  let cache := "data/cached_train_bert-base-uncased_384" in
  let run := load_and_cache_examples demo_input args (tokenizer args) false false
               files_with_broken_cache in
  cached_features_file demo_input args false = Ok cache
  /\ value (torch_load cache files_with_broken_cache) = Raise (UnpicklingError cache)
  /\ value run = Raise (UnpicklingError cache)
  /\ calls run = [LogInfo ("Loading features from cached file " +:+ cache);
                  TorchLoad cache].
Proof. vm_compute. by repeat split. Qed.

(** The fit-style call does read a cache that is there: C10's last part is
    not vacuous. *)
Example fit_call_reads_cache :
  let args := demo_reader "bert" false true false (-1) in
  calls (load_and_cache_examples demo_input args (tokenizer args) false false
           files_with_cache)
  = [LogInfo "Loading features from cached file data/cached_train_bert-base-uncased_384";
     TorchLoad "data/cached_train_bert-base-uncased_384"].
Proof. vm_compute. reflexivity. Qed.

(** C9 at the demonstration files: rank 1 of a distributed run. *)
Lemma evaluate_off_main_process_is_empty_witness :
  Reader_evaluate (demo_reader "bert" false true true 1) demo_input files_with_checkpoint
  = Outcome (Ok (∅, demo_reader "bert" false true true 1)) files_with_checkpoint
      [LogInfo "Results"].
Proof.
  apply (evaluate_off_main_process_is_empty
           (demo_reader "bert" false true true 1) demo_input files_with_checkpoint);
    cbn; lia.
Defined.

(** [evaluate]'s bindings on the one batch of the demonstration dataset. *)
Lemma evaluate_inputs_bindings_witness :
  let f := demo_feature in
  exists i,
    evaluate_inputs (demo_reader "bert" false true true (-1))
      [LongMatrix [input_ids f]; LongMatrix [input_mask f]; LongMatrix [segment_ids f];
       LongVector [0]; LongVector [cls_index f]; FloatMatrix [float_of_Z <$> p_mask f]]
    = Ok i
    /\ i !! "attention_mask" = Some (Some (LongMatrix [input_mask f]))
    /\ i !! "token_type_ids" = Some (Some (LongMatrix [segment_ids f])).
Proof.
  intros f.
  apply (evaluate_inputs_bindings (demo_reader "bert" false true true (-1))).
  cbn. discriminate.
Defined.

(** The standard branch of [predict] at the demonstration files. *)
Lemma predict_standard_returns_all_witness :
  let args := demo_reader "bert" false true true (-1) in
  exists exs fs batches rs,
    let prepared := prepare_batches demo_input args (tokenizer args) "" demo_files in
    let inferred :=
      for_each batches (run_batch predict_inputs args (model args) fs) []
        (files prepared) in
    let a := standard_call args exs fs rs "" (Some (null_odds_file args "")) in
    value prepared = Ok (exs, fs, batches)
    /\ value inferred = Ok rs
    /\ write_predictions a (files inferred)
       = (inr demo_prediction,
          files (predict demo_input args (model args) (tokenizer args) "" demo_files))
    /\ calls (predict demo_input args (model args) (tokenizer args) "" demo_files)
       = (calls prepared ++ calls inferred ++ [WritePredictions a])%list.
Proof.
  intros args.
  apply (predict_standard_returns_all demo_input args (model args) (tokenizer args)
           "" demo_files demo_prediction).
  - reflexivity.
  - vm_compute. reflexivity.
Defined.

(** * Properties of the span decoders *)

Module DecoderFacts.

Import SquadDecoder.

(** What the validity filter lets through. *)
Lemma valid_span_spec f max_len s e :
  valid_span f max_len s e = true ->
  is_context f s = true /\ is_context f e = true
  /\ (s <= e)%nat /\ Z.of_nat e - Z.of_nat s + 1 <= max_len.
Proof.
  unfold valid_span. intros Hv.
  apply andb_prop in Hv as [Hv Hlen]. apply andb_prop in Hv as [Hv Hle].
  apply andb_prop in Hv as [Hs He].
  repeat split; [done | done | by apply Nat.leb_le | by apply Z.leb_le].
Qed.

Lemma standard_candidates_valid n_best max_len fi f r c :
  c ∈ standard_candidates n_best max_len fi f r ->
  valid_span f max_len (start_index c) (end_index c) = true.
Proof.
  unfold standard_candidates. destruct r as [u sl el | u a b c' d e']; [| by inv 1].
  intros Hc. apply list_elem_of_bind in Hc as (s & Hc & _).
  apply list_elem_of_bind in Hc as (e & Hc & _).
  destruct (valid_span f max_len s e) eqn:Hv; [| by inv Hc].
  destruct (floats sl !! s), (floats el !! e); try by inv Hc.
  apply list_elem_of_singleton in Hc as ->. exact Hv.
Qed.

Lemma extended_candidates_valid ks ke max_len fi f r c :
  c ∈ extended_candidates ks ke max_len fi f r ->
  valid_span f max_len (start_index c) (end_index c) = true
  /\ is_cls f (start_index c) = false /\ is_cls f (end_index c) = false.
Proof.
  unfold extended_candidates. destruct r as [u sl el | u slp si elp ei cl]; [by inv 1 |].
  intros Hc. apply list_elem_of_bind in Hc as (sa & Hc & _).
  apply list_elem_of_bind in Hc as (eb & Hc & _).
  destruct (valid_span f max_len sa.1 eb.1) eqn:Hv; [| by inv Hc].
  destruct (is_cls f sa.1) eqn:Hs; [by inv Hc |].
  destruct (is_cls f eb.1) eqn:He; [by inv Hc |].
  apply list_elem_of_singleton in Hc as ->. by repeat split.
Qed.

Lemma candidates_of_valid d n_best max_len fi f r c :
  c ∈ candidates_of d n_best max_len fi f r ->
  valid_span f max_len (start_index c) (end_index c) = true.
Proof.
  destruct d as [| ks ke]; cbn [candidates_of].
  - apply standard_candidates_valid.
  - intros Hc. by apply extended_candidates_valid in Hc as [Hv _].
Qed.

(** Every candidate that reaches the ranking of an Example has its end at or
    after its start, spans at most [max_answer_length] tokens, and has a text. *)
Lemma ranked_spans_are_valid d n_best max_len e ws c t :
  (c, t) ∈ example_candidates d n_best max_len e ws ->
  (start_index c <= end_index c)%nat
  /\ Z.of_nat (end_index c) - Z.of_nat (start_index c) + 1 <= max_len
  /\ exists w, w ∈ ws /\ span_text e w.1.2 c = Some t.
Proof.
  unfold example_candidates. intros Hc.
  apply list_elem_of_bind in Hc as (w & Hc & Hw).
  apply list_elem_of_bind in Hc as (c' & Hc & Hc').
  destruct (span_text e w.1.2 c') as [t' |] eqn:Ht; [| by inv Hc].
  apply list_elem_of_singleton in Hc. injection Hc as -> ->.
  apply candidates_of_valid, valid_span_spec in Hc' as (_ & _ & Hle & Hlen).
  repeat split; [exact Hle | exact Hlen |]. by exists w.
Qed.

(** ** The decoders on the demonstration window *)

Example standard_answer exp :
  answer <$> decode exp Standard 20 30 false 0%float
               [demo_example] [demo_feature] [demo_result]
  = ["January 2016"].
Proof. vm_compute. reflexivity. Qed.

Example standard_nbest_texts exp :
  (fun p => text <$> nbest p)
    <$> decode exp Standard 20 30 false 0%float
          [demo_example] [demo_feature] [demo_result]
  = [["January 2016"; "2016"; "January"; "since January 2016"; "since January";
      "since"]].
Proof. vm_compute. reflexivity. Qed.

Example standard_null_odds exp :
  odds <$> decode exp Standard 20 30 true 0%float
             [demo_example] [demo_feature] [demo_result]
  = [Some (-12.25)%float].
Proof. vm_compute. reflexivity. Qed.

Example extended_answer exp :
  answer <$> decode exp (Extended 2 2) 20 30 true 0%float
               [demo_example] [demo_feature] [demo_result_extended]
  = ["January 2016"].
Proof. vm_compute. reflexivity. Qed.

Example normalized_text : normalize "  January   2016 " = "january 2016".
Proof. reflexivity. Qed.

End DecoderFacts.

(** * Further properties of the reader *)

Local Open Scope list_scope.

(** One step of a computation, with the three components of an outcome
    kept folded. *)
Ltac mrun :=
  unfold mbind, M_bind, M_bind_def, mret, M_ret, M_ret_def, lift_result, emit,
    os_path_exists, raise;
  cbn [value files calls app].

(** ** Which files a computation may change *)

Lemma frames_ret {A} K (a : A) : frames K (mret a).
Proof. by intros w k _. Qed.

Lemma frames_raise {A} K e : frames K (@raise A e).
Proof. by intros w k _. Qed.

Lemma frames_lift_result {A} K (r : result A) : frames K (lift_result r).
Proof. by intros w k _. Qed.

Lemma frames_emit K ev : frames K (emit ev).
Proof. by intros w k _. Qed.

Lemma frames_os_path_exists K p : frames K (os_path_exists p).
Proof. by intros w k _. Qed.

Lemma frames_library_call {A} K ev (f : gmap string node -> string + A) :
  frames K (library_call ev f).
Proof. intros w k _. unfold library_call. by destruct (f w). Qed.

Lemma frames_torch_load K p : frames K (torch_load p).
Proof.
  intros w k _. unfold torch_load. by destruct (w !! p) as [[| [fs | v | b]] |].
Qed.

Lemma frames_torch_save (K : string -> Prop) c p : K p -> frames K (torch_save c p).
Proof.
  intros HK w k Hk. unfold torch_save.
  destruct (w !! p) as [[| c'] |]; cbn [files]; try done;
    apply lookup_insert_ne; by intros ->.
Qed.

Lemma frames_os_makedirs (K : string -> Prop) p : K p -> frames K (os_makedirs p).
Proof.
  intros HK w k Hk. unfold os_makedirs.
  destruct (w !! p); cbn [files]; try done. apply lookup_insert_ne; by intros ->.
Qed.

Lemma frames_bind {A B} K (m : M A) (k : A -> M B) :
  frames K m -> (forall a, frames K (k a)) -> frames K (m ≫= k).
Proof.
  intros Hm Hk w p Hp. unfold mbind, M_bind, M_bind_def.
  destruct (value (m w)) as [a | e]; cbn [files]; [| by apply Hm].
  rewrite Hk by done. by apply Hm.
Qed.

Lemma frames_bind_pure {A B} K (m : M A) (k : A -> M B) a :
  (forall w, m w = Outcome (Ok a) w []) -> frames K (k a) -> frames K (m ≫= k).
Proof. intros Hm Hk w p Hp. rewrite (bind_pure m k w a (Hm w)). by apply Hk. Qed.

Ltac frame_step :=
  first
    [ apply frames_ret
    | apply frames_bind; [| intros ?]
    | apply frames_emit
    | apply frames_raise
    | apply frames_lift_result
    | apply frames_library_call
    | apply frames_os_path_exists
    | apply frames_torch_load
    | match goal with
      | |- frames _ (if ?b then _ else _) => destruct b
      | |- frames _ (match ?x with _ => _ end) => destruct x
      end ].

Section LoadingFacts.

Context `{Library}.

(** ** The two branches of [load_and_cache_examples], run symbolically *)

(** The branch that recomputes, run symbolically: what the two library
    calls return and what the cache path holds decide the whole outcome. *)
Lemma recompute_run input args tok ev oe (w : gmap string node) c :
  cached_features_file input args ev = Ok c ->
  bool_decide (is_Some (w !! c)) && negb (overwrite_cache args) && negb oe = false ->
  load_and_cache_examples input args tok ev oe w
  = let creating :=
      LogInfo ("Creating features from dataset file at " +:+ show_input input) in
    let reading := ReadSquadExamples input (negb ev) (version_2_with_negative args) in
    match read_squad_examples input (negb ev) (version_2_with_negative args) w with
    | inl msg => Outcome (Raise (LibraryError msg)) w [creating; reading]
    | inr exs =>
        let converting := ConvertExamplesToFeatures exs (negb ev) in
        match convert_examples_to_features exs tok (max_seq_length args)
                (doc_stride args) (max_query_length args) (negb ev) with
        | inl msg => Outcome (Raise (LibraryError msg)) w [creating; reading; converting]
        | inr fs =>
            let returned :=
              match dataset_tensors ev fs with
              | Ok d => Ok (loaded_of oe exs fs d)
              | Raise e => Raise e
              end in
            if in_main_process (local_rank args) then
              let saving :=
                [creating; reading; converting;
                 LogInfo ("Saving features into cached file " +:+ c); TorchSave c] in
              match w !! c with
              | Some Dir => Outcome (Raise (IsADirectoryError c)) w saving
              | _ => Outcome returned (<[c := File (Pickle fs)]> w) saving
              end
            else Outcome returned w [creating; reading; converting]
        end
    end.
Proof.
  intros Hc Hg. unfold load_and_cache_examples. rewrite Hc.
  erewrite bind_pure; [| reflexivity].
  erewrite bind_pure; [| reflexivity].
  rewrite Hg.
  unfold dataset_tensors, loaded_of, library_call, torch_save. mrun.
  destruct (read_squad_examples _ _ _ w) as [msg | exs]; cbn [value files calls app];
    [reflexivity |].
  destruct (convert_examples_to_features _ _ _ _ _ _) as [msg | fs];
    cbn [value files calls app]; [reflexivity |].
  destruct (in_main_process (local_rank args)); mrun.
  - destruct (w !! c) as [[| cont] |]; cbn [value files calls app];
      [reflexivity | |];
      (destruct ev; [by destruct oe |]);
      (destruct (positions start_position fs) as [ss | e]; [| reflexivity]);
      (destruct (positions end_position fs) as [es | e]; [| reflexivity]);
      by destruct oe.
  - destruct ev; [by destruct oe |].
    destruct (positions start_position fs) as [ss | e]; [| reflexivity].
    destruct (positions end_position fs) as [es | e]; [| reflexivity].
    by destruct oe.
Qed.

(** The branch that reads the cache, run symbolically. *)
Lemma cache_read_run input args tok ev (w : gmap string node) c :
  cached_features_file input args ev = Ok c ->
  is_Some (w !! c) ->
  overwrite_cache args = false ->
  load_and_cache_examples input args tok ev false w
  = Outcome (match value (torch_load c w) with
             | Ok fs => match dataset_tensors ev fs with
                        | Ok d => Ok (Dataset d)
                        | Raise e => Raise e
                        end
             | Raise e => Raise e
             end) w
      [LogInfo ("Loading features from cached file " +:+ c); TorchLoad c].
Proof.
  intros Hc Hw Hov. unfold load_and_cache_examples. rewrite Hc.
  erewrite bind_pure; [| reflexivity].
  erewrite bind_pure; [| reflexivity].
  rewrite (bool_decide_eq_true_2 _ Hw), Hov. cbn [negb andb].
  unfold dataset_tensors, torch_load. mrun.
  destruct (w !! c) as [[| [fs | v | b]] |]; cbn [value files calls app];
    try reflexivity.
  destruct ev; [reflexivity |].
  destruct (positions start_position fs) as [ss | e]; [| reflexivity].
  destruct (positions end_position fs) as [es | e]; reflexivity.
Qed.

Lemma cache_hit_outcome input args tok ev (w : gmap string node) c fs :
  cached_features_file input args ev = Ok c ->
  w !! c = Some (File (Pickle fs)) ->
  overwrite_cache args = false ->
  load_and_cache_examples input args tok ev false w
  = Outcome (match dataset_tensors ev fs with
             | Ok d => Ok (Dataset d)
             | Raise e => Raise e
             end) w
      [LogInfo ("Loading features from cached file " +:+ c); TorchLoad c].
Proof.
  intros Hc Hw Hov.
  rewrite (cache_read_run input args tok ev w c Hc);
    [| rewrite Hw; by eexists | exact Hov].
  unfold torch_load. by rewrite Hw.
Qed.

Lemma recompute_outcome input args tok ev oe (w : gmap string node) c exs fs :
  cached_features_file input args ev = Ok c ->
  w !! c = None \/ overwrite_cache args = true \/ oe = true ->
  read_squad_examples input (negb ev) (version_2_with_negative args) w = inr exs ->
  convert_examples_to_features exs tok (max_seq_length args) (doc_stride args)
    (max_query_length args) (negb ev) = inr fs ->
  w !! c <> Some Dir ->
  load_and_cache_examples input args tok ev oe w
  = Outcome (match dataset_tensors ev fs with
             | Ok d => Ok (loaded_of oe exs fs d)
             | Raise e => Raise e
             end)
      (if in_main_process (local_rank args) then <[c := File (Pickle fs)]> w else w)
      ([LogInfo ("Creating features from dataset file at " +:+ show_input input);
        ReadSquadExamples input (negb ev) (version_2_with_negative args);
        ConvertExamplesToFeatures exs (negb ev)]
       ++ if in_main_process (local_rank args)
          then [LogInfo ("Saving features into cached file " +:+ c); TorchSave c]
          else []).
Proof.
  intros Hc Hguard Hread Hconv Hdir.
  rewrite (recompute_run input args tok ev oe w c Hc).
  - cbv zeta. rewrite Hread, Hconv.
    destruct (in_main_process (local_rank args)); [| reflexivity].
    by destruct (w !! c) as [[| cont] |].
  - destruct Hguard as [Hn | [Ho | ->]].
    + rewrite bool_decide_eq_false_2; [done |]. rewrite Hn. by intros [? ?].
    + rewrite Ho. cbn. by rewrite andb_false_r.
    + cbn. by rewrite andb_false_r.
Qed.

(** X4: a call that computes the features in the main process leaves them
    in the cache file, and a later call without [output_examples] and without
    [overwrite_cache] whose cache path is the same - the same input, or any
    other file of the same directory under the same model name and sequence
    length - is served from that file: it returns the first call's dataset (or
    raises what the first call raised while building it), logs one
    [torch.load] and no read of the source data, and changes no file. *)
Theorem later_load_reads_back_the_cache
    input args tok ev oe input' args' tok' (w : gmap string node) c exs fs :
  cached_features_file input args ev = Ok c ->
  cached_features_file input' args' ev = Ok c ->
  w !! c = None \/ overwrite_cache args = true \/ oe = true ->
  read_squad_examples input (negb ev) (version_2_with_negative args) w = inr exs ->
  convert_examples_to_features exs tok (max_seq_length args) (doc_stride args)
    (max_query_length args) (negb ev) = inr fs ->
  w !! c <> Some Dir ->
  in_main_process (local_rank args) = true ->
  overwrite_cache args' = false ->
  let first := load_and_cache_examples input args tok ev oe w in
  load_and_cache_examples input' args' tok' ev false (files first)
  = Outcome (match value first with
             | Ok l => Ok (Dataset (loaded_dataset l))
             | Raise e => Raise e
             end)
      (files first)
      [LogInfo ("Loading features from cached file " +:+ c); TorchLoad c].
Proof.
  intros Hc Hc' Hguard Hread Hconv Hdir Hmain Hov first. subst first.
  rewrite (recompute_outcome input args tok ev oe w c exs fs) by done.
  rewrite Hmain. cbn [value files calls].
  rewrite (cache_hit_outcome input' args' tok' ev _ c fs);
    [| done | apply lookup_insert_eq | done].
  destruct (dataset_tensors ev fs) as [d | e]; [| reflexivity].
  by destruct oe.
Qed.

(** X5: [load_and_cache_examples] changes no file but the cache file, and
    outside the main process (a rank other than -1 and 0) it changes no file
    at all. *)
Theorem loading_touches_only_the_cache
    input args tok ev oe (w : gmap string node) :
  (forall k, cached_features_file input args ev <> Ok k ->
             files (load_and_cache_examples input args tok ev oe w) !! k = w !! k)
  /\ (in_main_process (local_rank args) = false ->
      files (load_and_cache_examples input args tok ev oe w) = w).
Proof.
  assert (frames (fun k => in_main_process (local_rank args) = true
                           /\ cached_features_file input args ev = Ok k)
            (load_and_cache_examples input args tok ev oe)) as Hframes.
  { unfold load_and_cache_examples.
    destruct (cached_features_file input args ev) as [c | e] eqn:Hc.
    - eapply frames_bind_pure; [reflexivity |].
      apply frames_bind; [apply frames_os_path_exists |]. intros present.
      apply frames_bind; [| intros [examples features]; repeat frame_step].
      destruct (_ && _); [repeat frame_step |].
      do 3 (apply frames_bind; [repeat frame_step |]; intros ?).
      apply frames_bind; [| intros ?; apply frames_ret].
      destruct (in_main_process (local_rank args)) eqn:Hmain; [| apply frames_ret].
      apply frames_bind; [apply frames_emit |]. intros _.
      by apply frames_torch_save.
    - intros w' k _. by rewrite (bind_raise _ _ _ e). }
  split.
  - intros k Hk. apply Hframes. by intros [_ Hc].
  - intros Hmain. apply map_eq. intros k. apply Hframes.
    intros [Hmain' _]. congruence.
Qed.

(** ** What the cache decides *)

(** C10: a call of [load_and_cache_examples] with [output_examples=True]
    never reads the cached features file, whatever the file system holds and
    whatever [overwrite_cache] says; [evaluate] and [predict], which call it
    that way, never read it either; a call that does read the cache has
    [output_examples=False].  With [output_examples=True] the features are
    recomputed from the source data: the examples are those
    [read_squad_examples] returns for the input, the features those
    [convert_examples_to_features] returns for these examples, the dataset
    is built from these features, and the three are what the call returns;
    the call fails only where one of the two library calls, the write of the
    cache or the build of the tensors fails. *)
Theorem cache_not_read_when_examples_requested
    input args m tok pfx ev (w : gmap string node) p :
  (TorchLoad p ∉ calls (load_and_cache_examples input args tok ev true w))
  /\ (TorchLoad p ∉ calls (evaluate input args m tok pfx w))
  /\ (TorchLoad p ∉ calls (predict input args m tok pfx w))
  /\ (forall oe, TorchLoad p ∈ calls (load_and_cache_examples input args tok ev oe w) ->
                 oe = false)
  /\ load_and_cache_examples input args tok ev true w
     = match cached_features_file input args ev with
       | Raise e => Outcome (Raise e) w []
       | Ok c =>
           let creating :=
             LogInfo ("Creating features from dataset file at " +:+ show_input input) in
           let reading :=
             ReadSquadExamples input (negb ev) (version_2_with_negative args) in
           match read_squad_examples input (negb ev) (version_2_with_negative args) w with
           | inl msg => Outcome (Raise (LibraryError msg)) w [creating; reading]
           | inr exs =>
               let converting := ConvertExamplesToFeatures exs (negb ev) in
               match convert_examples_to_features exs tok (max_seq_length args)
                       (doc_stride args) (max_query_length args) (negb ev) with
               | inl msg =>
                   Outcome (Raise (LibraryError msg)) w [creating; reading; converting]
               | inr fs =>
                   let returned :=
                     match dataset_tensors ev fs with
                     | Ok d => Ok (DatasetExamplesFeatures d exs fs)
                     | Raise e => Raise e
                     end in
                   if in_main_process (local_rank args) then
                     let saving :=
                       [creating; reading; converting;
                        LogInfo ("Saving features into cached file " +:+ c);
                        TorchSave c] in
                     match w !! c with
                     | Some Dir => Outcome (Raise (IsADirectoryError c)) w saving
                     | _ => Outcome returned (<[c := File (Pickle fs)]> w) saving
                     end
                   else Outcome returned w [creating; reading; converting]
               end
           end
       end.
Proof.
  split; [| split; [| split; [| split]]].
  - eapply confined_no_load, loading_with_examples_confined, quiet_not_torch_load.
  - eapply confined_no_load, evaluate_confined.
  - eapply confined_no_load, predict_confined.
  - intros [|] Hin; [| reflexivity].
    exfalso. revert Hin.
    eapply confined_no_load, loading_with_examples_confined, quiet_not_torch_load.
  - destruct (cached_features_file input args ev) as [c | e] eqn:Hc.
    + rewrite (recompute_run input args tok ev true w c Hc); [reflexivity |].
      cbn [negb]. apply andb_false_r.
    + unfold load_and_cache_examples. rewrite Hc. by rewrite bind_raise with (e := e).
Qed.

(** C4 (amended): when the cached feature file exists, [overwrite_cache] is
    off and [output_examples] is off, the file is read and nothing is
    recomputed: the call returns the dataset of the features the file holds,
    and a failure of the read is fatal - the error of [torch.load] reaches
    the caller, the file system is left as it was, and the log holds the
    read alone.  When the cache file is absent, [overwrite_cache] is set or
    [output_examples] is requested, the file is not read and the features
    are computed from the source data by [read_squad_examples] and
    [convert_examples_to_features], whose results the call returns. *)
Theorem cache_read_failure_propagates
    input args tok ev oe (w : gmap string node) c :
  cached_features_file input args ev = Ok c ->
  (is_Some (w !! c) -> overwrite_cache args = false -> oe = false ->
   load_and_cache_examples input args tok ev oe w
   = Outcome (match value (torch_load c w) with
              | Ok fs => match dataset_tensors ev fs with
                         | Ok d => Ok (Dataset d)
                         | Raise e => Raise e
                         end
              | Raise e => Raise e
              end) w
       [LogInfo ("Loading features from cached file " +:+ c); TorchLoad c])
  /\ (w !! c = None \/ overwrite_cache args = true \/ oe = true ->
      load_and_cache_examples input args tok ev oe w
      = let creating :=
          LogInfo ("Creating features from dataset file at " +:+ show_input input) in
        let reading :=
          ReadSquadExamples input (negb ev) (version_2_with_negative args) in
        match read_squad_examples input (negb ev) (version_2_with_negative args) w with
        | inl msg => Outcome (Raise (LibraryError msg)) w [creating; reading]
        | inr exs =>
            let converting := ConvertExamplesToFeatures exs (negb ev) in
            match convert_examples_to_features exs tok (max_seq_length args)
                    (doc_stride args) (max_query_length args) (negb ev) with
            | inl msg =>
                Outcome (Raise (LibraryError msg)) w [creating; reading; converting]
            | inr fs =>
                let returned :=
                  match dataset_tensors ev fs with
                  | Ok d => Ok (loaded_of oe exs fs d)
                  | Raise e => Raise e
                  end in
                if in_main_process (local_rank args) then
                  let saving :=
                    [creating; reading; converting;
                     LogInfo ("Saving features into cached file " +:+ c);
                     TorchSave c] in
                  match w !! c with
                  | Some Dir => Outcome (Raise (IsADirectoryError c)) w saving
                  | _ => Outcome returned (<[c := File (Pickle fs)]> w) saving
                  end
                else Outcome returned w [creating; reading; converting]
            end
        end).
Proof.
  intros Hc. split.
  - intros Hsome Hov ->. by apply cache_read_run.
  - intros Hcase. apply (recompute_run input args tok ev oe w c Hc).
    destruct Hcase as [Hnone | [Hov | ->]].
    + rewrite bool_decide_eq_false_2; [reflexivity |].
      rewrite Hnone. by intros [x Hx].
    + rewrite Hov. cbn [negb]. by rewrite andb_false_r.
    + cbn [negb]. by rewrite andb_false_r.
Qed.

End LoadingFacts.

(** ** Lists: sampling rows and cutting batches *)

Lemma gather_app {A} (idx1 idx2 : list nat) (l : list A) :
  gather (idx1 ++ idx2) l = gather idx1 l ++ gather idx2 l.
Proof. unfold gather. apply omap_app. Qed.

Lemma gather_fmap {A B} (f : A -> B) (idx : list nat) (l : list A) :
  gather idx (f <$> l) = f <$> gather idx l.
Proof.
  unfold gather. induction idx as [| i idx IH]; [done |]. cbn.
  rewrite list_lookup_fmap. destruct (l !! i); cbn; by rewrite IH.
Qed.

Lemma gather_seq_slice {A} (l : list A) (a n : nat) :
  (a + n <= length l)%nat -> gather (seq a n) l = take n (drop a l).
Proof.
  revert a. induction n as [| n IH]; intros a Hn; [done |].
  unfold gather in *. cbn [seq omap list_omap].
  destruct (l !! a) as [x |] eqn:Hx.
  - rewrite IH by lia. rewrite (drop_S l x a Hx). done.
  - apply lookup_ge_None in Hx. lia.
Qed.

Lemma gather_seq_all {A} (l : list A) : gather (seq 0 (length l)) l = l.
Proof. rewrite gather_seq_slice by lia. rewrite drop_0. by apply take_ge. Qed.

(** Rows picked at positions that exist are the positions themselves on an
    index column. *)
Lemma gather_arange (idx : list nat) (n : nat) :
  Forall (fun i => (i < n)%nat) idx ->
  gather idx (Z.of_nat <$> seq 0 n) = Z.of_nat <$> idx.
Proof.
  induction 1 as [| i idx Hi _ IH]; [done |].
  unfold gather in *. cbn. rewrite list_lookup_fmap, lookup_seq_lt by done.
  cbn. by rewrite IH.
Qed.

Lemma chunks_fuel_concat {A} (fuel n : nat) (l : list A) :
  (0 < n)%nat -> (length l <= fuel)%nat -> concat (chunks_fuel fuel n l) = l.
Proof.
  intros Hn. revert l. induction fuel as [| fuel IH]; intros l Hl.
  - destruct l; [done | cbn in Hl; lia].
  - destruct l as [| x l]; [done |].
    cbn [chunks_fuel concat]. rewrite IH.
    + apply take_drop.
    + rewrite length_drop. cbn [length] in *. lia.
Qed.

(** The batches, put end to end, are the sampled rows in order. *)
Lemma chunks_concat {A} (n : nat) (l : list A) :
  (0 < n)%nat -> concat (chunks n l) = l.
Proof. intros Hn. by apply chunks_fuel_concat. Qed.

Lemma elem_of_concat_of {A} (x : A) (l : list A) (ls : list (list A)) :
  x ∈ l -> l ∈ ls -> x ∈ concat ls.
Proof.
  intros Hx Hl. induction ls as [| l' ls IH]; [by inv Hl |].
  cbn [concat]. apply elem_of_app.
  apply elem_of_cons in Hl as [-> | Hl]; [by left | right; by apply IH].
Qed.

(** ** What a loop that appends to its accumulator returns *)

Lemma for_each_appends {A R} (P : A -> list R -> Prop) (l : list A)
    (body : list R -> A -> M (list R)) :
  (forall acc x w res, x ∈ l -> value (body acc x w) = Ok res ->
                       exists rs, res = acc ++ rs /\ P x rs) ->
  forall acc w res,
    value (for_each l body acc w) = Ok res ->
    exists rss, res = acc ++ concat rss /\ Forall2 P l rss.
Proof.
  induction l as [| x l IH]; intros Hbody acc w res Hv.
  - cbn in Hv. injection Hv as <-. exists []. by rewrite app_nil_r.
  - cbn [for_each] in Hv. apply bind_value_ok in Hv as (acc' & Hx & Hv).
    apply Hbody in Hx as (rs & -> & HP); [| left].
    apply IH in Hv as (rss & -> & Hrss).
    + exists (rs :: rss). cbn [concat]. rewrite app_assoc. by split; [| constructor].
    + intros acc0 y w0 res0 Hy. apply Hbody. by right.
Qed.

Lemma bind_calls_elem {A B} (m : M A) (k : A -> M B) w ev :
  ev ∈ calls ((m ≫= k) w) ->
  ev ∈ calls (m w)
  \/ exists a, value (m w) = Ok a /\ ev ∈ calls (k a (files (m w))).
Proof.
  unfold mbind, M_bind, M_bind_def.
  destruct (value (m w)) as [a | e] eqn:Hv; cbn [calls]; [| by left].
  intros [Hin | Hin]%elem_of_app; [by left |]. right. by exists a.
Qed.

(** ** The shape of the dataset *)

Lemma positions_length proj fs zs :
  positions proj fs = Ok zs -> length zs = length fs.
Proof.
  revert zs. induction fs as [| f fs IH]; intros zs; cbn.
  - by intros [= <-].
  - destruct (proj f); [| done].
    destruct (positions proj fs) as [zs' |]; cbn; [| done].
    intros [= <-]. cbn. by rewrite (IH zs').
Qed.

Lemma dataset_tensors_shape ev fs d :
  dataset_tensors ev fs = Ok d ->
  length d = (if ev then 6 else 7)%nat
  /\ Forall (fun t => tensor_size t = length fs) d
  /\ (ev = true ->
      d !! 3%nat = Some (LongVector (Z.of_nat <$> seq 0 (length fs)))).
Proof.
  unfold dataset_tensors. destruct ev.
  - intros [= <-]. cbn [tensor_size]. rewrite !length_fmap.
    split; [done |]. split; [| done].
    repeat constructor; cbn [tensor_size]; by rewrite ?length_fmap, ?length_seq.
  - destruct (positions start_position fs) as [ss |] eqn:Hs; cbn; [| done].
    destruct (positions end_position fs) as [es |] eqn:He; cbn; [| done].
    intros [= <-]. apply positions_length in Hs, He.
    split; [done |]. split; [| done].
    repeat constructor; cbn [tensor_size]; by rewrite ?length_fmap.
Qed.

Section InferenceFacts.

Context `{Library}.

(** What a successful call with [output_examples] returns. *)
Lemma loaded_with_examples input args tok ev (w : gmap string node) l :
  value (load_and_cache_examples input args tok ev true w) = Ok l ->
  exists d exs fs,
    l = DatasetExamplesFeatures d exs fs /\ dataset_tensors ev fs = Ok d.
Proof.
  unfold load_and_cache_examples. intros Hv.
  apply bind_value_ok in Hv as (c & _ & Hv).
  apply bind_value_ok in Hv as (present & _ & Hv).
  cbn [negb] in Hv. rewrite andb_false_r in Hv.
  apply bind_value_ok in Hv as ([oexs fs] & Hb & Hv).
  apply bind_value_ok in Hb as (? & _ & Hb).
  apply bind_value_ok in Hb as (exs & _ & Hb).
  apply bind_value_ok in Hb as (fs' & _ & Hb).
  apply bind_value_ok in Hb as (? & _ & Hb).
  cbn [mret M_ret M_ret_def value] in Hb. injection Hb as <- <-.
  apply bind_value_ok in Hv as (d & Hd & Hv).
  cbn [mret M_ret M_ret_def value] in Hv. injection Hv as <-.
  exists d, exs, fs'. split; [done |].
  unfold dataset_tensors. destruct ev.
  - cbn [mret M_ret M_ret_def value] in Hd. by injection Hd as <-.
  - apply bind_value_ok in Hd as (ss & Hs & Hd).
    apply bind_value_ok in Hd as (es & He & Hd).
    cbn [lift_result mret M_ret M_ret_def value] in Hs, He, Hd.
    rewrite Hs, He. cbn. by injection Hd as <-.
Qed.

(** X6: the dataset a successful call with [output_examples] returns has
    six tensors in the evaluation layout and seven in the training layout,
    every one with as many rows as there are features, and the fourth tensor
    of the evaluation layout numbers the features from 0. *)
Theorem loaded_dataset_has_a_row_per_feature
    input args tok ev (w : gmap string node) d exs fs :
  value (load_and_cache_examples input args tok ev true w)
    = Ok (DatasetExamplesFeatures d exs fs) ->
  length d = (if ev then 6 else 7)%nat
  /\ Forall (fun t => tensor_size t = length fs) d
  /\ (ev = true ->
      d !! 3%nat = Some (LongVector (Z.of_nat <$> seq 0 (length fs)))).
Proof.
  intros Hv. apply loaded_with_examples in Hv as (d' & exs' & fs' & Heq & Hd).
  injection Heq as -> -> ->. by apply dataset_tensors_shape.
Qed.

(** What a successful [prepare_batches] returns under the sequential
    sampler: the dataset of the features, cut into batches in order. *)
Lemma prepared_batches input args tok pfx (w : gmap string node) exs fs batches :
  local_rank args = -1 ->
  value (prepare_batches input args tok pfx w) = Ok (exs, fs, batches) ->
  exists d n,
    dataset_tensors true fs = Ok d /\ (0 < n)%nat
    /\ batches = (fun idx => tensor_gather idx <$> d)
                   <$> chunks n (seq 0 (length fs)).
Proof.
  intros Hrank Hv. unfold prepare_batches in Hv.
  apply bind_value_ok in Hv as (l & Hl & Hv).
  apply loaded_with_examples in Hl as (d & exs' & fs' & -> & Hd).
  apply bind_value_ok in Hv as (present & _ & Hv).
  apply bind_value_ok in Hv as (? & _ & Hv).
  apply bind_value_ok in Hv as (bs & Hbs & Hv).
  apply bind_value_ok in Hv as (? & _ & Hv).
  apply bind_value_ok in Hv as (? & _ & Hv).
  apply bind_value_ok in Hv as (? & _ & Hv).
  cbn [mret M_ret M_ret_def value] in Hv. injection Hv as <- <- <-.
  unfold data_loader in Hbs.
  destruct (_ <=? 0) eqn:Hpos; [discriminate Hbs |].
  cbn [mret M_ret M_ret_def value] in Hbs. injection Hbs as <-.
  apply Z.leb_gt in Hpos.
  set (bs := per_gpu_eval_batch_size args * Z.max 1 (n_gpu args)) in *.
  exists d, (Z.to_nat bs).
  split; [done |]. split; [clearbody bs; lia |].
  unfold eval_sampler. rewrite Hrank. cbn [Z.eqb Pos.eqb].
  destruct (dataset_tensors_shape true fs' d Hd) as (_ & Hsize & _).
  unfold dataset_len.
  destruct d as [| t d]; [discriminate Hd |]. cbn [head from_option].
  by rewrite (Forall_inv Hsize).
Qed.

Lemma made_result args fs outputs i j r :
  make_result args fs outputs i (Z.of_nat j) = Ok r ->
  exists f, fs !! j = Some f /\ result_id r = unique_id f
            /\ is_extended_result r = is_extended (model_type args).
Proof.
  unfold make_result, py_index.
  assert ((Z.of_nat j <? 0) = false) as -> by (apply Z.ltb_ge; lia).
  destruct (_ && _); [| done]. rewrite Nat2Z.id.
  destruct (fs !! j) as [f |]; [| done]. cbn [from_option result_bind].
  intros Hr. exists f. split; [done |].
  destruct (is_extended (model_type args)).
  - repeat (match type of Hr with
            | result_bind ?x _ = _ => destruct x; cbn [result_bind] in Hr; [| done]
            end).
    by injection Hr as <-.
  - repeat (match type of Hr with
            | result_bind ?x _ = _ => destruct x; cbn [result_bind] in Hr; [| done]
            end).
    by injection Hr as <-.
Qed.

(** One batch: one result per sampled row, with the row's feature id. *)
Lemma run_batch_results build args m fs d idx acc (w : gmap string node) res :
  dataset_tensors true fs = Ok d ->
  Forall (fun i => (i < length fs)%nat) idx ->
  value (run_batch build args m fs acc (tensor_gather idx <$> d) w) = Ok res ->
  exists rs, res = acc ++ rs
             /\ result_id <$> rs = unique_id <$> gather idx fs
             /\ Forall (fun r => is_extended_result r = is_extended (model_type args)) rs.
Proof.
  intros Hd Hidx Hv. unfold run_batch in Hv.
  apply bind_value_ok in Hv as (inputs & _ & Hv).
  apply bind_value_ok in Hv as (col & Hcol & Hv).
  apply bind_value_ok in Hv as (outputs & _ & Hv).
  apply bind_value_ok in Hv as (indices & Hind & Hv).
  cbn [lift_result value] in Hcol, Hind.
  unfold dataset_tensors in Hd. injection Hd as <-.
  cbn in Hcol. injection Hcol as <-.
  cbn [tensor_items] in Hind. injection Hind as <-.
  rewrite length_fmap, gather_arange in Hv by done.
  apply (for_each_appends
           (fun iz rs => exists f r, rs = [r] /\ fs !! Z.to_nat iz.2 = Some f
                                     /\ result_id r = unique_id f
                                     /\ is_extended_result r
                                        = is_extended (model_type args)))
    in Hv as (rss & -> & Hrss).
  - exists (concat rss). split; [done |].
    clear -Hrss Hidx. rewrite imap_fmap in Hrss.
    set (g := fun n : nat => (fun z : Z => (n, z)) ∘ Z.of_nat) in Hrss.
    assert (forall n j, (g n j).2 = Z.of_nat j) as Hg by done.
    clearbody g. revert g Hg rss Hrss.
    induction idx as [| i idx IH]; intros g Hg rss Hrss.
    + inv Hrss. by split.
    + cbn [imap] in Hrss. apply Forall2_cons_inv_l in Hrss
        as (rs & rss' & (f & r & -> & Hf & Hid & Hext) & Hrss & ->).
      rewrite Hg, Nat2Z.id in Hf.
      apply Forall_cons in Hidx as [_ Hidx].
      destruct (IH Hidx (g ∘ S) (fun n j => Hg (S n) j) rss' Hrss) as [IH1 IH2].
      unfold gather in *. cbn. rewrite Hf. cbn. rewrite Hid, IH1.
      split; [done |]. by constructor.
  - intros acc0 [i z] w0 res0 Hin Hbody.
    apply bind_value_ok in Hbody as (r & Hr & Hbody).
    cbn [mret M_ret M_ret_def lift_result value] in Hr, Hbody.
    injection Hbody as <-.
    apply list_elem_of_lookup in Hin as [pos Hin].
    rewrite list_lookup_imap in Hin.
    destruct ((Z.of_nat <$> idx) !! pos) as [z' |] eqn:Hz; [| done].
    cbn in Hin. injection Hin as <- <-.
    rewrite list_lookup_fmap in Hz. destruct (idx !! pos) as [j |]; [| done].
    cbn in Hz. injection Hz as <-.
    apply made_result in Hr as (f & Hf & Hid & Hext).
    exists [r]. split; [done |]. exists f, r. cbn [snd]. by rewrite Nat2Z.id.
Qed.

(** The whole loop: one result per feature, in the order of the features. *)
Lemma inference_results build input args m tok pfx (w w' : gmap string node)
    exs fs batches all_results :
  local_rank args = -1 ->
  value (prepare_batches input args tok pfx w) = Ok (exs, fs, batches) ->
  value (for_each batches (run_batch build args m fs) [] w') = Ok all_results ->
  result_id <$> all_results = unique_id <$> fs
  /\ Forall (fun r => is_extended_result r = is_extended (model_type args)) all_results.
Proof.
  intros Hrank Hprep Hloop.
  apply prepared_batches in Hprep as (d & n & Hd & Hn & ->); [| done].
  assert (forall idx, idx ∈ chunks n (seq 0 (length fs)) ->
                      Forall (fun i => (i < length fs)%nat) idx) as Hrange.
  { intros idx Hidx. apply Forall_forall. intros i Hi.
    assert (i ∈ concat (chunks n (seq 0 (length fs)))) as Hin
      by (by apply (elem_of_concat_of i idx)).
    rewrite chunks_concat in Hin by done. apply elem_of_seq in Hin. lia. }
  apply (for_each_appends
           (fun batch rs =>
              forall idx, batch = tensor_gather idx <$> d ->
                          Forall (fun i => (i < length fs)%nat) idx ->
                          result_id <$> rs = unique_id <$> gather idx fs
                          /\ Forall (fun r => is_extended_result r
                                              = is_extended (model_type args)) rs))
    in Hloop as (rss & -> & Hrss).
  - cbn [app].
    rewrite <- (gather_seq_all fs) at 1.
    rewrite <- (chunks_concat n (seq 0 (length fs)) Hn) at 1.
    revert rss Hrss Hrange.
    induction (chunks n (seq 0 (length fs))) as [| idx idxs IH];
      intros rss Hrss Hrange.
    + inv Hrss. by split.
    + cbn [fmap list_fmap] in Hrss. apply Forall2_cons_inv_l in Hrss
        as (rs & rss' & Hrs & Hrss & ->).
      destruct (Hrs idx eq_refl) as [Hids Hext]; [apply Hrange; left |].
      destruct (IH rss' Hrss) as [IH1 IH2]; [intros ? ?; apply Hrange; by right |].
      cbn [concat]. rewrite fmap_app, gather_app, fmap_app, IH1, Hids.
      split; [done | by apply Forall_app].
  - intros acc batch w0 res Hin Hbody.
    apply list_elem_of_fmap in Hin as (idx & -> & Hin).
    pose proof Hbody as Hbody'.
    apply (run_batch_results build args m fs d idx) in Hbody
      as (rs & -> & Hids & Hext); [| done | by apply Hrange].
    exists rs. split; [done |]. intros idx' Heq Hlt.
    rewrite Heq in Hbody'.
    apply (run_batch_results build args m fs d idx') in Hbody'
      as (rs' & Hres & Hids' & Hext'); [| done | done].
    apply app_inv_head in Hres as <-. by split.
Qed.

Lemma quiet_no_writer : quiet (fun ev => written_results ev = None).
Proof. intros ev. by destruct ev. Qed.

Lemma writer_call_results ev' (ev : event) rs fs
    (f : gmap string node -> (string + pyval) * gmap string node)
    (w : gmap string node) :
  ev ∈ calls (library_write ev' f w) ->
  written_results ev = Some (rs, fs) ->
  written_results ev' = Some (rs, fs).
Proof.
  unfold library_write. destruct (f w) as [[msg | v] w1]; cbn [calls];
    intros ->%list_elem_of_singleton; done.
Qed.

(** X7: under the sequential sampler (rank -1), the results [evaluate] and
    [predict] hand to the prediction writer are one per feature, in the order
    of the features, each carrying its feature's [unique_id]; and they are
    all [RawResultExtended] for the model types [xlnet] and [xlm] and all
    [RawResult] otherwise. *)
Theorem results_align_with_features
    input args m tok pfx (w : gmap string node) ev rs fs :
  local_rank args = -1 ->
  ev ∈ calls (evaluate input args m tok pfx w)
  \/ ev ∈ calls (predict input args m tok pfx w) ->
  written_results ev = Some (rs, fs) ->
  result_id <$> rs = unique_id <$> fs
  /\ Forall (fun r => is_extended_result r = is_extended (model_type args)) rs.
Proof.
  intros Hrank Hin Hw.
  pose proof quiet_no_writer as Hq.
  destruct Hin as [Hin | Hin]; [unfold evaluate in Hin | unfold predict in Hin].
  - apply bind_calls_elem in Hin as [Hin | ([[exs fs'] batches] & Hprep & Hin)].
    { destruct (prepare_batches_confined _ input args tok pfx Hq w) as [_ HC].
      rewrite Forall_forall in HC. apply HC in Hin. congruence. }
    apply bind_calls_elem in Hin as [Hin | (all_results & Hloop & Hin)].
    { destruct (confined_for_each any_exn _ batches
                  (run_batch evaluate_inputs args m fs')
                  (fun s x => run_batch_confined _ evaluate_inputs args m fs' s x Hq)
                  [] (files (prepare_batches input args tok pfx w))) as [_ HC].
      rewrite Forall_forall in HC. apply HC in Hin. congruence. }
    apply bind_calls_elem in Hin as [Hin | (? & _ & Hin)].
    + assert (rs = all_results /\ fs = fs') as [-> ->].
      { destruct (is_extended (model_type args));
          pose proof (writer_call_results _ ev rs fs _ _ Hin Hw) as Heq;
          cbn in Heq; by injection Heq as <- <-. }
      exact (inference_results evaluate_inputs input args m tok pfx w _ exs
               fs' batches all_results Hrank Hprep Hloop).
    + unfold library_call in Hin.
      destruct (evaluate_on_squad _ _); cbn [calls] in Hin;
        apply list_elem_of_singleton in Hin as ->; done.
  - apply bind_calls_elem in Hin as [Hin | ([[exs fs'] batches] & Hprep & Hin)].
    { destruct (prepare_batches_confined _ input args tok pfx Hq w) as [_ HC].
      rewrite Forall_forall in HC. apply HC in Hin. congruence. }
    apply bind_calls_elem in Hin as [Hin | (all_results & Hloop & Hin)].
    { destruct (confined_for_each any_exn _ batches
                  (run_batch predict_inputs args m fs')
                  (fun s x => run_batch_confined _ predict_inputs args m fs' s x Hq)
                  [] (files (prepare_batches input args tok pfx w))) as [_ HC].
      rewrite Forall_forall in HC. apply HC in Hin. congruence. }
    assert (rs = all_results /\ fs = fs') as [-> ->].
    { destruct (is_extended (model_type args)).
      - apply bind_calls_elem in Hin as [Hin | (r & _ & Hin)].
        + pose proof (writer_call_results _ ev rs fs _ _ Hin Hw) as Heq.
          cbn in Heq. by injection Heq as <- <-.
        + apply bind_calls_elem in Hin as [Hin | ([? ?] & _ & Hin)]; by inv Hin.
      - apply bind_calls_elem in Hin as [Hin | (r & _ & Hin)].
        + pose proof (writer_call_results _ ev rs fs _ _ Hin Hw) as Heq.
          cbn in Heq. by injection Heq as <- <-.
        + by inv Hin. }
    exact (inference_results predict_inputs input args m tok pfx w _ exs
             fs' batches all_results Hrank Hprep Hloop).
Qed.

End InferenceFacts.

(** ** The loading and inference facts at the demonstration files *)

(** X4 at the demonstration files: a first [fit]-style load of
    [data/dev.json], then one of [data/other.json]. *)
Lemma later_load_reads_back_the_cache_witness :
  let args := demo_reader "bert" false true false (-1) in
  let cache := "data/cached_train_bert-base-uncased_384" in
  let first := load_and_cache_examples demo_input args (tokenizer args) false false
                 demo_files in
  load_and_cache_examples (InputPath "data/other.json") args (tokenizer args)
    false false (files first)
  = Outcome (match value first with
             | Ok l => Ok (Dataset (loaded_dataset l))
             | Raise e => Raise e
             end)
      (files first)
      [LogInfo ("Loading features from cached file " +:+ cache); TorchLoad cache].
Proof.
  intros args cache first.
  apply (later_load_reads_back_the_cache demo_input args (tokenizer args) false false
           (InputPath "data/other.json") args (tokenizer args) demo_files cache
           [demo_example] [demo_feature]).
  - vm_compute. reflexivity.
  - vm_compute. reflexivity.
  - left. vm_compute. reflexivity.
  - reflexivity.
  - reflexivity.
  - vm_compute. discriminate.
  - reflexivity.
  - reflexivity.
Defined.

(** X6 at the demonstration files: the evaluation dataset of one feature. *)
Lemma loaded_dataset_has_a_row_per_feature_witness :
  let f := demo_feature in
  let d := [LongMatrix [input_ids f]; LongMatrix [input_mask f];
            LongMatrix [segment_ids f]; LongVector [0]; LongVector [cls_index f];
            FloatMatrix [float_of_Z <$> p_mask f]] in
  length d = 6%nat
  /\ Forall (fun t => tensor_size t = length [f]) d
  /\ (true = true -> d !! 3%nat = Some (LongVector (Z.of_nat <$> seq 0 (length [f])))).
Proof.
  intros f d.
  apply (loaded_dataset_has_a_row_per_feature demo_input
           (demo_reader "bert" false true true (-1))
           (tokenizer (demo_reader "bert" false true true (-1))) true demo_files
           d [demo_example] [f]).
  vm_compute. reflexivity.
Defined.

(** X7 at the demonstration files: the one writer call of [evaluate]. *)
Lemma results_align_with_features_witness :
  result_id <$> [demo_result] = unique_id <$> [demo_feature]
  /\ Forall (fun r => is_extended_result r = is_extended "bert") [demo_result].
Proof.
  pose (args := demo_reader "bert" false true true (-1)).
  apply (results_align_with_features demo_input args (model args) (tokenizer args) ""
           demo_files
           (WritePredictions
              (standard_call args [demo_example] [demo_feature] [demo_result] "" None))
           [demo_result] [demo_feature]).
  - reflexivity.
  - left. apply list_elem_of_In. vm_compute.
    repeat (first [left; reflexivity | right]).
  - reflexivity.
Defined.

(** ** Strings under a suffix *)

Lemma to_chars_append (a b : string) :
  PyStr.to_chars (a +:+ b) = PyStr.to_chars a ++ PyStr.to_chars b.
Proof.
  induction a as [| c a IH]; [done |].
  change (String c a +:+ b) with (String c (a +:+ b)). cbn. by rewrite IH.
Qed.

Lemma of_chars_to_chars (s : string) : PyStr.of_chars (PyStr.to_chars s) = s.
Proof. induction s as [| c s IH]; [done |]. cbn. f_equal. exact IH. Qed.

#[local] Instance append_suffix_inj (sfx : string) :
  Inj (=) (=) (fun k : string => k +:+ sfx).
Proof.
  intros a b Heq.
  assert (PyStr.to_chars a = PyStr.to_chars b) as Hab.
  { apply (app_inv_tail (PyStr.to_chars sfx)). by rewrite <- !to_chars_append, Heq. }
  by rewrite <- (of_chars_to_chars a), Hab, of_chars_to_chars.
Qed.

Lemma append_empty (s : string) : s +:+ "" = s.
Proof.
  induction s as [| c s IH]; [done |].
  change (String c s +:+ "") with (String c (s +:+ "")). by rewrite IH.
Qed.

Lemma rename_keys_kmap sfx (r : gmap string float) :
  rename_keys sfx r = kmap (fun k : string => k +:+ sfx) r.
Proof. reflexivity. Qed.

(** X8: suffixing the metric names of a checkpoint keeps every metric: the
    value of metric [k] is found under [k] followed by the suffix, a name
    that does not end in the suffix is absent, and no two metrics collide. *)
Theorem rename_keys_keeps_every_metric sfx (r : gmap string float) k :
  rename_keys sfx r !! (k +:+ sfx) = r !! k
  /\ size (rename_keys sfx r) = size r
  /\ (forall j, is_Some (rename_keys sfx r !! j) -> exists k', j = k' +:+ sfx).
Proof.
  rewrite rename_keys_kmap.
  split; [apply (lookup_kmap (fun k : string => k +:+ sfx)) |].
  split.
  - unfold kmap. rewrite map_size_list_to_map.
    + by rewrite length_fmap, length_map_to_list.
    + rewrite <- list_fmap_compose.
      apply (NoDup_fmap_2_strong (fun kv => kv.1 +:+ sfx)).
      * intros [k1 v1] [k2 v2] H1 H2 Heq. cbn in Heq.
        apply (inj (fun k : string => k +:+ sfx)) in Heq as ->.
        apply elem_of_map_to_list in H1, H2. congruence.
      * apply NoDup_map_to_list.
  - intros j [v Hv].
    apply (lookup_kmap_Some (fun k : string => k +:+ sfx)) in Hv as (k' & -> & _).
    by exists k'.
Qed.

Lemma rename_keys_empty_suffix (r : gmap string float) : rename_keys "" r = r.
Proof.
  unfold rename_keys.
  rewrite (list_fmap_ext _ id (map_to_list r)).
  - rewrite list_fmap_id. apply list_to_map_to_list.
  - intros i [k v] _. cbn. by rewrite append_empty.
Qed.

Lemma filter_none {A} (P : A -> Prop) `{!forall x, Decision (P x)} (l : list A) :
  (forall x, x ∈ l -> ~ P x) -> filter P l = [].
Proof.
  induction l as [| x l IH]; intros Hl; [done |].
  rewrite filter_cons_False by (apply Hl; left).
  apply IH. intros y Hy. apply Hl. by right.
Qed.


Section EstimatorFacts.

Context `{Library}.


(** X10: in the main process, with [eval_all_checkpoints] off,
    [Reader.evaluate] loads the one checkpoint in the output directory,
    evaluates it with an empty prefix and returns the scorer's mapping with
    its metric names unchanged; the estimator keeps the loaded model. *)
Theorem evaluate_single_checkpoint self X (w : gmap string node) :
  in_main_process (local_rank self) = true ->
  eval_all_checkpoints self = false ->
  value (Reader_evaluate self X w)
  = match from_pretrained (output_dir self) w with
    | inl msg => Raise (LibraryError msg)
    | inr m' =>
        match value (evaluate X (set_model self m') m' (tokenizer self) "" w) with
        | Ok r => Ok (r, set_model self m')
        | Raise e => Raise e
        end
    end.
Proof.
  intros Hmain Hall. unfold Reader_evaluate. rewrite Hmain, Hall.
  unfold library_call. mrun. cbn [for_each length].
  change (1 <? Z.of_nat 1) with false. mrun.
  destruct (from_pretrained (output_dir self) w) as [msg | m']; [reflexivity |].
  cbn [value files calls app model tokenizer set_model].
  destruct (evaluate X (set_model self m') m' (tokenizer self) "" w)
    as [[r | e] w' c]; cbn [value files calls app]; [| reflexivity].
  cbn [PyStr.nonempty]. rewrite rename_keys_empty_suffix.
  by rewrite (right_id_L ∅ (∪)).
Qed.


End EstimatorFacts.

(** ** The estimator facts at the demonstration files *)

(** The amended C4 at the demonstration files: the broken cache is fatal,
    a sound cache is returned without a look at the source data, and
    without a cache the features come from the source data and are saved. *)
Lemma cache_read_failure_propagates_witness :
  let args := demo_reader "bert" false true false (-1) in
  let cache := "data/cached_train_bert-base-uncased_384" in
  load_and_cache_examples demo_input args (tokenizer args) false false
    files_with_broken_cache
  = Outcome (Raise (UnpicklingError cache)) files_with_broken_cache
      [LogInfo ("Loading features from cached file " +:+ cache); TorchLoad cache]
  /\ (exists d,
        dataset_tensors false [demo_feature] = Ok d
        /\ load_and_cache_examples demo_input args (tokenizer args) false false
             files_with_cache
           = Outcome (Ok (Dataset d)) files_with_cache
               [LogInfo ("Loading features from cached file " +:+ cache);
                TorchLoad cache])
  /\ (exists exs fs d,
        read_squad_examples demo_input true false demo_files = inr exs
        /\ convert_examples_to_features exs (tokenizer args) 384 128 64 true = inr fs
        /\ dataset_tensors false fs = Ok d
        /\ load_and_cache_examples demo_input args (tokenizer args) false false
             demo_files
           = Outcome (Ok (Dataset d)) (<[cache := File (Pickle fs)]> demo_files)
               [LogInfo "Creating features from dataset file at data/dev.json";
                ReadSquadExamples demo_input true false;
                ConvertExamplesToFeatures exs true;
                LogInfo ("Saving features into cached file " +:+ cache);
                TorchSave cache]).
Proof.
  intros args cache.
  assert (cached_features_file demo_input args false = Ok cache) as Hc
    by (vm_compute; reflexivity).
  split; [| split].
  - rewrite (proj1 (cache_read_failure_propagates demo_input args (tokenizer args)
                      false false files_with_broken_cache cache Hc)).
    + reflexivity.
    + eexists. vm_compute. reflexivity.
    + reflexivity.
    + reflexivity.
  - eexists. split; [vm_compute; reflexivity |].
    rewrite (proj1 (cache_read_failure_propagates demo_input args (tokenizer args)
                      false false files_with_cache cache Hc)).
    + reflexivity.
    + eexists. vm_compute. reflexivity.
    + reflexivity.
    + reflexivity.
  - eexists _, _, _. split; [vm_compute; reflexivity |].
    split; [vm_compute; reflexivity |]. split; [vm_compute; reflexivity |].
    rewrite (proj2 (cache_read_failure_propagates demo_input args (tokenizer args)
                      false false demo_files cache Hc)).
    + reflexivity.
    + left. vm_compute. reflexivity.
Defined.


(** X10 at the demonstration files. *)
Lemma evaluate_single_checkpoint_witness :
  let self := set_eval_all_checkpoints (demo_reader "bert" false true true (-1)) false in
  value (Reader_evaluate self demo_input demo_files)
  = match from_pretrained (output_dir self) demo_files with
    | inl msg => Raise (LibraryError msg)
    | inr m' =>
        match value (evaluate demo_input (set_model self m') m' (tokenizer self) ""
                       demo_files) with
        | Ok r => Ok (r, set_model self m')
        | Raise e => Raise e
        end
    end.
Proof.
  intros self.
  apply (evaluate_single_checkpoint self demo_input demo_files); reflexivity.
Defined.


(** * Properties of the training loop *)

Module TrainingFacts.
Import Training.

Section Monad.
Context `{Trainer}.

Lemma bind_returns {A B} (m : T A) (k : A -> T B) s b :
  returned ((m ≫= k) s) = Returns b ->
  exists a, returned (m s) = Returns a
    /\ returned (k a (after (m s))) = Returns b
    /\ after ((m ≫= k) s) = after (k a (after (m s)))
    /\ log ((m ≫= k) s) = log (m s) ++ log (k a (after (m s))).
Proof.
  unfold mbind, T_bind, T_bind_def.
  destruct (returned (m s)) as [a | e] eqn:Hm; cbn; [| discriminate].
  intros Hk. by exists a.
Qed.

Lemma log_act a s : log (act a s) = [a].
Proof. unfold act. by destruct (perform a s) as [[? | ?] ?]. Qed.

Lemma log_ask {A} a (f : world -> (string + A) * world) s : log (ask a f s) = [a].
Proof. unfold ask. by destruct (f s) as [[? | ?] ?]. Qed.

Lemma log_lift {A} (m : M A) s : log (lift m s) = Reader_call <$> calls (m s.2).
Proof. reflexivity. Qed.

Lemma checkpoints_saved_app l1 l2 :
  checkpoints_saved (l1 ++ l2) = checkpoints_saved l1 ++ checkpoints_saved l2.
Proof. apply omap_app. Qed.

Lemma updates_app l1 l2 : updates (l1 ++ l2) = (updates l1 + updates l2)%nat.
Proof. unfold updates. by rewrite omap_app, length_app. Qed.

(** ** Stretches of the loop compose *)

Lemma stretch_none args st st' :
  global_step st' = global_step st -> stretch args st st' [].
Proof.
  intros Hgs. unfold stretch. rewrite Hgs, Z.sub_diag.
  repeat split; [lia | intros; lia].
Qed.

Lemma stretch_same args st1 st1' st2 st2' l :
  global_step st1' = global_step st1 -> global_step st2' = global_step st2 ->
  stretch args st1 st2 l -> stretch args st1' st2' l.
Proof. unfold stretch. by intros -> ->. Qed.

Lemma stretch_app args st1 st2 st3 l1 l2 :
  stretch args st1 st2 l1 -> stretch args st2 st3 l2 ->
  stretch args st1 st3 (l1 ++ l2).
Proof.
  intros (Hle1 & Hu1 & Hc1 & He1) (Hle2 & Hu2 & Hc2 & He2).
  unfold stretch. split; [lia |]. split; [| split].
  - rewrite updates_app, Hu1, Hu2. lia.
  - rewrite checkpoints_saved_app, Hc1, Hc2, <- fmap_app, <- filter_app.
    do 2 f_equal.
    replace (global_step st3 - global_step st1)
      with ((global_step st2 - global_step st1) + (global_step st3 - global_step st2))
      by lia.
    rewrite seqZ_app by lia. do 2 f_equal. lia.
  - intros g Hg. destruct (decide (g <= global_step st2)).
    + apply He1. lia.
    + apply He2. lia.
Qed.

End Monad.

(** Inverts a bind that returned, and splits the log of the goal. *)
Ltac returned_bind H :=
  let Hm := fresh "Hm" in
  let Hl := fresh "Hl" in
  apply bind_returns in H as (? & Hm & H & _ & Hl);
  rewrite Hl; clear Hl.

Section Steps.
Context `{Library} `{Trainer}.

Lemma calls_library_write {A} e (f : gmap string node -> (string + A) * gmap string node) w :
  calls (library_write e f w) = [e].
Proof. unfold library_write. by destruct (f w) as [[? | ?] ?]. Qed.

Lemma calls_torch_save c p w : calls (torch_save c p w) = [TorchSave p].
Proof. unfold torch_save. by destruct (w !! p) as [[| ?] |]. Qed.

Lemma calls_os_makedirs_parents p w : calls (os_makedirs_parents p w) = [Makedirs p].
Proof.
  unfold os_makedirs_parents. destruct (w !! p); [done |].
  by destruct (filter _ _).
Qed.

Lemma log_save_checkpoint args gs s u :
  returned (save_checkpoint args gs s) = Returns u ->
  exists l,
    log (save_checkpoint args gs s)
    = Reader_call
        <$> (l ++ [SavePretrained (checkpoint_dir args gs);
                   TorchSave (PyStr.join (checkpoint_dir args gs) "training_args.bin");
                   LogInfo ("Saving model checkpoint to " +:+ checkpoint_dir args gs)])
    /\ (l = [] \/ l = [Makedirs (checkpoint_dir args gs)]).
Proof.
  intros Hr. unfold save_checkpoint in *.
  do 4 returned_bind Hr.
  rewrite !log_lift, calls_library_write, calls_torch_save. cbn [calls emit os_path_exists fmap list_fmap app].
  match goal with |- context [negb ?b] => destruct b end; cbn [negb].
  - exists []. split; [reflexivity | by left].
  - rewrite log_lift, calls_os_makedirs_parents.
    exists [Makedirs (checkpoint_dir args gs)]. split; [reflexivity | by right].
Qed.

Lemma save_checkpoint_returns args gs s u :
  returned (save_checkpoint args gs s) = Returns u ->
  checkpoints_saved (log (save_checkpoint args gs s)) = [checkpoint_dir args gs]
  /\ updates (log (save_checkpoint args gs s)) = 0%nat.
Proof.
  intros Hr. destruct (log_save_checkpoint _ _ _ _ Hr) as (l & -> & [-> | ->]); done.
Qed.

Lemma log_metrics_returns args gs tr logged s v :
  returned (log_metrics args gs tr logged s) = Returns v ->
  (local_rank (base args) =? -1) && evaluate_during_training args = false
  /\ checkpoints_saved (log (log_metrics args gs tr logged s)) = []
  /\ updates (log (log_metrics args gs tr logged s)) = 0%nat.
Proof.
  intros Hr. unfold log_metrics in *.
  do 3 returned_bind Hr. rewrite !log_act.
  destruct (_ && _); [discriminate Hm |]. done.
Qed.

Lemma optimizer_update_returns args st tr s st' :
  returned (optimizer_update args st tr s) = Returns st' ->
  global_step st' = global_step st + 1
  /\ stretch args st st' (log (optimizer_update args st tr s)).
Proof.
  intros Hr. unfold optimizer_update in *.
  do 5 returned_bind Hr. rewrite !log_act.
  cbn [mret T_ret T_ret_def returned log] in Hr |- *. injection Hr as <-.
  cbn [global_step]. split; [done |].
  unfold stretch. cbn [global_step].
  replace (global_step st + 1 - global_step st) with 1 by lia.
  rewrite !updates_app, !checkpoints_saved_app.
  change (seqZ (global_step st + 1) 1) with [global_step st + 1].
  split; [lia |].
  assert (updates (log ((if logging_due args (global_step st + 1)
                         then log_metrics args (global_step st + 1) tr (logging_loss st)
                         else mret (logging_loss st))
                          (after (act ZeroGrad
                             (after (act OptimizerStep (after (act SchedulerStep s)))))))) = 0%nat
          /\ checkpoints_saved (log ((if logging_due args (global_step st + 1)
                         then log_metrics args (global_step st + 1) tr (logging_loss st)
                         else mret (logging_loss st))
                          (after (act ZeroGrad
                             (after (act OptimizerStep (after (act SchedulerStep s)))))))) = []
          /\ evaluation_due args (global_step st + 1) = false) as (Hu & Hc & He).
  { unfold evaluation_due. destruct (logging_due args (global_step st + 1)).
    - apply log_metrics_returns in Hm2 as (Hno & ? & ?).
      repeat split; [done | done |]. by rewrite <- andb_assoc, Hno.
    - done. }
  rewrite Hu, Hc. clear Hu Hc Hm2.
  destruct (saving_due args (global_step st + 1)) eqn:Hsave.
  - apply save_checkpoint_returns in Hm3 as (-> & ->).
    rewrite filter_cons_True by done.
    repeat split; [intros g Hg; by replace g with (global_step st + 1) by lia].
  - rewrite filter_cons_False by (by rewrite Hsave).
    repeat split; [intros g Hg; by replace g with (global_step st + 1) by lia].
Qed.

Lemma train_step_returns args st item s b st' :
  returned (train_step args st item s) = Returns (b, st') ->
  gradient_accumulation_steps args <> 0
  /\ b = past_max_steps args st'
  /\ global_step st'
     = global_step st
       + (if (Z.of_nat item.1 + 1) mod gradient_accumulation_steps args =? 0
          then 1 else 0)
  /\ stretch args st st' (log (train_step args st item s)).
Proof.
  intros Hr. unfold train_step in *.
  do 7 returned_bind Hr. rewrite !log_act, log_ask, log_lift.
  cbn [mret T_ret T_ret_def returned log] in Hr |- *. injection Hr as <- <-.
  unfold modulo in Hm4.
  destruct (gradient_accumulation_steps args =? 0) eqn:Hgas; [discriminate Hm4 |].
  injection Hm4 as <-.
  split; [by apply Z.eqb_neq |]. split; [done |].
  cbn [calls lift_result fmap list_fmap app].
  unfold modulo in *. rewrite Hgas in *.
  cbn [mret T_ret T_ret_def returned log after app] in Hm5 |- *.
  assert (stretch args st st [ModelTrain; Forward x0; Backward (fp16 args);
                              ClipGradNorm (max_grad_norm args)]) as Hpre.
  { unfold stretch. rewrite Z.sub_diag. repeat split; [lia | intros; lia]. }
  rewrite app_nil_r.
  revert Hm5. destruct (_ mod _ =? 0); intros Hm5.
  - apply optimizer_update_returns in Hm5 as (Hgs & Hst).
    split; [done |]. exact (stretch_app _ _ _ _ _ _ Hpre Hst).
  - cbn [mret T_ret T_ret_def returned log after app] in Hm5 |- *.
    injection Hm5 as <-. cbn [global_step]. split; [lia |].
    eapply stretch_same; [| | exact Hpre]; cbn [global_step]; reflexivity.
Qed.


Lemma div_step g k :
  0 < g -> 0 <= k -> (if (k + 1) mod g =? 0 then 1 else 0) = (k + 1) / g - k / g.
Proof.
  intros Hg Hk.
  pose proof (Z.div_mod (k + 1) g ltac:(lia)) as E1.
  pose proof (Z.div_mod k g ltac:(lia)) as E0.
  pose proof (Z.mod_pos_bound (k + 1) g Hg) as B1.
  pose proof (Z.mod_pos_bound k g Hg) as B0.
  destruct (Z.eqb_spec ((k + 1) mod g) 0); nia.
Qed.

Lemma past_max_steps_step args st st' :
  past_max_steps args st = false -> past_max_steps args st' = true ->
  global_step st' <= global_step st + 1 ->
  0 < max_steps args /\ global_step st' = max_steps args + 1.
Proof. unfold past_max_steps. lia. Qed.

(** The loop over the batches of an epoch: it runs to the end, or breaks
    one step past [max_steps]. *)
Lemma batches_loop_returns args l k st s b st' :
  0 < gradient_accumulation_steps args ->
  l.*1 = seq k (length l) ->
  past_max_steps args st = false ->
  returned (for_until l (train_step args) st s) = Returns (b, st') ->
  stretch args st st' (log (for_until l (train_step args) st s))
  /\ ((b = false /\ past_max_steps args st' = false
       /\ global_step st'
          = global_step st
            + ((Z.of_nat k + Z.of_nat (length l)) / gradient_accumulation_steps args
               - Z.of_nat k / gradient_accumulation_steps args))
      \/ (b = true /\ 0 < max_steps args /\ global_step st' = max_steps args + 1)).
Proof.
  intros Hgas. revert k st s. induction l as [| item l IH]; intros k st s Hl Hpast Hr.
  - cbn in Hr |- *. injection Hr as <- <-. split; [by apply stretch_none |].
    left. repeat split; [done |]. rewrite Z.add_0_r. lia.
  - cbn [for_until] in Hr |- *. returned_bind Hr.
    destruct x as [b1 st1]. cbn [fst snd] in Hr |- *.
    apply train_step_returns in Hm as (_ & -> & Hgs & Hst).
    injection Hl as Hk Hl. rewrite Hk in Hgs.
    rewrite (div_step _ _ Hgas) in Hgs by lia.
    destruct (past_max_steps args st1) eqn:Hpast1.
    + cbn in Hr |- *. injection Hr as <- <-. rewrite app_nil_r. split; [done |].
      right. split; [done |]. apply (past_max_steps_step args st); [done | done |].
      pose proof (div_step _ (Z.of_nat k) Hgas ltac:(lia)) as E.
      destruct (_ =? 0); lia.
    + destruct (IH (S k) st1 _ Hl Hpast1 Hr) as (Hst2 & Hcase).
      split; [exact (stretch_app _ _ _ _ _ _ Hst Hst2) |].
      destruct Hcase as [(-> & Hp & Hgs') | Hbreak]; [left | by right].
      repeat split; [done |]. rewrite Hgs', Hgs. cbn [length].
      replace (Z.of_nat (S k) + Z.of_nat (length l))
        with (Z.of_nat k + Z.of_nat (S (length l))) by lia.
      replace (Z.of_nat (S k)) with (Z.of_nat k + 1) by lia. lia.
Qed.

Lemma length_chunks_fuel {A} (n fuel : nat) (l : list A) :
  (0 < n)%nat -> (length l <= fuel)%nat ->
  Z.of_nat (length (chunks_fuel fuel n l))
  = (Z.of_nat (length l) + Z.of_nat n - 1) / Z.of_nat n.
Proof.
  intros Hn. revert l. induction fuel as [| fuel IH]; intros l Hl.
  - destruct l; [| cbn in Hl; lia]. cbn.
    symmetry. apply Z.div_small. lia.
  - destruct l as [| x l]; cbn [chunks_fuel].
    + cbn. symmetry. apply Z.div_small. lia.
    + assert (1 <= length (x :: l))%nat as Hpos by (cbn; lia).
      set (l' := x :: l) in *. clearbody l'.
      cbn [length]. rewrite Nat2Z.inj_succ, IH by (rewrite length_drop; lia).
      rewrite length_drop.
      destruct (decide (n <= length l')%nat) as [Hle | Hgt].
      * replace (Z.of_nat (length l') + Z.of_nat n - 1)
          with ((Z.of_nat (length l' - n) + Z.of_nat n - 1) + 1 * Z.of_nat n) by lia.
        rewrite Z.div_add by lia. lia.
      * replace (length l' - n)%nat with 0%nat by lia.
        rewrite (Z.div_small (Z.of_nat 0 + _ - 1)) by lia.
        change (Z.succ 0) with 1.
        apply (Z.div_unique _ _ 1 (Z.of_nat (length l') - 1)); lia.
Qed.

Lemma length_chunks {A} (n : nat) (l : list A) :
  (0 < n)%nat ->
  Z.of_nat (length (chunks n l)) = (Z.of_nat (length l) + Z.of_nat n - 1) / Z.of_nat n.
Proof. intros Hn. by apply length_chunks_fuel. Qed.

Lemma imap_pair_indexes {A} (l : list A) (k : nat) :
  (imap (fun i x => (k + i, x)%nat) l).*1 = seq k (length l).
Proof.
  revert k. induction l as [| x l IH]; intros k; [done |].
  cbn. rewrite Nat.add_0_r. f_equal.
  rewrite <- (IH (S k)). f_equal. apply imap_ext. intros i y _. cbn. f_equal. lia.
Qed.

(** One pass over the data loader yields [len(train_dataloader)] batches,
    numbered from 0, and logs nothing. *)
Lemma epoch_batches_returns args ds bs s l :
  0 < bs ->
  returned (epoch_batches args ds bs s) = Returns l ->
  l.*1 = seq 0 (length l)
  /\ Z.of_nat (length l) = dataloader_len args ds bs
  /\ log (epoch_batches args ds bs s) = [].
Proof.
  intros Hbs Hr. unfold epoch_batches in *. returned_bind Hr.
  cbn [mret T_ret T_ret_def returned log] in Hr |- *. injection Hr as <-.
  split; [rewrite length_imap; exact (imap_pair_indexes (A:=list tensor) _ 0) |].
  assert (length x = sampler_len args ds /\ log (sample args ds s) = []) as [Hlen Hlog].
  { unfold sample, sampler_len in *. destruct (local_rank (base args) =? -1).
    - cbn in Hm |- *. injection Hm as <-. split; [| done].
      rewrite (Permutation_length (random_sampler_permutes _ _)). apply length_seq.
    - cbn in Hm |- *. by injection Hm as <-. }
  split; [| by rewrite Hlog].
  rewrite length_imap, length_fmap, length_chunks by lia.
  unfold dataloader_len. rewrite Hlen, Z2Nat.id by lia. done.
Qed.

(** One epoch: it adds [len(train_dataloader) // gradient_accumulation_steps]
    updates, or breaks one step past [max_steps]. *)
Lemma train_epoch_returns args ds bs st epoch s b st' :
  0 < gradient_accumulation_steps args -> 0 < bs ->
  past_max_steps args st = false ->
  returned (train_epoch args ds bs st epoch s) = Returns (b, st') ->
  stretch args st st' (log (train_epoch args ds bs st epoch s))
  /\ b = past_max_steps args st'
  /\ ((b = false
       /\ global_step st'
          = global_step st + dataloader_len args ds bs / gradient_accumulation_steps args)
      \/ (b = true /\ 0 < max_steps args /\ global_step st' = max_steps args + 1)).
Proof.
  intros Hgas Hbs Hpast Hr. unfold train_epoch in *.
  do 2 returned_bind Hr.
  destruct x0 as [b1 st1].
  cbn [mret T_ret T_ret_def returned log snd] in Hr |- *. injection Hr as <- <-.
  destruct (epoch_batches_returns _ _ _ _ _ Hbs Hm) as (Hidx & Hlen & ->).
  destruct (batches_loop_returns _ _ _ _ _ _ _ Hgas Hidx Hpast Hm0) as (Hst & Hcase).
  rewrite app_nil_r. cbn [app]. split; [done |]. split; [done |].
  destruct Hcase as [(_ & -> & Hgs) | (_ & Hmax & Hgs)].
  - left. split; [done |]. rewrite Hgs, Hlen. change (Z.of_nat 0) with 0.
    rewrite Z.add_0_l, Z.div_0_l by lia. lia.
  - right. split; [| done]. unfold past_max_steps. lia.
Qed.

(** The loop over the epochs. *)
Lemma epochs_loop_returns args ds bs (es : list nat) st s b st' :
  0 < gradient_accumulation_steps args -> 0 < bs ->
  past_max_steps args st = false ->
  returned (for_until es (train_epoch args ds bs) st s) = Returns (b, st') ->
  stretch args st st' (log (for_until es (train_epoch args ds bs) st s))
  /\ ((b = false /\ past_max_steps args st' = false
       /\ global_step st'
          = global_step st
            + Z.of_nat (length es)
              * (dataloader_len args ds bs / gradient_accumulation_steps args))
      \/ (b = true /\ 0 < max_steps args /\ global_step st' = max_steps args + 1)).
Proof.
  intros Hgas Hbs. revert st s. induction es as [| e es IH]; intros st s Hpast Hr.
  - cbn in Hr |- *. injection Hr as <- <-. split; [by apply stretch_none |].
    left. repeat split; [done | lia].
  - cbn [for_until] in Hr |- *. returned_bind Hr.
    destruct x as [b1 st1]. cbn [fst snd] in Hr |- *.
    destruct (train_epoch_returns _ _ _ _ _ _ _ _ Hgas Hbs Hpast Hm)
      as (Hst & -> & Hcase).
    destruct Hcase as [(Hb1 & Hgs) | (Hb1 & Hmax & Hgs)]; rewrite Hb1 in Hr |- *.
    + destruct (IH _ _ Hb1 Hr) as (Hst2 & Hcase).
      split; [exact (stretch_app _ _ _ _ _ _ Hst Hst2) |].
      destruct Hcase as [(-> & Hp & Hgs') | Hbreak]; [left | by right].
      repeat split; [done |]. rewrite Hgs', Hgs. cbn [length]. lia.
    + cbn in Hr |- *. injection Hr as <- <-. rewrite app_nil_r. split; [done |].
      by right.
Qed.


Lemma schedule_returns args n s t a :
  returned (schedule args n s) = Returns (t, a) ->
  log (schedule args n s) = []
  /\ (if 0 <? max_steps args
      then n / gradient_accumulation_steps args <> 0
           /\ a = set_num_train_epochs args
                    (Int (max_steps args / (n / gradient_accumulation_steps args) + 1))
      else a = args).
Proof.
  unfold schedule, floordiv. intros Hr.
  destruct (0 <? max_steps args).
  - do 2 returned_bind Hr.
    destruct (gradient_accumulation_steps args =? 0); [discriminate Hm |].
    injection Hm as <-. cbn [after mret T_ret T_ret_def] in Hm0.
    destruct (Z.eqb_spec (n / gradient_accumulation_steps args) 0); [discriminate Hm0 |].
    injection Hm0 as <-. cbn in Hr |- *. by injection Hr as <- <-.
  - returned_bind Hr.
    destruct (gradient_accumulation_steps args =? 0); [discriminate Hm |].
    cbn in Hr |- *. by injection Hr as <- <-.
Qed.

Lemma uneventful_bind {A B} (m : T A) (k : A -> T B) s :
  uneventful (log (m s)) -> (forall a s', uneventful (log (k a s'))) ->
  uneventful (log ((m ≫= k) s)).
Proof.
  intros [Hc Hu] Hk. unfold mbind, T_bind, T_bind_def.
  destruct (returned (m s)) as [a | e]; cbn [log]; [| done].
  destruct (Hk a (after (m s))) as [Hc' Hu'].
  split; [by rewrite checkpoints_saved_app, Hc, Hc' | by rewrite updates_app, Hu, Hu'].
Qed.

Lemma uneventful_act a s :
  match a with OptimizerStep | Reader_call (SavePretrained _) => False | _ => True end ->
  uneventful (log (act a s)).
Proof.
  rewrite log_act. destruct a; try done.
  match goal with ev : event |- _ => by destruct ev end.
Qed.

Lemma uneventful_log_info msg s : uneventful (log (lift (emit (LogInfo msg)) s)).
Proof. done. Qed.

Lemma uneventful_ret {A} (a : A) s : uneventful (log ((mret a : T A) s)).
Proof. done. Qed.

Lemma uneventful_throw {A} e s : uneventful (log (throw (A:=A) e s)).
Proof. done. Qed.

Lemma uneventful_world_size args s : uneventful (log (world_size args s)).
Proof.
  unfold world_size. destruct (negb _); [| done]. by destruct (get_world_size s.1).
Qed.

Lemma uneventful_app l1 l2 : uneventful l1 -> uneventful l2 -> uneventful (l1 ++ l2).
Proof.
  intros [Hc1 Hu1] [Hc2 Hu2].
  split; [by rewrite checkpoints_saved_app, Hc1, Hc2 | by rewrite updates_app, Hu1, Hu2].
Qed.

Ltac uneventful :=
  repeat first
    [ apply uneventful_bind; [| intros ? ?]
    | apply uneventful_app
    | apply uneventful_log_info
    | apply uneventful_ret
    | apply uneventful_throw
    | apply uneventful_world_size
    | apply uneventful_act; exact I
    | match goal with |- uneventful (log ((if ?c then _ else _) _)) => destruct c end ].

Lemma log_prepare args t s : uneventful (log (prepare args t s)).
Proof. unfold prepare. uneventful. Qed.

Lemma log_set_seed seed n_gpu s : uneventful (log (set_seed seed n_gpu s)).
Proof. unfold set_seed. uneventful. Qed.

Lemma stretch_before args st st' l1 l2 :
  uneventful l1 -> stretch args st st' l2 -> stretch args st st' (l1 ++ l2).
Proof.
  intros [Hc Hu] (Hle & Hu2 & Hc2 & He). unfold stretch.
  by rewrite updates_app, checkpoints_saved_app, Hc, Hu, Hu2, Hc2.
Qed.

Lemma stretch_after args st st' l1 l2 :
  stretch args st st' l1 -> uneventful l2 -> stretch args st st' (l1 ++ l2).
Proof.
  intros (Hle & Hu1 & Hc1 & He) [Hc Hu]. unfold stretch.
  rewrite updates_app, checkpoints_saved_app, Hc, Hu, Hu1, Hc1, app_nil_r.
  repeat split; [done | lia | done].
Qed.

Lemma train_returns args ds model tok s gs avg args' :
  0 < gradient_accumulation_steps args ->
  returned (train args ds model tok s) = Returns ((gs, avg), args') ->
  let bs := per_gpu_train_batch_size args * Z.max 1 (n_gpu (base args)) in
  let per_epoch := dataloader_len args ds bs / gradient_accumulation_steps args in
  0 < bs
  /\ 0 < gs
  /\ updates (log (train args ds model tok s)) = Z.to_nat gs
  /\ checkpoints_saved (log (train args ds model tok s))
     = checkpoint_dir args <$> filter (fun g => saving_due args g = true) (seqZ 1 gs)
  /\ (forall g, 0 < g <= gs -> evaluation_due args g = false)
  /\ (if 0 <? max_steps args
      then gs = max_steps args + 1
           /\ args' = set_num_train_epochs (set_train_batch_size args bs)
                        (Int (max_steps args / per_epoch + 1))
      else args' = set_train_batch_size args bs
           /\ exists epochs, py_int (num_train_epochs args) = Returns epochs
                             /\ gs = epochs * per_epoch).
Proof.
  intros Hgas Hr bs per_epoch. unfold train in *.
  fold bs in Hr |- *.
  do 3 returned_bind Hr. destruct x1 as [t_total args1].
  cbn [fst snd] in Hr |- *.
  do 6 returned_bind Hr.
  assert (0 < bs) as Hbs.
  { destruct (Z.leb_spec bs 0); [discriminate Hm0 | done]. }
  destruct (schedule_returns _ _ _ _ _ Hm1) as [Hlog1 Hargs1].
  cbn [max_steps set_train_batch_size gradient_accumulation_steps] in Hargs1.
  change (dataloader_len (set_train_batch_size args bs) ds bs)
    with (dataloader_len args ds bs) in *.
  fold per_epoch in Hargs1.
  assert (gradient_accumulation_steps args1 = gradient_accumulation_steps args
          /\ max_steps args1 = max_steps args
          /\ dataloader_len args1 ds bs = dataloader_len args ds bs
          /\ forall st st' l, stretch args1 st st' l -> stretch args st st' l)
    as (Hgas1 & Hmax1 & Hlen1 & Hstretch).
  { destruct (0 <? max_steps args); [destruct Hargs1 as [_ ->] | subst args1]; done. }
  assert (py_int (num_train_epochs args1) = Returns x3) as Hepochs by exact Hm4.
  destruct x5 as [b st]. cbn [snd] in Hr |- *.
  assert (past_max_steps args1 {| global_step := 0; tr_loss := 0; logging_loss := 0 |}
          = false) as Hstart.
  { unfold past_max_steps. cbn [global_step]. lia. }
  destruct (epochs_loop_returns args1 ds bs _ _ _ _ _ ltac:(lia) Hbs Hstart Hm6)
    as (Hst & Hcase).
  rewrite Hgas1, Hlen1, Hmax1 in Hcase. fold per_epoch in Hcase.
  cbn [global_step] in Hcase. rewrite length_seq in Hcase.
  destruct (Z.eqb_spec (global_step st) 0) as [| Hne]; [discriminate Hr |].
  cbn in Hr. injection Hr as <- <- <-.
  match goal with
  | |- context [updates ?l] => assert (stretch args1 {| global_step := 0; tr_loss := 0; logging_loss := 0 |} st l) as Hall
  end.
  { rewrite Hlog1.
    do 7 (apply stretch_before; [first [apply log_prepare | apply log_set_seed | done | uneventful] |]).
    apply stretch_after; [exact Hst | uneventful]. }
  destruct (Hstretch _ _ _ Hall) as (Hle & Hu & Hc & He).
  cbn [global_step] in Hle, Hu, Hc, He. rewrite Z.sub_0_r in Hu, Hc.
  assert (0 <= per_epoch) as Hper.
  { apply Z.div_pos; [| lia]. apply Z.div_pos; [| lia].
    unfold dataloader_len. lia. }
  repeat split; [done | lia | done | done | done |].
  destruct (Z.ltb_spec 0 (max_steps args)) as [Hmax | Hmax].
  - destruct Hargs1 as [Hper0 Hargs1]. split; [| done].
    destruct Hcase as [(_ & Hpast & Hgs) | (_ & _ & Hgs)]; [exfalso | done].
    rewrite Hargs1 in Hepochs. injection Hepochs as <-.
    unfold past_max_steps in Hpast. rewrite Hmax1 in Hpast.
    pose proof (Z.div_mod (max_steps args) per_epoch Hper0) as E.
    pose proof (Z.mod_pos_bound (max_steps args) per_epoch ltac:(lia)) as B.
    assert (0 <= max_steps args / per_epoch) by (apply Z.div_pos; lia).
    rewrite Z2Nat.id in Hgs by lia. nia.
  - subst args1. split; [done |].
    destruct Hcase as [(_ & _ & Hgs) | (_ & ? & _)]; [| lia].
    exists x3. split; [done |].
    destruct (Z.le_gt_cases x3 0) as [Hx | Hx].
    + replace (Z.to_nat x3) with 0%nat in Hgs by lia. lia.
    + rewrite Z2Nat.id in Hgs by lia. lia.
Qed.

Lemma multiples_upto (n : nat) (k : Z) :
  0 < k ->
  filter (fun g => g mod k = 0) (seqZ 1 (Z.of_nat n))
  = (fun j => j * k) <$> seqZ 1 (Z.of_nat n / k).
Proof.
  intros Hk. induction n as [| n IH]; [by rewrite Z.div_0_l by lia |].
  rewrite Nat2Z.inj_succ, <- Z.add_1_r, seqZ_app, filter_app, IH by lia.
  pose proof (div_step k (Z.of_nat n) Hk ltac:(lia)) as E.
  change (seqZ (1 + Z.of_nat n) 1) with [1 + Z.of_nat n].
  rewrite (Z.add_comm 1).
  pose proof (Z.div_mod (Z.of_nat n + 1) k ltac:(lia)) as D.
  assert (0 <= Z.of_nat n / k) by (apply Z.div_pos; lia).
  destruct (Z.eqb_spec ((Z.of_nat n + 1) mod k) 0) as [Hz | Hnz].
  - rewrite filter_cons_True, filter_nil by done.
    replace ((Z.of_nat n + 1) / k) with (Z.of_nat n / k + 1) by lia.
    rewrite seqZ_app, fmap_app by lia. f_equal.
    change (seqZ (1 + Z.of_nat n / k) 1) with [1 + Z.of_nat n / k].
    cbn [fmap list_fmap]. f_equal. nia.
  - rewrite filter_cons_False, filter_nil, app_nil_r by done.
    by replace ((Z.of_nat n + 1) / k) with (Z.of_nat n / k) by lia.
Qed.

(** X12: without [max_steps], a call of [train] that returns has made
    [int(num_train_epochs)] passes of
    [len(train_dataloader) // gradient_accumulation_steps] updates each:
    the batches left over at the end of a pass are never applied.  It
    returns only if there was an update at all, that is with at least one
    epoch and at least [gradient_accumulation_steps] batches. *)
Theorem train_counts_whole_accumulations args ds model tok s gs avg args' :
  0 < gradient_accumulation_steps args ->
  max_steps args <= 0 ->
  returned (train args ds model tok s) = Returns ((gs, avg), args') ->
  let batches :=
    dataloader_len args ds
      (per_gpu_train_batch_size args * Z.max 1 (n_gpu (base args))) in
  exists epochs,
    py_int (num_train_epochs args) = Returns epochs
    /\ 0 < epochs
    /\ gradient_accumulation_steps args <= batches
    /\ gs = epochs * (batches / gradient_accumulation_steps args)
    /\ updates (log (train args ds model tok s)) = Z.to_nat gs.
Proof.
  intros Hgas Hmax Hr batches.
  destruct (train_returns _ _ _ _ _ _ _ _ Hgas Hr)
    as (Hbs & Hpos & Hu & _ & _ & Hcase).
  fold batches in Hcase.
  destruct (Z.ltb_spec 0 (max_steps args)); [lia |].
  destruct Hcase as (_ & epochs & Hepochs & Hgs).
  exists epochs. split; [done |].
  assert (0 <= batches) as Hbatches.
  { apply Z.div_pos; lia. }
  assert (0 <= batches / gradient_accumulation_steps args) as Hper.
  { apply Z.div_pos; lia. }
  split; [nia |]. split; [| done].
  destruct (Z.lt_ge_cases batches (gradient_accumulation_steps args)) as [Hlt | Hge];
    [| done].
  rewrite Z.div_small in Hgs by lia. lia.
Qed.

(** X13: with [max_steps] set, a call of [train] that returns has made
    [max_steps + 1] updates, one more than asked for: the loop leaves only
    once [global_step > max_steps].  The arguments object comes back with
    [num_train_epochs] overwritten. *)
Theorem train_overshoots_max_steps args ds model tok s gs avg args' :
  0 < gradient_accumulation_steps args ->
  0 < max_steps args ->
  returned (train args ds model tok s) = Returns ((gs, avg), args') ->
  let batches :=
    dataloader_len args ds
      (per_gpu_train_batch_size args * Z.max 1 (n_gpu (base args))) in
  gs = max_steps args + 1
  /\ updates (log (train args ds model tok s)) = Z.to_nat (max_steps args + 1)
  /\ num_train_epochs args'
     = Int (max_steps args / (batches / gradient_accumulation_steps args) + 1).
Proof.
  intros Hgas Hmax Hr batches.
  destruct (train_returns _ _ _ _ _ _ _ _ Hgas Hr)
    as (_ & _ & Hu & _ & _ & Hcase).
  destruct (Z.ltb_spec 0 (max_steps args)); [| lia].
  destruct Hcase as [-> ->]. done.
Qed.

(** X14: with [evaluate_during_training] in a single process and
    [logging_steps] positive, a call of [train] that returns stopped short
    of [logging_steps] updates: at that update the loop calls [evaluate]
    with one argument too few, which raises. *)
Theorem train_returns_before_first_evaluation args ds model tok s gs avg args' :
  0 < gradient_accumulation_steps args ->
  local_rank (base args) = -1 ->
  evaluate_during_training args = true ->
  0 < logging_steps args ->
  returned (train args ds model tok s) = Returns ((gs, avg), args') ->
  gs < logging_steps args.
Proof.
  intros Hgas Hrank Hduring Hlogging Hr.
  destruct (train_returns _ _ _ _ _ _ _ _ Hgas Hr)
    as (_ & _ & _ & _ & Hnever & _).
  destruct (Z.lt_ge_cases gs (logging_steps args)) as [| Hge]; [done |].
  specialize (Hnever (logging_steps args) ltac:(lia)).
  unfold evaluation_due, logging_due, in_main_process in Hnever.
  rewrite Hrank, Hduring, Z.mod_same in Hnever by lia.
  destruct (Z.ltb_spec 0 (logging_steps args)); [discriminate Hnever | lia].
Qed.

(** X15: a call of [train] that returns has saved, in the main process and
    with [save_steps] positive, one checkpoint at every multiple of
    [save_steps] up to its last update, in order, each under
    [output_dir/checkpoint-<step>]; otherwise it has saved none. *)
Theorem train_saves_every_save_steps args ds model tok s gs avg args' :
  0 < gradient_accumulation_steps args ->
  returned (train args ds model tok s) = Returns ((gs, avg), args') ->
  checkpoints_saved (log (train args ds model tok s))
  = if in_main_process (local_rank (base args)) && (0 <? save_steps args)
    then (fun j => checkpoint_dir args (j * save_steps args))
           <$> seqZ 1 (gs / save_steps args)
    else [].
Proof.
  intros Hgas Hr.
  destruct (train_returns _ _ _ _ _ _ _ _ Hgas Hr)
    as (_ & Hpos & _ & -> & _ & _).
  unfold saving_due.
  destruct (in_main_process (local_rank (base args)) && (0 <? save_steps args))
    eqn:Hdue.
  - apply andb_prop in Hdue as [_ Hsave%Z.ltb_lt].
    rewrite (list_filter_iff _ (fun g => g mod save_steps args = 0)).
    + rewrite <- (Z2Nat.id gs) by lia.
      rewrite multiples_upto by done. by rewrite <- list_fmap_compose.
    + intros g. cbn [andb]. by rewrite Z.eqb_eq.
  - rewrite filter_none; [done |]. by intros g _.
Qed.

End Steps.

(** ** What [fit] raises *)

Section Raising.
Context `{Library} `{Trainer}.

Lemma bind_raises {A B} (m : T A) (k : A -> T B) s e :
  returned ((m ≫= k) s) = Raises e ->
  returned (m s) = Raises e
  \/ exists a, returned (m s) = Returns a /\ returned (k a (after (m s))) = Raises e.
Proof.
  unfold mbind, T_bind, T_bind_def.
  destruct (returned (m s)) as [a | e'] eqn:Hm; cbn [returned]; intros He.
  - right. by exists a.
  - left. by injection He as ->.
Qed.

Lemma raises_only_bind {A B} E (m : T A) (k : A -> T B) :
  raises_only E m -> (forall a, raises_only E (k a)) -> raises_only E (m ≫= k).
Proof.
  intros Hm Hk s e He. apply bind_raises in He as [He | (a & _ & He)].
  - by apply (Hm s).
  - by apply (Hk a (after (m s))).
Qed.

Lemma raises_only_ret {A} E (a : A) : raises_only E (mret a : T A).
Proof. intros s e He. discriminate He. Qed.

Lemma raises_only_throw {A} (E : raised -> Prop) e : E e -> raises_only E (throw (A:=A) e).
Proof. intros He s e' Hr. cbn in Hr. by injection Hr as <-. Qed.

Lemma raises_only_act (E : raised -> Prop) a :
  (forall msg, E (Reader_exn (LibraryError msg))) -> raises_only E (act a).
Proof.
  intros HE s e. unfold act. destruct (perform a s) as [[msg | u] s']; cbn; intros He;
    [| discriminate He].
  injection He as <-. apply HE.
Qed.

Lemma raises_only_ask {A} (E : raised -> Prop) a (f : world -> (string + A) * world) :
  (forall msg, E (Reader_exn (LibraryError msg))) -> raises_only E (ask a f).
Proof.
  intros HE s e. unfold ask. destruct (f s) as [[msg | u] s']; cbn; intros He;
    [| discriminate He].
  injection He as <-. apply HE.
Qed.

Lemma raises_only_lift {A} (E : raised -> Prop) (E' : exn -> Prop) (m : M A) :
  (forall e, E' e -> E (Reader_exn e)) ->
  confined E' any_event m -> raises_only E (lift m).
Proof.
  intros HE Hm s e. unfold lift. cbn [returned].
  destruct (value (m s.2)) as [a | e'] eqn:Hv; intros He; [discriminate He |].
  injection He as <-. apply HE. by apply (Hm s.2).
Qed.

Lemma raises_only_for_until {A S} E (l : list A) (body : S -> A -> T (bool * S)) st :
  (forall st x, raises_only E (body st x)) -> raises_only E (for_until l body st).
Proof.
  intros Hbody. revert st. induction l as [| x l IH]; intros st; cbn [for_until].
  - apply raises_only_ret.
  - apply raises_only_bind; [apply Hbody |]. intros [b st'].
    destruct b; cbn [fst snd]; [apply raises_only_ret | apply IH].
Qed.

Lemma not_value_error_of_int e : not_value_error e -> value_error_of_int (Reader_exn e).
Proof. intros He msg Heq. injection Heq as ->. by destruct (He msg). Qed.

Lemma library_error_of_int msg : value_error_of_int (Reader_exn (LibraryError msg)).
Proof. intros msg' Heq. discriminate Heq. Qed.

Lemma lift_of_int {A} (m : M A) :
  confined not_value_error any_event m -> raises_only value_error_of_int (lift m).
Proof. apply raises_only_lift, not_value_error_of_int. Qed.

Lemma confined_os_makedirs_parents (E : exn -> Prop) (C : event -> Prop) p :
  (forall d, E (FileExistsError d)) -> (forall d, E (NotADirectoryError d)) ->
  C (Makedirs p) -> confined E C (os_makedirs_parents p).
Proof.
  intros H1 H2 HC w. unfold os_makedirs_parents.
  destruct (w !! p); cbn [value calls].
  - split; [| by repeat constructor]. intros e He. injection He as <-. apply H1.
  - destruct (filter _ _); cbn [value calls]; (split; [| by repeat constructor]).
    + intros e He. discriminate He.
    + intros e He. injection He as <-. apply H2.
Qed.

Lemma train_inputs_error args batch e :
  train_inputs args batch = Raise e -> not_value_error e.
Proof.
  unfold train_inputs, batch_item, result_bind, from_option.
  repeat (first [ destruct (batch !! _) | destruct (String.eqb _ _)
                | destruct (is_extended _) ]; cbn);
    intros He; try discriminate He; injection He as <-; by intros msg.
Qed.

Lemma py_int_of_int x : raises_only value_error_of_int (complete (py_int x)).
Proof.
  intros s e. unfold complete, py_int. cbn [returned].
  destruct x as [z | f]; [discriminate |].
  destruct (Prim2SF f); try discriminate; intros He; injection He as <-.
  - intros msg Heq. discriminate Heq.
  - intros msg Heq. by injection Heq as <-.
Qed.

Lemma floordiv_of_int a b : raises_only value_error_of_int (floordiv a b).
Proof.
  unfold floordiv. destruct (b =? 0); [| apply raises_only_ret].
  apply raises_only_throw. intros msg Heq. discriminate Heq.
Qed.

Lemma modulo_of_int a b : raises_only value_error_of_int (modulo a b).
Proof.
  unfold modulo. destruct (b =? 0); [| apply raises_only_ret].
  apply raises_only_throw. intros msg Heq. discriminate Heq.
Qed.

Lemma world_size_of_int args : raises_only value_error_of_int (world_size args).
Proof.
  unfold world_size. destruct (negb _); [| apply raises_only_ret].
  intros s e. destruct (get_world_size s.1); cbn [returned]; intros He;
    [| discriminate He].
  injection He as <-. apply library_error_of_int.
Qed.

Lemma sample_of_int args ds : raises_only value_error_of_int (sample args ds).
Proof.
  unfold sample. destruct (_ =? _); [| apply raises_only_ret].
  intros s e He. discriminate He.
Qed.

End Raising.

Ltac of_int_step :=
  first
    [ apply raises_only_ret
    | apply raises_only_bind; [| intros ?]
    | apply raises_only_for_until; intros ? ?
    | apply raises_only_act; apply library_error_of_int
    | apply raises_only_ask; apply library_error_of_int
    | apply py_int_of_int
    | apply floordiv_of_int
    | apply modulo_of_int
    | apply world_size_of_int
    | apply sample_of_int
    | apply raises_only_throw; intros ? ?; discriminate
    | apply lift_of_int, confined_lift_result, train_inputs_error
    | apply lift_of_int, confined_os_makedirs_parents;
      first [exact I | intros ? ?; discriminate]
    | apply lift_of_int; solve [confine]
    | match goal with
      | |- raises_only _ (if ?b then _ else _) => destruct b
      end ].

Ltac of_int := repeat of_int_step.

Section FitFacts.
Context `{Library} `{Trainer}.

Lemma save_checkpoint_of_int args gs :
  raises_only value_error_of_int (save_checkpoint args gs).
Proof.
  unfold save_checkpoint. of_int.
Qed.



End FitFacts.

Section FitClaims.
Context `{Library} `{Trainer}.





End FitClaims.

(** ** Checkpoint names *)

Lemma split_chars_nonempty sep cur l : PyStr.split_chars sep cur l <> [].
Proof.
  revert cur. induction l as [| c l IH]; intros cur; cbn; [done |].
  destruct (Ascii.eqb c sep); [done | apply IH].
Qed.

Lemma split_chars_last sep cur l1 l2 :
  last (PyStr.split_chars sep cur (l1 ++ sep :: l2))
  = last (PyStr.split_chars sep [] l2).
Proof.
  revert cur. induction l1 as [| c l1 IH]; intros cur; cbn.
  - rewrite Ascii.eqb_refl.
    destruct (PyStr.split_chars sep [] l2) eqn:E; [by apply split_chars_nonempty in E | done].
  - destruct (Ascii.eqb c sep); [| apply IH].
    rewrite <- (IH []).
    destruct (PyStr.split_chars sep [] (l1 ++ sep :: l2)) eqn:E;
      [by apply split_chars_nonempty in E | done].
Qed.

Lemma split_chars_whole sep cur l :
  sep ∉ l -> PyStr.split_chars sep cur l = [PyStr.of_chars (rev cur ++ l)].
Proof.
  revert cur. induction l as [| c l IH]; intros cur Hl; cbn.
  - by rewrite app_nil_r.
  - apply not_elem_of_cons in Hl as [Hc Hl].
    destruct (Ascii.eqb_spec c sep) as [-> | _]; [done |].
    rewrite IH by done. cbn. by rewrite <- app_assoc.
Qed.

Lemma pretty_N_char_not_dash x : pretty_N_char x <> "-"%char.
Proof. unfold pretty_N_char. by repeat case_match. Qed.

Lemma pretty_N_go_no_dash x s :
  "-"%char ∉ PyStr.to_chars s -> "-"%char ∉ PyStr.to_chars (pretty_N_go x s).
Proof.
  revert s. induction (N.lt_wf_0 x) as [x _ IH]; intros s Hs.
  destruct (decide (x = 0)%N) as [-> | Hx]; [by rewrite pretty_N_go_0 |].
  rewrite pretty_N_go_step by lia. apply IH; [apply N.div_lt; lia |].
  cbn. apply not_elem_of_cons. split; [| done].
  intros Heq. by apply (pretty_N_char_not_dash (x `mod` 10)%N).
Qed.

Lemma of_int_no_dash k : 0 <= k -> "-"%char ∉ PyStr.to_chars (PyStr.of_int k).
Proof.
  intros Hk. unfold PyStr.of_int, pretty, pretty_Z.
  destruct k as [| p | p]; [| | lia].
  - cbn. apply not_elem_of_cons. split; [done | apply not_elem_of_nil].
  - unfold pretty, pretty_positive, pretty, pretty_N.
    destruct (decide _); [done |]. apply pretty_N_go_no_dash. cbn. apply not_elem_of_nil.
Qed.

(** X16: the step that [Reader.evaluate] reads back from the name of a
    checkpoint directory, [checkpoint.split('-')[-1]], is the step at which
    [train] saved it, whatever the output directory is called. *)
Theorem checkpoint_step_reads_back args k :
  0 <= k ->
  PyStr.last_piece (PyStr.split "-" (checkpoint_dir args k)) = PyStr.of_int k.
Proof.
  intros Hk.
  assert (forall s l, PyStr.to_chars s = l ++ "-"%char :: PyStr.to_chars (PyStr.of_int k) ->
                      PyStr.last_piece (PyStr.split "-" s) = PyStr.of_int k) as Hlast.
  { intros s l Hs. unfold PyStr.last_piece, PyStr.split.
    rewrite Hs, split_chars_last, split_chars_whole by by apply of_int_no_dash.
    cbn. apply of_chars_to_chars. }
  unfold checkpoint_dir, PyStr.join.
  change (PyStr.startswith_slash ("checkpoint-" +:+ PyStr.of_int k)) with false.
  cbv iota.
  change ("checkpoint-" +:+ PyStr.of_int k)
    with ("checkpoint" +:+ String "-" (PyStr.of_int k)).
  destruct (_ || _).
  - apply (Hlast _ (PyStr.to_chars (output_dir (base args)) ++ PyStr.to_chars "checkpoint")).
    rewrite !to_chars_append, <- app_assoc. done.
  - apply (Hlast _ (PyStr.to_chars (output_dir (base args)) ++ PyStr.to_chars "/checkpoint")).
    rewrite !to_chars_append, <- app_assoc. done.
Qed.

(** ** The keyword arguments of the training call *)

(** X17: on a batch drawn from the dataset that [load_and_cache_examples]
    builds for training, [train] hands the model each tensor under its own
    name: the input mask as [attention_mask], the segment ids as
    [token_type_ids] ([None] for [xlm]), the answer positions as
    [start_positions] and [end_positions], and [cls_index] and [p_mask]
    for [xlnet] and [xlm] only. *)
Theorem train_inputs_follow_the_dataset (args : Reader) fs ds idx :
  dataset_tensors false fs = Ok ds ->
  exists i starts ends,
    positions start_position fs = Ok starts
    /\ positions end_position fs = Ok ends
    /\ train_inputs args (tensor_gather idx <$> ds) = Ok i
    /\ i !! "input_ids" = Some (Some (LongMatrix (gather idx (input_ids <$> fs))))
    /\ i !! "attention_mask" = Some (Some (LongMatrix (gather idx (input_mask <$> fs))))
    /\ i !! "token_type_ids"
       = Some (if String.eqb (model_type args) "xlm" then None
               else Some (LongMatrix (gather idx (segment_ids <$> fs))))
    /\ i !! "start_positions" = Some (Some (LongVector (gather idx starts)))
    /\ i !! "end_positions" = Some (Some (LongVector (gather idx ends)))
    /\ i !! "cls_index"
       = (if is_extended (model_type args)
          then Some (Some (LongVector (gather idx (cls_index <$> fs)))) else None)
    /\ i !! "p_mask"
       = (if is_extended (model_type args)
          then Some (Some (FloatMatrix
                             (gather idx ((fun f => float_of_Z <$> p_mask f) <$> fs))))
          else None).
Proof.
  unfold dataset_tensors. cbv beta iota zeta.
  destruct (positions start_position fs) as [starts | e]; [| discriminate].
  destruct (positions end_position fs) as [ends | e]; [| discriminate].
  cbn [result_bind]. intros [= <-]. unfold train_inputs. cbn.
  destruct (String.eqb (model_type args) "xlm"), (is_extended (model_type args));
    cbn; eexists _, starts, ends;
    (split; [reflexivity |]); (split; [reflexivity |]); (split; [reflexivity |]);
    repeat split; by simplify_map_eq.
Qed.

(** ** The constructor *)

Section Construction.
Context `{Library} `{Trainer} `{!Hub}.

Lemma downloads_app l1 l2 : downloads (l1 ++ l2) = downloads l1 ++ downloads l2.
Proof. apply omap_app. Qed.

Lemma downloads_bind {A B} (m : T A) (k : A -> T B) s :
  downloads (log (m s)) = [] -> (forall a s', downloads (log (k a s')) = []) ->
  downloads (log ((m ≫= k) s)) = [].
Proof.
  intros Hm Hk. unfold mbind, T_bind, T_bind_def.
  destruct (returned (m s)) as [a | e]; cbn [log]; [| done].
  by rewrite downloads_app, Hm, Hk.
Qed.

Lemma downloads_act a s :
  match a with
  | ConfigFromPretrained _ _ | TokenizerFromPretrained _ _ _
  | ModelFromPretrained _ _ _ | Reader_call (FromPretrained _) => False
  | _ => True
  end ->
  downloads (log (act a s)) = [].
Proof.
  rewrite log_act. destruct a; try done.
  match goal with ev : event |- _ => by destruct ev end.
Qed.

Ltac no_downloads :=
  repeat first
    [ apply downloads_bind; [| intros ? ?]
    | apply downloads_act; exact I
    | reflexivity
    | match goal with |- downloads (log ((if ?c then _ else _) _)) = [] => destruct c end ].

Lemma setup_downloads p s : downloads (log (setup p s)) = [].
Proof. unfold setup, attach_debugger, setup_device, set_seed. no_downloads. Qed.

Lemma model_class_of_returns p s class :
  returned (model_class_of p s) = Returns class ->
  exists t, p_model_type p = Some t /\ class = lower t /\ lower t ∈ MODEL_CLASSES.
Proof.
  unfold model_class_of. destruct (p_model_type p) as [t |]; [| discriminate].
  case_bool_decide as Hin; [| discriminate].
  intros [= <-]. by exists t.
Qed.

Lemma model_class_of_raises p s :
  (forall t, p_model_type p = Some t -> lower t ∉ MODEL_CLASSES) ->
  exists e, model_class_of p s = Run (Raises e) s [].
Proof.
  intros Hunknown. unfold model_class_of.
  destruct (p_model_type p) as [t |]; [| by eexists].
  case_bool_decide as Hin; [by destruct (Hunknown t eq_refl) | by eexists].
Qed.

Lemma load_pretrained_returns p class s name tok m :
  returned (load_pretrained p class s) = Returns (name, tok, m) ->
  p_model_name_or_path p = Some name
  /\ downloads (log (load_pretrained p class s))
     = [default "None" (name_or (p_config_name p) p);
        default "None" (name_or (p_tokenizer_name p) p); name].
Proof.
  intros Hr. unfold load_pretrained in *.
  do 4 returned_bind Hr. rewrite !log_ask.
  destruct (p_model_name_or_path p) as [name' |]; [| discriminate Hm1].
  injection Hm1 as <-. cbn in Hr |- *. by injection Hr as <- <- <-.
Qed.

Lemma load_fine_tuned_returns p dev m s m' :
  returned (load_fine_tuned p dev m s) = Returns m' ->
  match p_pretrained_model_path p with
  | Some path =>
      if PyStr.nonempty path
      then (exists w, from_pretrained path w = inr m')
           /\ downloads (log (load_fine_tuned p dev m s)) = [path]
      else m' = m /\ downloads (log (load_fine_tuned p dev m s)) = []
  | None => m' = m /\ downloads (log (load_fine_tuned p dev m s)) = []
  end.
Proof.
  unfold load_fine_tuned. intros Hr.
  destruct (p_pretrained_model_path p) as [path |]; [| by injection Hr as <-].
  destruct (PyStr.nonempty path); [| by injection Hr as <-].
  do 2 returned_bind Hr. rewrite log_act. injection Hr as <-.
  unfold lift, library_call in Hm |- *. cbn [log] in *.
  destruct (from_pretrained path s.2) as [msg | m''] eqn:Hload; [discriminate Hm |].
  cbn in Hm |- *. injection Hm as <-. split; [by exists s.2 | done].
Qed.

(** X18: the constructor returns only for a model type that is, up to
    case, one of the keys of [MODEL_CLASSES], and for a model name that is
    given; the estimator then carries the type in lower case.  With its
    default [model_type=None] it raises. *)
Theorem init_accepts_known_model_types p s est :
  returned (Reader_init p s) = Returns est ->
  exists t name,
    p_model_type p = Some t
    /\ p_model_name_or_path p = Some name
    /\ lower t ∈ MODEL_CLASSES
    /\ model_type (base (args est)) = lower t
    /\ model_class est = lower t
    /\ model_name_or_path (base (args est)) = name.
Proof.
  intros Hr. unfold Reader_init in Hr.
  apply bind_returns in Hr as (placed & _ & Hr & _).
  apply bind_returns in Hr as (class & Hclass & Hr & _).
  apply bind_returns in Hr as ([[name tok] m] & Hload & Hr & _).
  do 4 apply bind_returns in Hr as (? & _ & Hr & _).
  injection Hr as <-. cbn.
  apply model_class_of_returns in Hclass as (t & Ht & -> & Hin).
  apply load_pretrained_returns in Hload as [Hname _].
  by exists t, name.
Qed.

Lemma bind_raises_first {A B} (m : T A) (k : A -> T B) s :
  (exists e, m s = Run (Raises e) s []) ->
  exists e, (m ≫= k) s = Run (Raises e) s [].
Proof.
  intros [e Hm]. exists e. unfold mbind, T_bind, T_bind_def. by rewrite Hm.
Qed.

Lemma bind_raises_after {A B} (m : T A) (k : A -> T B) s :
  (forall a s', exists e, k a s' = Run (Raises e) s' []) ->
  downloads (log (m s)) = [] ->
  (exists e, returned ((m ≫= k) s) = Raises e)
  /\ downloads (log ((m ≫= k) s)) = [].
Proof.
  intros Hk Hm. unfold mbind, T_bind, T_bind_def.
  destruct (returned (m s)) as [a | e]; cbn [returned log]; [| by eauto].
  destruct (Hk a (after (m s))) as [e ->]. cbn [returned log].
  rewrite app_nil_r. by eauto.
Qed.

(** X19: for a model type that is missing or, in lower case, not a key of
    [MODEL_CLASSES], the constructor raises, and it does so before any
    [from_pretrained] is called: nothing is loaded or downloaded. *)
Theorem init_rejects_before_loading p s :
  (forall t, p_model_type p = Some t -> lower t ∉ MODEL_CLASSES) ->
  (exists e, returned (Reader_init p s) = Raises e)
  /\ downloads (log (Reader_init p s)) = [].
Proof.
  intros Hunknown. unfold Reader_init.
  apply bind_raises_after; [| apply setup_downloads].
  intros placed s'. apply bind_raises_first. by apply model_class_of_raises.
Qed.

(** X20: when the constructor returns, it has called [from_pretrained] for
    the configuration, the tokenizer and the model, in this order, and
    then, if [pretrained_model_path] is given, once more on that path; the
    estimator keeps the model of this last call, so that the model loaded
    from [model_name_or_path] is dropped. *)
Theorem init_keeps_the_last_model_loaded p s est :
  returned (Reader_init p s) = Returns est ->
  exists name,
    p_model_name_or_path p = Some name
    /\ match p_pretrained_model_path p with
       | Some (String c path' as path) =>
           downloads (log (Reader_init p s))
           = [default "None" (name_or (p_config_name p) p);
              default "None" (name_or (p_tokenizer_name p) p); name; path]
           /\ exists w, from_pretrained path w = inr (model (base (args est)))
       | _ =>
           downloads (log (Reader_init p s))
           = [default "None" (name_or (p_config_name p) p);
              default "None" (name_or (p_tokenizer_name p) p); name]
       end.
Proof.
  intros Hr. unfold Reader_init in *.
  do 3 returned_bind Hr. destruct x1 as [[name tok] m].
  do 4 returned_bind Hr. injection Hr as <-. cbn [args base model log].
  apply load_pretrained_returns in Hm1 as [Hname Hloaded].
  exists name. split; [done |].
  rewrite !downloads_app, setup_downloads, Hloaded.
  assert (log (model_class_of p (after (setup p s))) = []) as ->.
  { unfold model_class_of. destruct (p_model_type p); [| done]. by case_bool_decide. }
  rewrite log_act.
  assert (forall s', downloads (log ((if p_local_rank p =? 0 then act Barrier else mret ()) s'))
                     = []) as ->.
  { intros s'. destruct (_ =? 0); [by rewrite log_act | done]. }
  apply load_fine_tuned_returns in Hm5. cbn [app downloads omap fmap list_fmap calls emit lift log].
  destruct (p_pretrained_model_path p) as [[| c path'] |]; cbn [PyStr.nonempty] in Hm5.
  - destruct Hm5 as [_ ->]. done.
  - destruct Hm5 as [Hw ->]. done.
  - destruct Hm5 as [_ ->]. done.
Qed.

End Construction.

(** ** The training facts on the demonstration run *)

(** X12 on three epochs of four batches. *)
Lemma train_counts_whole_accumulations_witness :
  let args := demo_args false 1 (-1) 50 5 (-1) in
  let batches :=
    dataloader_len args demo_train_dataset
      (per_gpu_train_batch_size args * Z.max 1 (n_gpu (base args))) in
  exists epochs,
    py_int (num_train_epochs args) = Returns epochs
    /\ 0 < epochs
    /\ gradient_accumulation_steps args <= batches
    /\ 12 = epochs * (batches / gradient_accumulation_steps args)
    /\ updates (log (train args demo_train_dataset demo_model (tokenizer (base args))
                       demo_world))
       = Z.to_nat 12.
Proof.
  intros args.
  apply (train_counts_whole_accumulations args demo_train_dataset demo_model
           (tokenizer (base args)) demo_world 12 0.5%float
           (set_train_batch_size args 1)).
  - reflexivity.
  - discriminate.
  - vm_compute. reflexivity.
Defined.

(** X13 with [max_steps = 3] and two batches to an update: four updates. *)
Lemma train_overshoots_max_steps_witness :
  let args := demo_args false 2 3 50 5 (-1) in
  let batches :=
    dataloader_len args demo_train_dataset
      (per_gpu_train_batch_size args * Z.max 1 (n_gpu (base args))) in
  4 = max_steps args + 1
  /\ updates (log (train args demo_train_dataset demo_model (tokenizer (base args))
                     demo_world))
     = Z.to_nat (max_steps args + 1)
  /\ num_train_epochs
       (set_num_train_epochs (set_train_batch_size args 1) (Int 2))
     = Int (max_steps args / (batches / gradient_accumulation_steps args) + 1).
Proof.
  intros args.
  apply (train_overshoots_max_steps args demo_train_dataset demo_model
           (tokenizer (base args)) demo_world 4 0.5%float
           (set_num_train_epochs (set_train_batch_size args 1) (Int 2))).
  - reflexivity.
  - reflexivity.
  - vm_compute. reflexivity.
Defined.

(** X14 on a run of twelve updates with [logging_steps = 50]. *)
Lemma train_returns_before_first_evaluation_witness : 12 < 50.
Proof.
  pose (args := demo_args true 1 (-1) 50 5 (-1)).
  apply (train_returns_before_first_evaluation args demo_train_dataset demo_model
           (tokenizer (base args)) demo_world 12 0.5%float
           (set_train_batch_size args 1)).
  - reflexivity.
  - reflexivity.
  - reflexivity.
  - reflexivity.
  - vm_compute. reflexivity.
Defined.

(** X15 on twelve updates with [save_steps = 5]: checkpoints at 5 and 10. *)
Lemma train_saves_every_save_steps_witness :
  let args := demo_args false 1 (-1) 50 5 (-1) in
  checkpoints_saved (log (train args demo_train_dataset demo_model
                            (tokenizer (base args)) demo_world))
  = if in_main_process (local_rank (base args)) && (0 <? save_steps args)
    then (fun j => checkpoint_dir args (j * save_steps args))
           <$> seqZ 1 (12 / save_steps args)
    else [].
Proof.
  intros args.
  apply (train_saves_every_save_steps args demo_train_dataset demo_model
           (tokenizer (base args)) demo_world 12 0.5%float
           (set_train_batch_size args 1)).
  - reflexivity.
  - vm_compute. reflexivity.
Defined.

(** X16 at step 5 of the demonstration run. *)
Lemma checkpoint_step_reads_back_witness :
  PyStr.last_piece
    (PyStr.split "-" (checkpoint_dir (demo_args false 1 (-1) 50 5 (-1)) 5))
  = PyStr.of_int 5.
Proof. apply checkpoint_step_reads_back. discriminate. Defined.

(** X17 on a batch holding the demonstration feature. *)
Lemma train_inputs_follow_the_dataset_witness :
  let f := demo_feature in
  let ds := [LongMatrix [input_ids f]; LongMatrix [input_mask f];
             LongMatrix [segment_ids f]; LongVector [5]; LongVector [6];
             LongVector [cls_index f]; FloatMatrix [float_of_Z <$> p_mask f]] in
  exists i starts ends,
    positions start_position [f] = Ok starts
    /\ positions end_position [f] = Ok ends
    /\ train_inputs (demo_reader "bert" false true true (-1))
         (tensor_gather [0%nat] <$> ds) = Ok i
    /\ i !! "input_ids" = Some (Some (LongMatrix (gather [0%nat] (input_ids <$> [f]))))
    /\ i !! "attention_mask"
       = Some (Some (LongMatrix (gather [0%nat] (input_mask <$> [f]))))
    /\ i !! "token_type_ids"
       = Some (if String.eqb "bert" "xlm" then None
               else Some (LongMatrix (gather [0%nat] (segment_ids <$> [f]))))
    /\ i !! "start_positions" = Some (Some (LongVector (gather [0%nat] starts)))
    /\ i !! "end_positions" = Some (Some (LongVector (gather [0%nat] ends)))
    /\ i !! "cls_index"
       = (if is_extended "bert"
          then Some (Some (LongVector (gather [0%nat] (cls_index <$> [f])))) else None)
    /\ i !! "p_mask"
       = (if is_extended "bert"
          then Some (Some (FloatMatrix
                             (gather [0%nat]
                                ((fun f => float_of_Z <$> p_mask f) <$> [f]))))
          else None).
Proof.
  intros f ds.
  apply (train_inputs_follow_the_dataset (demo_reader "bert" false true true (-1))
           [f] ds [0%nat]).
  reflexivity.
Defined.

(** X18 on the model type [BERT], in capitals. *)
Lemma init_accepts_known_model_types_witness :
  let p := demo_parameters (Some "BERT") None in
  exists t name,
    p_model_type p = Some t
    /\ p_model_name_or_path p = Some name
    /\ lower t ∈ MODEL_CLASSES
    /\ model_type (base (args demo_estimator)) = lower t
    /\ model_class demo_estimator = lower t
    /\ model_name_or_path (base (args demo_estimator)) = name.
Proof.
  intros p.
  apply (init_accepts_known_model_types p demo_world demo_estimator).
  vm_compute. reflexivity.
Defined.

(** X19 on a model type the module has no classes for. *)
Lemma init_rejects_before_loading_witness :
  let p := demo_parameters (Some "GPT2") None in
  (exists e, returned (Reader_init p demo_world) = Raises e)
  /\ downloads (log (Reader_init p demo_world)) = [].
Proof.
  intros p.
  apply (init_rejects_before_loading p demo_world).
  intros t [= <-]. apply (bool_decide_eq_false_1 (lower "GPT2" ∈ MODEL_CLASSES)).
  vm_compute. reflexivity.
Defined.

(** X20 with a fine-tuned checkpoint. *)
Lemma init_keeps_the_last_model_loaded_witness :
  let p := demo_parameters (Some "bert") (Some "models/fine-tuned") in
  exists name,
    p_model_name_or_path p = Some name
    /\ match p_pretrained_model_path p with
       | Some (String c path' as path) =>
           downloads (log (Reader_init p demo_world))
           = [default "None" (name_or (p_config_name p) p);
              default "None" (name_or (p_tokenizer_name p) p); name; path]
           /\ exists w, from_pretrained path w = inr (model (base (args demo_estimator)))
       | _ =>
           downloads (log (Reader_init p demo_world))
           = [default "None" (name_or (p_config_name p) p);
              default "None" (name_or (p_tokenizer_name p) p); name]
       end.
Proof.
  intros p.
  apply (init_keeps_the_last_model_loaded p demo_world demo_estimator).
  vm_compute. reflexivity.
Defined.


(** The same refusal when the directory is written with a trailing slash. *)
Example fit_refuses_with_trailing_slash :
  nonempty_dir world_with_slash.2 "out/"
  /\ fit (demo_fit_args "out/" false (Float 3)) demo_input world_with_slash
     = Run (Raises (Reader_exn (ValueError (output_dir_message "out/"))))
         world_with_slash [].
Proof. split; [split; vm_compute; [reflexivity | discriminate] | vm_compute; reflexivity]. Qed.

(** With overwriting permitted the run goes through: three epochs over the
    one feature, three updates. *)
Example fit_overwrites_when_permitted :
  exists avg self,
    returned (fit (demo_fit_args "out" true (Float 3)) demo_input world_with_checkpoint)
    = Returns self
    /\ returned (train (demo_fit_args "out" true (Float 3))
                   [LongMatrix [input_ids demo_feature];
                    LongMatrix [input_mask demo_feature];
                    LongMatrix [segment_ids demo_feature];
                    LongVector [5]; LongVector [6];
                    LongVector [cls_index demo_feature];
                    FloatMatrix [float_of_Z <$> p_mask demo_feature]]
                   demo_model (tokenizer (base (demo_fit_args "out" true (Float 3))))
                   (0%nat, <["data/cached_train_bert-base-uncased_384"
                               := File (Pickle [demo_feature])]> files_with_checkpoint))
       = Returns ((3, avg), self).
Proof. eexists _, _. split; vm_compute; reflexivity. Qed.

(** [fit] can raise a [ValueError] of another kind: that of [int] on a
    number of epochs that is not a number. *)
Example fit_raises_on_nan_epochs :
  returned (fit (demo_fit_args "out" true (Float nan)) demo_input world_with_checkpoint)
  = Raises (Reader_exn (ValueError "cannot convert float NaN to integer")).
Proof. vm_compute. reflexivity. Qed.

End TrainingFacts.
